(** * NR-U bandwidth-part assignment: LBT channel access, BWP registry,
      decision-window scheduler and RL reward

    A shallow embedding of the C++ sources
      - nr-u-lbt.{h,cc}          (class NrUeLbt)
      - nr-u-bwp-manager.{h,cc}  (class NrUeBwpManager)
      - nr-u-scheduler-ai.{h,cc} (class NrUeAiScheduler)
      - bwp-rl-env.{h,cc}        (class GymBwpRlEnv)
    and the properties of the specification that are stated about them.

    Conventions.
    - [uint16_t] and [uint32_t] values are integers in [Z]; every place
      where the C++ code narrows or wraps is written with [u16]/[u32].
    - [std::map<uint16_t,_>] is a [gmap Z _]; [operator[]] on a missing
      key inserts a value-initialised element, which is written out.
    - ns-3 [Time] is an integer number of nanoseconds (the limits of its
      64 bits are not modelled); the conversion of a fractional number of
      milliseconds to a [Time] is a parameter, see [SlotClock].
    - [double] is modelled by exact rationals extended with the IEEE
      special values (infinities and NaN), so that divisions by zero are
      visible; rounding and signed zeros are not modelled.
    - Random draws ([GetInteger], [rand ()]) and the simulation clock
      ([Simulator::Now ()]) are explicit inputs of the functions. *)

From Stdlib Require Import ZArith QArith Qround Lia Lqa List Bool.
From stdpp Require Import gmap sorting.

Open Scope Z_scope.

(** ** Machine integers *)

Definition u16 (z : Z) : Z := z mod 65536.
Definition u32 (z : Z) : Z := z mod 4294967296.

Definition is_u16 (z : Z) : Prop := 0 <= z < 65536.

(** ** Doubles *)

Module Dbl.

Inductive double : Type :=
| Num (q : Q)
| PInf
| NInf
| NaN.

Definition inf_of (c : comparison) : double :=
  match c with Gt => PInf | Lt => NInf | Eq => NaN end.

Definition sgn (x : double) : comparison :=
  match x with
  | Num q => (q ?= 0)%Q
  | PInf => Gt
  | NInf => Lt
  | NaN => Eq
  end.

Definition sgn_mul (a b : comparison) : comparison :=
  match a, b with
  | Eq, _ | _, Eq => Eq
  | Gt, Gt | Lt, Lt => Gt
  | _, _ => Lt
  end.

Definition neg (x : double) : double :=
  match x with
  | Num q => Num (Qred (- q))
  | PInf => NInf
  | NInf => PInf
  | NaN => NaN
  end.

Definition add (x y : double) : double :=
  match x, y with
  | NaN, _ | _, NaN => NaN
  | Num a, Num b => Num (Qred (a + b))
  | PInf, NInf | NInf, PInf => NaN
  | PInf, _ | _, PInf => PInf
  | NInf, _ | _, NInf => NInf
  end.

Definition sub (x y : double) : double := add x (neg y).

Definition mul (x y : double) : double :=
  match x, y with
  | NaN, _ | _, NaN => NaN
  | Num a, Num b => Num (Qred (a * b))
  | _, _ => inf_of (sgn_mul (sgn x) (sgn y))
  end.

Definition div (x y : double) : double :=
  match x, y with
  | NaN, _ | _, NaN => NaN
  | Num a, Num b =>
      if Qeq_bool b 0 then inf_of (a ?= 0)%Q else Num (Qred (a / b))
  | Num _, _ => Num 0
  | _, Num b =>
      inf_of (sgn_mul (sgn x) (if Qeq_bool b 0 then Gt else (b ?= 0)%Q))
  | _, _ => NaN
  end.

(** [x < y]; false as soon as one side is NaN. *)
Definition ltb (x y : double) : bool :=
  match x, y with
  | NaN, _ | _, NaN => false
  | Num a, Num b => match (a ?= b)%Q with Lt => true | _ => false end
  | NInf, NInf | PInf, _ | _, NInf => false
  | _, _ => true
  end.

(** [std::max (a, b)] is [(a < b) ? b : a]. *)
Definition max (a b : double) : double := if ltb a b then b else a.

(** Conversion of an integer value to [double]. *)
Definition of_Z (z : Z) : double := Num (inject_Z z).

(** [x] is a finite number in the closed interval from [lo] to [hi]. *)
Definition within (lo hi : Q) (x : double) : Prop :=
  match x with Num q => (lo <= q <= hi)%Q | _ => False end.

End Dbl.

Abbreviation double := Dbl.double.

Arguments Dbl.add : simpl never.
Arguments Dbl.sub : simpl never.
Arguments Dbl.mul : simpl never.
Arguments Dbl.div : simpl never.
Arguments Dbl.neg : simpl never.
Arguments Dbl.ltb : simpl never.
Arguments Dbl.max : simpl never.

Definition d0 : double := Dbl.Num 0.
Definition d1 : double := Dbl.Num 1.
Definition d0_1 : double := Dbl.Num (1 # 10).
Definition d0_5 : double := Dbl.Num (1 # 2).
Definition d0_9 : double := Dbl.Num (9 # 10).

(** ** Simulated time *)

(** [MilliSeconds (n)] for an integer number of slots of one millisecond. *)
Definition MilliSeconds (n : Z) : Z := n * 1000000.

(** [MilliSeconds (n * 0.5)] for a slot count [n] ("0.5ms slots").  The
    sources pass a [double] to the ns-3 constructor [MilliSeconds]; how
    ns-3 turns that argument into a [Time] (it has overloads for integers
    and for its fixed-point type) is a parameter of the model, of which
    only non-negativity is used. *)
Class SlotClock : Type := {
  MilliSecondsHalf : Z → Z;
  MilliSecondsHalf_nonneg : ∀ n, 0 <= n → 0 <= MilliSecondsHalf n
}.

(** The reading of the comment in the sources: a slot lasts 0.5 ms. *)
Definition half_ms (n : Z) : Z := n * 500000.

#[global] Program Instance half_ms_slots : SlotClock :=
  {| MilliSecondsHalf := half_ms |}.
Next Obligation. intros n Hn. unfold half_ms. lia. Qed.

(** [Time::GetSeconds ()]. *)
Definition GetSeconds (t : Z) : double := Dbl.Num (Qred (t # 1000000000)).

(** ** NrUeLbt: listen-before-talk per bandwidth part *)

(** [struct BwpLbtState]. *)
Record BwpLbtState : Type := mkBwpLbtState {
  lbt_bwpId : Z;               (* uint16_t *)
  currentCw : Z;               (* uint16_t *)
  wifiPoissonMean : double;
  wifiOccupancy : double;
  lbtFailureRate : double;
  totalAttempts : Z;           (* uint32_t *)
  totalFailures : Z;           (* uint32_t *)
  channelBusyUntil : Z;        (* Time *)
  channelOccupiedUntil : Z;    (* Time *)
  lastUpdateTime : Z           (* Time *)
}.

(** The element [std::map::operator[]] inserts for a missing key: every
    scalar is zero and every [Time] is the default [Time ()]. *)
Definition value_init : BwpLbtState :=
  mkBwpLbtState 0 0 d0 d0 d0 0 0 0 0 0.

Definition set_currentCw (v : Z) (s : BwpLbtState) : BwpLbtState :=
  mkBwpLbtState (lbt_bwpId s) v (wifiPoissonMean s) (wifiOccupancy s)
    (lbtFailureRate s) (totalAttempts s) (totalFailures s)
    (channelBusyUntil s) (channelOccupiedUntil s) (lastUpdateTime s).

Definition set_wifiPoissonMean (v : double) (s : BwpLbtState) : BwpLbtState :=
  mkBwpLbtState (lbt_bwpId s) (currentCw s) v (wifiOccupancy s)
    (lbtFailureRate s) (totalAttempts s) (totalFailures s)
    (channelBusyUntil s) (channelOccupiedUntil s) (lastUpdateTime s).

Definition set_wifiOccupancy (v : double) (s : BwpLbtState) : BwpLbtState :=
  mkBwpLbtState (lbt_bwpId s) (currentCw s) (wifiPoissonMean s) v
    (lbtFailureRate s) (totalAttempts s) (totalFailures s)
    (channelBusyUntil s) (channelOccupiedUntil s) (lastUpdateTime s).

Definition set_lbtFailureRate (v : double) (s : BwpLbtState) : BwpLbtState :=
  mkBwpLbtState (lbt_bwpId s) (currentCw s) (wifiPoissonMean s)
    (wifiOccupancy s) v (totalAttempts s) (totalFailures s)
    (channelBusyUntil s) (channelOccupiedUntil s) (lastUpdateTime s).

Definition set_totalAttempts (v : Z) (s : BwpLbtState) : BwpLbtState :=
  mkBwpLbtState (lbt_bwpId s) (currentCw s) (wifiPoissonMean s)
    (wifiOccupancy s) (lbtFailureRate s) v (totalFailures s)
    (channelBusyUntil s) (channelOccupiedUntil s) (lastUpdateTime s).

Definition set_totalFailures (v : Z) (s : BwpLbtState) : BwpLbtState :=
  mkBwpLbtState (lbt_bwpId s) (currentCw s) (wifiPoissonMean s)
    (wifiOccupancy s) (lbtFailureRate s) (totalAttempts s) v
    (channelBusyUntil s) (channelOccupiedUntil s) (lastUpdateTime s).

Definition set_channelBusyUntil (v : Z) (s : BwpLbtState) : BwpLbtState :=
  mkBwpLbtState (lbt_bwpId s) (currentCw s) (wifiPoissonMean s)
    (wifiOccupancy s) (lbtFailureRate s) (totalAttempts s) (totalFailures s)
    v (channelOccupiedUntil s) (lastUpdateTime s).

Definition set_channelOccupiedUntil (v : Z) (s : BwpLbtState) : BwpLbtState :=
  mkBwpLbtState (lbt_bwpId s) (currentCw s) (wifiPoissonMean s)
    (wifiOccupancy s) (lbtFailureRate s) (totalAttempts s) (totalFailures s)
    (channelBusyUntil s) v (lastUpdateTime s).

Definition set_lastUpdateTime (v : Z) (s : BwpLbtState) : BwpLbtState :=
  mkBwpLbtState (lbt_bwpId s) (currentCw s) (wifiPoissonMean s)
    (wifiOccupancy s) (lbtFailureRate s) (totalAttempts s) (totalFailures s)
    (channelBusyUntil s) (channelOccupiedUntil s) v.

(** The members of [class NrUeLbt] that the channel-access code uses. *)
Record NrUeLbt : Type := mkNrUeLbt {
  m_bwpStates : gmap Z BwpLbtState;
  m_cwMin : Z;                 (* uint16_t *)
  m_cwMax : Z;                 (* uint16_t *)
  m_iccaDuration : Z;          (* uint16_t *)
  m_mcotDuration : Z           (* uint16_t *)
}.

(** [m_bwpStates[bwpId]] read through the reference that [operator[]]
    returns; the insertion it performs is made by [store]. *)
Definition at_key (l : NrUeLbt) (bwpId : Z) : BwpLbtState :=
  default value_init (m_bwpStates l !! bwpId).

Definition store (l : NrUeLbt) (bwpId : Z) (s : BwpLbtState) : NrUeLbt :=
  mkNrUeLbt (<[bwpId := s]> (m_bwpStates l))
    (m_cwMin l) (m_cwMax l) (m_iccaDuration l) (m_mcotDuration l).

(** [NrUeLbt::AddBwp] at simulated time [now].  The interference event it
    schedules is delivered later by [HandleWifiInterference]. *)
Definition Lbt_AddBwp (now : Z) (l : NrUeLbt) (bwpId : Z) (mean : double)
  : NrUeLbt :=
  store l bwpId (mkBwpLbtState bwpId (m_cwMin l) mean d0 d0 0 0 0 0 now).

(** [NrUeLbt::UpdateFailureRate]. *)
Definition UpdateFailureRate (l : NrUeLbt) (bwpId : Z) : NrUeLbt :=
  let state := at_key l bwpId in
  let currentRate :=
    Dbl.div (Dbl.of_Z (totalFailures state)) (Dbl.of_Z (totalAttempts state)) in
  store l bwpId
    (set_lbtFailureRate
       (Dbl.add (Dbl.mul d0_9 (lbtFailureRate state)) (Dbl.mul d0_1 currentRate))
       state).

(** The upper bound [state.currentCw - 1] as the [uint32_t] argument of
    [UniformRandomVariable::GetInteger (uint32_t min, uint32_t max)]:
    the subtraction is done in [int] and then converted. *)
Definition ecca_max (cw : Z) : Z := u32 (cw - 1).

(** [NrUeLbt::ChannelAccessRequest] at simulated time [now]; [draw] is the
    value returned by [m_uniformRandom->GetInteger (0, currentCw - 1)]. *)
Definition ChannelAccessRequest `{SlotClock} (now draw : Z) (l : NrUeLbt) (bwpId : Z)
  : NrUeLbt * bool :=
  let state := at_key l bwpId in
  let state := set_totalAttempts (u32 (totalAttempts state + 1)) state in
  let l := store l bwpId state in
  if now <? channelBusyUntil state then
    (* ICCA failed *)
    let state := set_totalFailures (u32 (totalFailures state + 1)) state in
    let l := store l bwpId state in
    (UpdateFailureRate l bwpId, false)
  else
    let backoffSlots := u16 draw in
    let backoffTime := MilliSecondsHalf backoffSlots in
    let endTime := now + backoffTime in
    if channelBusyUntil state <? endTime then
      (* ECCA interrupted *)
      let state := set_totalFailures (u32 (totalFailures state + 1)) state in
      let l := store l bwpId state in
      let l := UpdateFailureRate l bwpId in
      let state := at_key l bwpId in
      (store l bwpId
         (set_currentCw (u16 (Z.min (2 * currentCw state) (m_cwMax l))) state),
       false)
    else
      let state := set_currentCw (m_cwMin l) state in
      let state :=
        set_channelOccupiedUntil (now + MilliSeconds (m_mcotDuration l)) state in
      (store l bwpId state, true).

(** [NrUeLbt::HandleWifiInterference] at simulated time [now]; [rnd] is the
    value returned by [rand ()]. *)
Definition HandleWifiInterference `{SlotClock} (now rnd : Z) (l : NrUeLbt) (bwpId : Z)
  : NrUeLbt :=
  let state := at_key l bwpId in
  let busySlots := u16 (1 + rnd mod 5) in
  let state :=
    set_channelBusyUntil (now + MilliSecondsHalf busySlots) state in
  let delta := now - lastUpdateTime state in
  let state :=
    set_wifiOccupancy
      (Dbl.add (Dbl.mul (wifiOccupancy state) d0_9)
         (Dbl.mul d0_1
            (Dbl.div (Dbl.mul (Dbl.of_Z busySlots) d0_5) (GetSeconds delta))))
      state in
  let state := set_lastUpdateTime now state in
  store l bwpId state.

(** The [const] getters: [find] and a default for a missing key. *)
Definition GetFailureRate (l : NrUeLbt) (bwpId : Z) : double :=
  match m_bwpStates l !! bwpId with
  | Some s => lbtFailureRate s
  | None => d0
  end.

Definition GetWifiOccupancy (l : NrUeLbt) (bwpId : Z) : double :=
  match m_bwpStates l !! bwpId with
  | Some s => wifiOccupancy s
  | None => d0
  end.

Definition GetContentionWindow (l : NrUeLbt) (bwpId : Z) : Z :=
  match m_bwpStates l !! bwpId with
  | Some s => currentCw s
  | None => m_cwMin l
  end.

(** [NrUeLbt::SetWifiInterference]. *)
Definition SetWifiInterference (l : NrUeLbt) (bwpId : Z) (mean : double)
  : NrUeLbt :=
  match m_bwpStates l !! bwpId with
  | Some s => store l bwpId (set_wifiPoissonMean mean s)
  | None => l
  end.

(** Events delivered to the controller by the simulator, each with the
    time at which it runs and the random value it consumes. *)
Inductive LbtEvent : Type :=
| EvAccess (now draw bwpId : Z)
| EvInterference (now rnd bwpId : Z).

Definition lbt_step `{SlotClock} (l : NrUeLbt) (e : LbtEvent) : NrUeLbt :=
  match e with
  | EvAccess now draw b => fst (ChannelAccessRequest now draw l b)
  | EvInterference now rnd b => HandleWifiInterference now rnd l b
  end.

Definition lbt_run `{SlotClock} (l : NrUeLbt) (es : list LbtEvent) : NrUeLbt :=
  fold_left lbt_step es l.

(** The effect of [ChannelAccessRequest] on the one map element it
    touches, and its result; [ChannelAccessRequest_elem] relates the two. *)
Definition access_elem `{SlotClock} (cwMin cwMax mcot now draw : Z) (s : BwpLbtState)
  : BwpLbtState * bool :=
  let s1 := set_totalAttempts (u32 (totalAttempts s + 1)) s in
  let fail (s : BwpLbtState) :=
    let s2 := set_totalFailures (u32 (totalFailures s + 1)) s in
    set_lbtFailureRate
      (Dbl.add (Dbl.mul d0_9 (lbtFailureRate s2))
         (Dbl.mul d0_1
            (Dbl.div (Dbl.of_Z (totalFailures s2))
               (Dbl.of_Z (totalAttempts s2))))) s2 in
  if now <? channelBusyUntil s then (fail s1, false)
  else if channelBusyUntil s <? now + MilliSecondsHalf (u16 draw) then
    (set_currentCw (u16 (Z.min (2 * currentCw s) cwMax)) (fail s1), false)
  else
    (set_channelOccupiedUntil (now + MilliSeconds mcot)
       (set_currentCw cwMin s1), true).

(** [NrUeLbt::ScheduleWifiInterference]: the delay, in nanoseconds, after
    which the next [HandleWifiInterference] for [bwpId] runs,
    [Seconds (1.0) / state.wifiPoissonMean]. *)
Definition ScheduleWifiInterference (l : NrUeLbt) (bwpId : Z) : double :=
  Dbl.div (Dbl.Num 1000000000) (wifiPoissonMean (at_key l bwpId)).

(** ** NrUeBwpManager: the assignment registry *)

(** [struct BwpInfo]. *)
Record BwpInfo : Type := mkBwpInfo {
  bwpId : Z;                   (* uint16_t *)
  numRbs : Z;                  (* uint16_t *)
  activeUes : Z                (* uint16_t *)
}.

(** The element [m_bwpMap[id]] inserts for a missing key. *)
Definition BwpInfo_init : BwpInfo := mkBwpInfo 0 0 0.

Definition set_activeUes (v : Z) (i : BwpInfo) : BwpInfo :=
  mkBwpInfo (bwpId i) (numRbs i) v.

(** [class NrUeBwpManager]; [phyNotifications] collects the
    [NotifyPhyLayer (ueId, bwpId)] calls handed to the simulator, most
    recent first. *)
Record NrUeBwpManager : Type := mkNrUeBwpManager {
  m_bwpMap : gmap Z BwpInfo;
  m_ueMap : gmap Z Z;
  m_defaultBwpId : Z;          (* uint16_t *)
  phyNotifications : list (Z * Z)
}.

(** [m_bwpMap[id]] as a reference. *)
Definition bwp_at (bm : gmap Z BwpInfo) (id : Z) : BwpInfo :=
  default BwpInfo_init (bm !! id).

(** [m_bwpMap[id].activeUes++] and [m_bwpMap[id].activeUes--]. *)
Definition incr_active (bm : gmap Z BwpInfo) (id : Z) : gmap Z BwpInfo :=
  <[id := set_activeUes (u16 (activeUes (bwp_at bm id) + 1)) (bwp_at bm id)]> bm.

Definition decr_active (bm : gmap Z BwpInfo) (id : Z) : gmap Z BwpInfo :=
  <[id := set_activeUes (u16 (activeUes (bwp_at bm id) - 1)) (bwp_at bm id)]> bm.

(** [NrUeBwpManager::AddBwp]. *)
Definition AddBwp (m : NrUeBwpManager) (id rbs : Z) : NrUeBwpManager :=
  mkNrUeBwpManager (<[id := mkBwpInfo id rbs 0]> (m_bwpMap m))
    (m_ueMap m) (m_defaultBwpId m) (phyNotifications m).

(** [NrUeBwpManager::GetNumBwps], [GetNumRbs], [GetActiveUes]. *)
Definition GetNumBwps (m : NrUeBwpManager) : Z :=
  u16 (Z.of_nat (size (m_bwpMap m))).

Definition GetNumRbs (m : NrUeBwpManager) (id : Z) : Z :=
  match m_bwpMap m !! id with
  | Some i => numRbs i
  | None => 0
  end.

Definition GetActiveUes (m : NrUeBwpManager) (id : Z) : Z :=
  match m_bwpMap m !! id with
  | Some i => activeUes i
  | None => 0
  end.

(** [NrUeBwpManager::AddUe]. *)
Definition AddUe (m : NrUeBwpManager) (ueId : Z) : NrUeBwpManager :=
  match m_ueMap m !! ueId with
  | None =>
      mkNrUeBwpManager (incr_active (m_bwpMap m) (m_defaultBwpId m))
        (<[ueId := m_defaultBwpId m]> (m_ueMap m))
        (m_defaultBwpId m) (phyNotifications m)
  | Some _ => m
  end.

(** [NrUeBwpManager::RemoveUe]. *)
Definition RemoveUe (m : NrUeBwpManager) (ueId : Z) : NrUeBwpManager :=
  match m_ueMap m !! ueId with
  | Some b =>
      mkNrUeBwpManager (decr_active (m_bwpMap m) b)
        (delete ueId (m_ueMap m))
        (m_defaultBwpId m) (phyNotifications m)
  | None => m
  end.

(** [NrUeBwpManager::SwitchBwp]. *)
Definition SwitchBwp (m : NrUeBwpManager) (ueId newBwpId : Z)
  : NrUeBwpManager :=
  match m_ueMap m !! ueId, m_bwpMap m !! newBwpId with
  | Some oldBwpId, Some _ =>
      if decide (oldBwpId = newBwpId) then m
      else
        mkNrUeBwpManager
          (incr_active (decr_active (m_bwpMap m) oldBwpId) newBwpId)
          (<[ueId := newBwpId]> (m_ueMap m))
          (m_defaultBwpId m)
          ((ueId, newBwpId) :: phyNotifications m)
  | _, _ => m   (* NS_LOG_WARN, nothing changes *)
  end.

(** [NrUeBwpManager::GetUeBwp]. *)
Definition GetUeBwp (m : NrUeBwpManager) (ueId : Z) : Z :=
  match m_ueMap m !! ueId with
  | Some b => b
  | None => m_defaultBwpId m
  end.

(** The registry as constructed, with the attribute [DefaultBwpId]. *)
Definition manager_new (defaultBwpId : Z) : NrUeBwpManager :=
  mkNrUeBwpManager ∅ ∅ defaultBwpId [].

(** Calls on the terminal side of the registry. *)
Inductive UeOp : Type :=
| OpAddUe (ueId : Z)
| OpRemoveUe (ueId : Z)
| OpSwitchBwp (ueId newBwpId : Z).

Definition ue_step (m : NrUeBwpManager) (o : UeOp) : NrUeBwpManager :=
  match o with
  | OpAddUe u => AddUe m u
  | OpRemoveUe u => RemoveUe m u
  | OpSwitchBwp u b => SwitchBwp m u b
  end.

Definition ue_run (m : NrUeBwpManager) (os : list UeOp) : NrUeBwpManager :=
  fold_left ue_step os m.

(** Registration of a list of sub-bands [(id, numRbs)]. *)
Definition add_bwps (m : NrUeBwpManager) (bs : list (Z * Z)) : NrUeBwpManager :=
  fold_left (λ m b, AddBwp m b.1 b.2) bs m.

(** Sum of the active-terminal counts over all sub-bands, and the number
    of registered terminals. *)
Definition sum_active (bm : gmap Z BwpInfo) : Z :=
  map_fold (λ _ i acc, activeUes i + acc) 0 bm.

Definition total_active (m : NrUeBwpManager) : Z := sum_active (m_bwpMap m).

Definition num_ues (m : NrUeBwpManager) : Z := Z.of_nat (size (m_ueMap m)).

(** At most 65535 terminals are registered after each call of the
    sequence [os] made from [m]. *)
Fixpoint within_capacity (m : NrUeBwpManager) (os : list UeOp) : Prop :=
  match os with
  | [] => True
  | o :: os =>
      num_ues (ue_step m o) <= 65535 ∧ within_capacity (ue_step m o) os
  end.

(** Number of terminals whose recorded sub-band is [b]. *)
Definition on_bwp (um : gmap Z Z) (b : Z) : nat :=
  size (filter (λ kv : Z * Z, kv.2 = b) um).

(** Every active count is the number of terminals recorded on that
    sub-band, and the counts add up to the number of terminals. *)
Definition reg_inv (m : NrUeBwpManager) : Prop :=
  (∀ b, activeUes (bwp_at (m_bwpMap m) b) = Z.of_nat (on_bwp (m_ueMap m) b)) ∧
  total_active m = num_ues m.

(** ** NrUeAiScheduler: the decision-window scheduler *)

(** [struct BwpStats] and [struct UeStats]. *)
Record BwpStats : Type := mkBwpStats {
  bs_bwpId : Z;                (* uint16_t *)
  bs_lbtFailureRate : double;
  bs_wifiOccupancy : double;
  bs_contentionWindow : double;
  bs_avgBitsPerRb : double;
  bs_totalThroughput : double;
  bs_totalCollisions : Z       (* uint32_t *)
}.

Record UeStats : Type := mkUeStats {
  ueId : Z;                    (* uint16_t *)
  currentBwp : Z;              (* uint16_t *)
  queueSize : Z;               (* uint32_t *)
  holDelay : double;
  throughput : double;
  ue_avgBitsPerRb : double
}.

(** The queries the scheduler makes to the PHY collaborator. *)
Record NrUePhy : Type := mkNrUePhy {
  GetAvgBitsPerRb : Z → double;
  GetQueueSize : Z → Z;
  GetHolDelay : Z → double;
  GetThroughput : Z → double;
  GetUeAvgBitsPerRb : Z → double
}.

Inductive AlgorithmType : Type := LCA | RLA.

(** [class NrUeAiScheduler]; [m_rlEnv] records whether the pointer to the
    RL environment is set. *)
Record NrUeAiScheduler : Type := mkNrUeAiScheduler {
  m_currentWindow : Z;         (* uint32_t *)
  m_algorithmType : AlgorithmType;
  m_timeWindowSize : Z;        (* uint32_t *)
  m_maxScheduledUes : Z;       (* uint32_t *)
  m_epsilon : double;
  m_epsilonMin : double;
  m_epsilonDecay : double;
  m_bwpStats : list BwpStats;
  m_ueStats : list UeStats;
  m_rlEnv : bool
}.

Definition set_epsilon (e : double) (s : NrUeAiScheduler) : NrUeAiScheduler :=
  mkNrUeAiScheduler (m_currentWindow s) (m_algorithmType s)
    (m_timeWindowSize s) (m_maxScheduledUes s) e (m_epsilonMin s)
    (m_epsilonDecay s) (m_bwpStats s) (m_ueStats s) (m_rlEnv s).

Definition set_stats (bs : list BwpStats) (us : list UeStats)
    (s : NrUeAiScheduler) : NrUeAiScheduler :=
  mkNrUeAiScheduler (m_currentWindow s) (m_algorithmType s)
    (m_timeWindowSize s) (m_maxScheduledUes s) (m_epsilon s) (m_epsilonMin s)
    (m_epsilonDecay s) bs us (m_rlEnv s).

Definition set_currentWindow (w : Z) (s : NrUeAiScheduler) : NrUeAiScheduler :=
  mkNrUeAiScheduler w (m_algorithmType s)
    (m_timeWindowSize s) (m_maxScheduledUes s) (m_epsilon s) (m_epsilonMin s)
    (m_epsilonDecay s) (m_bwpStats s) (m_ueStats s) (m_rlEnv s).

(** The statistics entry [DoInitialize] pushes for sub-band [i]. *)
Definition initial_stats (i : Z) : BwpStats :=
  mkBwpStats i
    (Dbl.add d0_1 (Dbl.mul (Dbl.of_Z i) (Dbl.Num (2 # 10))))
    (Dbl.add (Dbl.Num (2 # 10)) (Dbl.mul (Dbl.of_Z i) (Dbl.Num (2 # 10))))
    (Dbl.Num 8) (Dbl.Num 20) d0 0.

(** [NrUeAiScheduler::DoInitialize]: entries for ids [0 .. numBwps - 1]. *)
Definition DoInitialize (s : NrUeAiScheduler) (mgr : NrUeBwpManager)
  : NrUeAiScheduler :=
  set_stats
    (m_bwpStats s ++
     map (λ i, initial_stats (Z.of_nat i)) (seq 0 (Z.to_nat (GetNumBwps mgr))))
    (m_ueStats s) s.

(** The terminals of the registry in the order of [std::map] iteration,
    by increasing id. *)
Definition key_le (a b : Z * Z) : Prop := a.1 <= b.1.

#[global] Instance key_le_dec : RelDecision key_le.
Proof. intros a b. unfold key_le. apply _. Defined.

Definition ue_entries (mgr : NrUeBwpManager) : list (Z * Z) :=
  merge_sort key_le (map_to_list (m_ueMap mgr)).

(** [NrUeAiScheduler::CollectWindowStatistics]. *)
Definition CollectWindowStatistics (s : NrUeAiScheduler) (lbt : NrUeLbt)
    (mgr : NrUeBwpManager) (phy : NrUePhy) : NrUeAiScheduler :=
  set_stats
    (map (λ st,
       mkBwpStats (bs_bwpId st)
         (GetFailureRate lbt (bs_bwpId st))
         (GetWifiOccupancy lbt (bs_bwpId st))
         (Dbl.of_Z (GetContentionWindow lbt (bs_bwpId st)))
         (Dbl.add (Dbl.mul d0_9 (bs_avgBitsPerRb st))
            (Dbl.mul d0_1 (GetAvgBitsPerRb phy (bs_bwpId st))))
         (bs_totalThroughput st) (bs_totalCollisions st))
       (m_bwpStats s))
    (map (λ uePair : Z * Z,
       mkUeStats uePair.1 uePair.2 (GetQueueSize phy uePair.1)
         (GetHolDelay phy uePair.1) (GetThroughput phy uePair.1)
         (GetUeAvgBitsPerRb phy uePair.1))
       (ue_entries mgr))
    s.

(** [NrUeAiScheduler::ResetWindowStatistics]. *)
Definition ResetWindowStatistics (s : NrUeAiScheduler) : NrUeAiScheduler :=
  set_stats
    (map (λ st,
       mkBwpStats (bs_bwpId st) (bs_lbtFailureRate st) (bs_wifiOccupancy st)
         (bs_contentionWindow st) (bs_avgBitsPerRb st) d0 0)
       (m_bwpStats s))
    (m_ueStats s) s.

(** [(1 - F_n) * C_n * N_n^RB] for one statistics entry. *)
Definition lca_metric (mgr : NrUeBwpManager) (st : BwpStats) : double :=
  Dbl.mul (Dbl.mul (Dbl.sub d1 (bs_lbtFailureRate st)) (bs_avgBitsPerRb st))
    (Dbl.of_Z (GetNumRbs mgr (bs_bwpId st))).

(** The first loop of [AssignBwpsLca]: [(bestBwp, maxMetric)], starting
    from [(0, 0.0)]. *)
Definition best_step (mgr : NrUeBwpManager) (acc : Z * double) (st : BwpStats)
  : Z * double :=
  let metric := lca_metric mgr st in
  if Dbl.ltb acc.2 metric then (bs_bwpId st, metric) else acc.

Definition find_best (mgr : NrUeBwpManager) (stats : list BwpStats)
  : Z * double :=
  fold_left (best_step mgr) stats (0, d0).

(** [std::round]: to the nearest integer, halves away from zero. *)
Definition dround (x : double) : double :=
  match x with
  | Dbl.Num q =>
      Dbl.Num (inject_Z (if Qle_bool 0 q then Qfloor (q + (1 # 2))
                         else Qceiling (q - (1 # 2))))
  | _ => x
  end.

(** Conversion of a [double] to [uint16_t]: truncation when the truncated
    value is representable; the conversion is undefined otherwise. *)
Definition to_u16 (x : double) : option Z :=
  match x with
  | Dbl.Num q =>
      let z := if Qle_bool 0 q then Qfloor q else Qceiling q in
      if decide (0 <= z < 65536) then Some z else None
  | _ => None
  end.

(** The inner loop of the proportional branch: at most [n] terminals,
    from index [ueIdx] on, go to [bwp]; [ueIdx] is a [uint16_t]. *)
Fixpoint assign_block (n : nat) (ues : list UeStats) (ueIdx bwp : Z)
    (mgr : NrUeBwpManager) : NrUeBwpManager * Z :=
  match n with
  | O => (mgr, ueIdx)
  | S n' =>
      if ueIdx <? Z.of_nat (length ues) then
        match ues !! Z.to_nat ueIdx with
        | Some ue =>
            assign_block n' ues (u16 (ueIdx + 1)) bwp
              (SwitchBwp mgr (ueId ue) bwp)
        | None => (mgr, ueIdx)
        end
      else (mgr, ueIdx)
  end.

(** [NrUeAiScheduler::AssignBwpsLca]; [None] stands for the undefined
    conversion of an unrepresentable [double] to [uint16_t]. *)
Definition AssignBwpsLca (s : NrUeAiScheduler) (mgr : NrUeBwpManager)
  : option NrUeBwpManager :=
  let bestBwp := (find_best mgr (m_bwpStats s)).1 in
  if Z.of_nat (length (m_ueStats s)) <=? m_maxScheduledUes s then
    Some (fold_left (λ m ue, SwitchBwp m (ueId ue) bestBwp) (m_ueStats s) mgr)
  else
    let bwpMetrics := map (lca_metric mgr) (m_bwpStats s) in
    let totalMetric := fold_left Dbl.add bwpMetrics d0 in
    uesPerBwp ← mapM (λ metric,
                   to_u16 (dround (Dbl.mul (Dbl.of_Z (Z.of_nat (length (m_ueStats s))))
                                     (Dbl.div metric totalMetric))))
                 bwpMetrics;
    Some (fold_left
            (λ (acc : NrUeBwpManager * Z) (bc : BwpStats * Z),
               assign_block (Z.to_nat bc.2) (m_ueStats s) acc.2
                 (bs_bwpId bc.1) acc.1)
            (zip (m_bwpStats s) uesPerBwp) (mgr, 0)).1.

(** Which branch of the epsilon-greedy rule ran. *)
Inductive RlaBranch : Type := Exploration | Exploitation.

(** [NrUeAiScheduler::AssignBwpsRla]; [rnd] is [rand () / (double) RAND_MAX].
    [None] is the [NS_FATAL_ERROR] for a missing environment.  The action
    itself is chosen and executed inside the RL environment; of the
    scheduler only [m_epsilon] changes. *)
Definition AssignBwpsRla (s : NrUeAiScheduler) (rnd : double)
  : option (NrUeAiScheduler * RlaBranch) :=
  if m_rlEnv s then
    let branch :=
      if Dbl.ltb rnd (m_epsilon s) then Exploration else Exploitation in
    Some (set_epsilon
            (Dbl.max (Dbl.mul (m_epsilon s) (m_epsilonDecay s)) (m_epsilonMin s))
            s, branch)
  else None.

(** [NrUeAiScheduler::RunDecisionWindow]. *)
Definition RunDecisionWindow (s : NrUeAiScheduler) (lbt : NrUeLbt)
    (mgr : NrUeBwpManager) (phy : NrUePhy) (rnd : double)
  : option (NrUeAiScheduler * NrUeBwpManager) :=
  let s := CollectWindowStatistics s lbt mgr phy in
  r ← match m_algorithmType s with
      | LCA => mgr' ← AssignBwpsLca s mgr; Some (s, mgr')
      | RLA => r ← AssignBwpsRla s rnd; Some (r.1, mgr)
      end;
  let s := ResetWindowStatistics r.1 in
  Some (set_currentWindow (u32 (m_currentWindow s + 1)) s, r.2).

(** Successive RLA windows, one random value per window. *)
Fixpoint rla_windows (s : NrUeAiScheduler) (rnds : list double)
  : option NrUeAiScheduler :=
  match rnds with
  | [] => Some s
  | rnd :: rnds => r ← AssignBwpsRla s rnd; rla_windows r.1 rnds
  end.

(** ** GymBwpRlEnv: the reward *)

Record GymBwpRlEnv : Type := mkGymBwpRlEnv {
  m_alpha : double;
  m_beta : double;
  m_maxThroughput : double;
  m_totalReward : double;      (* float *)
  m_currentStep : Z;           (* uint32_t *)
  m_episode : Z                (* uint32_t *)
}.

(** The accumulation loop of [GetReward]: sums of the head-of-line delays
    and of the throughputs, from [(0.0, 0.0)]. *)
Definition reward_sums (ueStats : list UeStats) : double * double :=
  fold_left
    (λ (acc : double * double) ue,
       (Dbl.add acc.1 (holDelay ue), Dbl.add acc.2 (throughput ue)))
    ueStats (d0, d0).

(** [GymBwpRlEnv::GetReward] on the scheduler's terminal statistics. *)
Definition GetReward (env : GymBwpRlEnv) (ueStats : list UeStats)
  : GymBwpRlEnv * double :=
  let sums := reward_sums ueStats in
  let avgHolDelay := Dbl.div sums.1 (Dbl.of_Z (Z.of_nat (length ueStats))) in
  let totalThroughput := sums.2 in
  let reward :=
    Dbl.neg (Dbl.add (Dbl.mul (m_alpha env) avgHolDelay)
               (Dbl.mul (m_beta env)
                  (Dbl.sub (m_maxThroughput env) totalThroughput))) in
  (mkGymBwpRlEnv (m_alpha env) (m_beta env) (m_maxThroughput env)
     (Dbl.add (m_totalReward env) reward) (m_currentStep env) (m_episode env),
   reward).

(** [GymBwpRlEnv::GetOptimalAction]: the same search as the first loop of
    [AssignBwpsLca]. *)
Definition GetOptimalAction (mgr : NrUeBwpManager) (bwpStats : list BwpStats)
  : Z :=
  (find_best mgr bwpStats).1.

(** ** Predicates and sample states used in the statements *)

(** The contention window recorded for [b], when [b] has an element. *)
Definition cw_of (l : NrUeLbt) (b : Z) : option Z :=
  currentCw <$> m_bwpStates l !! b.

Definition cw_ok (l : NrUeLbt) (b : Z) : Prop :=
  ∃ cw, cw_of l b = Some cw ∧ m_cwMin l <= cw <= m_cwMax l.

(** A controller with the default attributes (CwMin 8, CwMax 128, ICCA 1,
    MCOT 5) and sub-band 0 registered at time 0. *)
Definition lbt_default : NrUeLbt := mkNrUeLbt ∅ 8 128 1 5.
Definition lbt_one : NrUeLbt := Lbt_AddBwp 0 lbt_default 0 (Dbl.Num 10).

(** Counters and failure rate of one element after at most [n] requests. *)
Definition rate_ok (n : Z) (s : BwpLbtState) : Prop :=
  0 <= totalFailures s <= totalAttempts s ∧ totalAttempts s <= n ∧
  Dbl.within 0 1 (lbtFailureRate s).

(** A scheduler with the RL environment attached, no statistics, and the
    given exploration schedule. *)
Definition rla_scheduler (eps epsMin decay : double) : NrUeAiScheduler :=
  mkNrUeAiScheduler 0 RLA 500 16 eps epsMin decay [] [] true.

(** An environment with the default attributes (Alpha 1, Beta 1,
    MaxThroughput 1000). *)
Definition env_default : GymBwpRlEnv :=
  mkGymBwpRlEnv d1 d1 (Dbl.Num 1000) d0 0 0.

(** The reward formula of the specification when the averaging is
    skipped: [-(alpha * avg + beta * (max - total))]. *)
Definition reward_formula (env : GymBwpRlEnv) (avgHolDelay totalThroughput : double)
  : double :=
  Dbl.neg (Dbl.add (Dbl.mul (m_alpha env) avgHolDelay)
             (Dbl.mul (m_beta env)
                (Dbl.sub (m_maxThroughput env) totalThroughput))).

(** The metric of an entry as a rational, when it is finite. *)
Definition metric_q (mgr : NrUeBwpManager) (st : BwpStats) : Q :=
  match lca_metric mgr st with Dbl.Num q => q | _ => 0%Q end.

(** Entry [st] at position [i] of [stats] has the largest metric, and
    every earlier entry has a strictly smaller one. *)
Definition first_argmax (mgr : NrUeBwpManager) (stats : list BwpStats)
    (i : nat) (st : BwpStats) : Prop :=
  stats !! i = Some st ∧
  (∀ j st', stats !! j = Some st' → (metric_q mgr st' <= metric_q mgr st)%Q) ∧
  (∀ j st', (j < i)%nat → stats !! j = Some st' →
            (metric_q mgr st' < metric_q mgr st)%Q).

(** Every metric is a finite number. *)
Definition metrics_finite (mgr : NrUeBwpManager) (stats : list BwpStats) : Prop :=
  Forall (λ st, lca_metric mgr st = Dbl.Num (metric_q mgr st)) stats.

(** The statistics the LCA search relies on: every metric is a finite,
    non-negative number and every listed sub-band is registered. *)
Definition stats_ok (mgr : NrUeBwpManager) (stats : list BwpStats) : Prop :=
  Forall (λ st, lca_metric mgr st = Dbl.Num (metric_q mgr st) ∧
                (0 <= metric_q mgr st)%Q ∧
                is_Some (m_bwpMap mgr !! bs_bwpId st)) stats.

(** The end-to-end scenario: sub-bands 0 and 1 with 10 resource blocks
    each, terminals 1 .. 5 of which 2 and 4 currently sit on sub-band 1,
    failure rates 0.1 and 0.5, 20 bits per resource block from the PHY,
    and at most 16 terminals scheduled per slot. *)
Definition demo_manager : NrUeBwpManager :=
  ue_run (add_bwps (manager_new 0) [(0, 10); (1, 10)])
    [OpAddUe 1; OpAddUe 2; OpAddUe 3; OpAddUe 4; OpAddUe 5;
     OpSwitchBwp 2 1; OpSwitchBwp 4 1].

Definition demo_lbt : NrUeLbt :=
  store
    (store lbt_default 0
       (mkBwpLbtState 0 8 (Dbl.Num 10) d0 (Dbl.Num (1 # 10)) 0 0 0 0 0))
    1 (mkBwpLbtState 1 8 (Dbl.Num 10) d0 (Dbl.Num (1 # 2)) 0 0 0 0 0).

Definition demo_phy : NrUePhy :=
  mkNrUePhy (λ _, Dbl.Num 20) (λ _, 0) (λ _, d0) (λ _, d0) (λ _, Dbl.Num 20).

Definition demo_scheduler : NrUeAiScheduler :=
  DoInitialize
    (mkNrUeAiScheduler 0 LCA 500 16 d1 (Dbl.Num (1 # 100))
       (Dbl.Num (995 # 1000)) [] [] false)
    demo_manager.

(** ** Further notions used in the statements about the controller *)

(** The sub-band an event is addressed to. *)
Definition event_bwp (e : LbtEvent) : Z :=
  match e with
  | EvAccess _ _ b => b
  | EvInterference _ _ b => b
  end.

(** Number of access requests for sub-band [b] in a sequence of events. *)
Fixpoint accesses (b : Z) (es : list LbtEvent) : Z :=
  match es with
  | [] => 0
  | EvAccess _ _ b' :: es =>
      (if decide (b' = b) then 1 else 0) + accesses b es
  | _ :: es => accesses b es
  end.

(** Number of access requests for [b] that [ChannelAccessRequest] answers
    with [false] when the events are delivered one after the other. *)
Fixpoint denials `{SlotClock} (l : NrUeLbt) (b : Z) (es : list LbtEvent) : Z :=
  match es with
  | [] => 0
  | e :: es =>
      match e with
      | EvAccess now draw b' =>
          if decide (b' = b) then
            if snd (ChannelAccessRequest now draw l b') then 0 else 1
          else 0
      | EvInterference _ _ _ => 0
      end + denials (lbt_step l e) b es
  end.

(** Every interference arrival for [b] in the sequence runs strictly
    later than the last statistics update of [b]. *)
Fixpoint timely `{SlotClock} (l : NrUeLbt) (b : Z) (es : list LbtEvent) : Prop :=
  match es with
  | [] => True
  | e :: es =>
      match e with
      | EvInterference now _ b' => b' = b → lastUpdateTime (at_key l b) < now
      | EvAccess _ _ _ => True
      end ∧ timely (lbt_step l e) b es
  end.

(** ** NrUeBwpManager::RemoveBwp *)

(** One iteration of the loop of [RemoveBwp] over [m_ueMap]: a terminal
    recorded on [bwpId] is recorded on the default sub-band instead and
    [m_bwpMap[m_defaultBwpId].activeUes] is incremented.  The loop writes
    only the entry it is visiting, so the value it reads there is the one
    the map had when the loop started. *)
Definition reassign_step (bwpId dflt : Z)
    (acc : gmap Z Z * gmap Z BwpInfo) (uePair : Z * Z)
  : gmap Z Z * gmap Z BwpInfo :=
  if decide (uePair.2 = bwpId)
  then (<[uePair.1 := dflt]> acc.1, incr_active acc.2 dflt)
  else acc.

(** [NrUeBwpManager::RemoveBwp]: the terminals are visited in the order
    of the map, then the element found at the start is erased. *)
Definition RemoveBwp (m : NrUeBwpManager) (bwpId : Z) : NrUeBwpManager :=
  match m_bwpMap m !! bwpId with
  | Some _ =>
      let r := fold_left (reassign_step bwpId (m_defaultBwpId m))
                 (ue_entries m) (m_ueMap m, m_bwpMap m) in
      mkNrUeBwpManager (delete bwpId r.2) r.1
        (m_defaultBwpId m) (phyNotifications m)
  | None => m
  end.

(** The recorded sub-band of a terminal after [bwpId] is removed. *)
Definition reassigned (bwpId dflt : Z) (x : Z) : Z :=
  if decide (x = bwpId) then dflt else x.

(** The counts while the loop of [RemoveBwp bwpId] runs: every sub-band
    but [bwpId] has its exact count, and the stale count of [bwpId]
    accounts for the terminals already moved away from it. *)
Definition removing_inv (bwpId : Z) (um : gmap Z Z) (bm : gmap Z BwpInfo) : Prop :=
  (∀ b, b ≠ bwpId → activeUes (bwp_at bm b) = Z.of_nat (on_bwp um b)) ∧
  sum_active bm - activeUes (bwp_at bm bwpId) =
    Z.of_nat (size um) - Z.of_nat (on_bwp um bwpId) ∧
  is_Some (bm !! bwpId).

(** ** The proportional branch of the LCA policy *)

(** The numbers of terminals per sub-band ([uesPerBwp]) that the
    proportional branch of [AssignBwpsLca] computes. *)
Definition lca_counts (s : NrUeAiScheduler) (mgr : NrUeBwpManager)
  : option (list Z) :=
  let bwpMetrics := map (lca_metric mgr) (m_bwpStats s) in
  let totalMetric := fold_left Dbl.add bwpMetrics d0 in
  mapM (λ metric,
          to_u16 (dround (Dbl.mul (Dbl.of_Z (Z.of_nat (length (m_ueStats s))))
                            (Dbl.div metric totalMetric))))
       bwpMetrics.

(** The sub-band of the terminal at each position of the terminal list:
    the first [c0] positions get the first sub-band, the next [c1] the
    second, and so on. *)
Definition lca_targets (stats : list BwpStats) (cs : list Z) : list Z :=
  concat (zip_with (λ st c, replicate (Z.to_nat c) (bs_bwpId st)) stats cs).

(** Switching the terminals of a list to the paired sub-bands, in order. *)
Definition switch_pairs (m : NrUeBwpManager) (ps : list (UeStats * Z))
  : NrUeBwpManager :=
  fold_left (λ m (p : UeStats * Z), SwitchBwp m (ueId p.1) p.2) ps m.

(** Three sub-bands with 1, 2 and 3 resource blocks, hence metrics 10, 20
    and 30 at 10 bits per resource block and no failures, and twelve
    terminals 1 .. 12 on sub-band 0; at most 4 terminals per slot. *)
Definition prop_manager : NrUeBwpManager :=
  ue_run (add_bwps (manager_new 0) [(0, 1); (1, 2); (2, 3)])
    (map OpAddUe [1; 2; 3; 4; 5; 6; 7; 8; 9; 10; 11; 12]).

Definition prop_scheduler : NrUeAiScheduler :=
  mkNrUeAiScheduler 0 LCA 500 4 d1 (Dbl.Num (1 # 100)) (Dbl.Num (995 # 1000))
    (map (λ i, mkBwpStats i d0 d0 (Dbl.Num 8) (Dbl.Num 10) d0 0) [0; 1; 2])
    (map (λ u, mkUeStats u 0 0 d0 d0 (Dbl.Num 10))
       [1; 2; 3; 4; 5; 6; 7; 8; 9; 10; 11; 12])
    false.

(** The scheduler of [prop_scheduler] once every sub-band reports a
    failure rate of 1: all three metrics are 0. *)
Definition blocked_scheduler : NrUeAiScheduler :=
  set_stats
    (map (λ i, mkBwpStats i d1 d0 (Dbl.Num 8) (Dbl.Num 10) d0 0) [0; 1; 2])
    (m_ueStats prop_scheduler) prop_scheduler.

(** ** GymBwpRlEnv: the observation and the end of an episode *)

(** [GymBwpRlEnv::GetObservationSpaceShape]; [numUes] and [numBwps] are
    the values the scheduler reports, all arithmetic is [uint32_t]. *)
Definition GetObservationSpaceShape (numUes numBwps : Z) : list Z :=
  let ueStateSize := u32 (5 + numBwps) in
  let bwpStateSize := 3 in
  [1; u32 (u32 (numUes * ueStateSize) + u32 (numBwps * bwpStateSize))].

(** [GymBwpRlEnv::GetGameOver]. *)
Definition GetGameOver (env : GymBwpRlEnv) : bool :=
  1000 <=? m_currentStep env.

(** The values [GetObservation] adds for one terminal: five metrics and
    the inner loop over [i = 0 .. numBwps - 1]. *)
Definition ue_state (numBwps : nat) (ue : UeStats) : list double :=
  [Dbl.of_Z (queueSize ue); holDelay ue; ue_avgBitsPerRb ue; throughput ue;
   ue_avgBitsPerRb ue] ++
  map (λ i, if decide (currentBwp ue = Z.of_nat i) then d1 else d0)
    (seq 0 numBwps).

(** The values [GetObservation] adds for one sub-band. *)
Definition bwp_state (bwp : BwpStats) : list double :=
  [bs_wifiOccupancy bwp; bs_lbtFailureRate bwp; bs_contentionWindow bwp].

(** [GymBwpRlEnv::GetObservation] on the scheduler's statistics: the
    data of the box, in the order of the [AddValue] calls.  The narrowing
    of each value to [float] is not modelled. *)
Definition GetObservation (ueStats : list UeStats) (bwpStats : list BwpStats)
  : list double :=
  let numBwps := length bwpStats in
  let box := fold_left (λ box ue, box ++ ue_state numBwps ue) ueStats [] in
  fold_left (λ box bwp, box ++ bwp_state bwp) bwpStats box.

(** Successive [GetReward] calls, one per decision window, each on the
    terminal statistics of its window. *)
Definition reward_run (env : GymBwpRlEnv) (windows : list (list UeStats))
  : GymBwpRlEnv :=
  fold_left (λ env us, (GetReward env us).1) windows env.


(** Successive decision windows under the LCA policy; each window reads
    the controller and the PHY as they are when it runs.  The random draw
    is used by the RLA policy only. *)
Fixpoint lca_windows (s : NrUeAiScheduler) (mgr : NrUeBwpManager)
    (ws : list (NrUeLbt * NrUePhy))
  : option (NrUeAiScheduler * NrUeBwpManager) :=
  match ws with
  | [] => Some (s, mgr)
  | w :: ws =>
      r ← RunDecisionWindow s w.1 mgr w.2 d0;
      lca_windows r.1 r.2 ws
  end.

(** A PHY that reports the same values for every sub-band and terminal. *)
Definition phy_const (bits : double) : NrUePhy :=
  mkNrUePhy (λ _, bits) (λ _, 0) (λ _, d0) (λ _, d0) (λ _, bits).


(** Two windows read from the controller [lbt_one], with PHY reports of
    10 and 12 bits per resource block. *)
Definition calm_windows : list (NrUeLbt * NrUePhy) :=
  [(lbt_one, phy_const (Dbl.Num 10)); (lbt_one, phy_const (Dbl.Num 12))].


(** [blocked_scheduler] with room for 16 terminals per slot. *)
Definition blocked_wide : NrUeAiScheduler :=
  mkNrUeAiScheduler 0 LCA 500 16 d1 (Dbl.Num (1 # 100)) (Dbl.Num (995 # 1000))
    (m_bwpStats blocked_scheduler) (m_ueStats blocked_scheduler) false.

(** Sub-bands 1 and 2 only, the default sub-band being 1, with terminals
    1 .. 3. *)
Definition manager_without_zero : NrUeBwpManager :=
  ue_run (add_bwps (manager_new 1) [(1, 2); (2, 3)])
    (map OpAddUe [1; 2; 3]).


(** ** Room in the 16-bit counts *)

(** No sub-band carries more than 65535 terminals, the largest value of
    the 16-bit count [activeUes]. *)
Definition band_room (m : NrUeBwpManager) : Prop :=
  Forall (λ kv : Z * Z, Z.of_nat (on_bwp (m_ueMap m) kv.2) <= 65535)
    (map_to_list (m_ueMap m)).

(** [band_room] holds after each call of the sequence [os] made from [m]. *)
Fixpoint counts_fit (m : NrUeBwpManager) (os : list UeOp) : Prop :=
  match os with
  | [] => True
  | o :: os => band_room (ue_step m o) ∧ counts_fit (ue_step m o) os
  end.

(** A fresh LCA scheduler with the default attributes, initialised on a
    registry whose sub-bands are 2 and 3 (10 resource blocks each), with
    terminals 1 and 2 on sub-band 2 and terminal 3 on sub-band 3. *)
Definition offset_manager : NrUeBwpManager :=
  ue_run (add_bwps (manager_new 2) [(2, 10); (3, 10)])
    [OpAddUe 1; OpAddUe 2; OpAddUe 3; OpSwitchBwp 3 3].

Definition offset_scheduler : NrUeAiScheduler :=
  DoInitialize
    (mkNrUeAiScheduler 0 LCA 500 16 d1 (Dbl.Num (1 # 100))
       (Dbl.Num (995 # 1000)) [] [] false)
    offset_manager.


(** * Properties *)

(** ** Maps and configuration *)

Lemma at_key_store l b s : at_key (store l b s) b = s.
Proof. unfold at_key, store. simpl. by rewrite lookup_insert_eq. Qed.

Lemma store_store l b s s' : store (store l b s) b s' = store l b s'.
Proof. unfold store. simpl. by rewrite insert_insert_eq. Qed.

Lemma lookup_store l b s : m_bwpStates (store l b s) !! b = Some s.
Proof. unfold store. simpl. apply lookup_insert_eq. Qed.

Lemma lookup_store_ne l b b' s :
  b ≠ b' → m_bwpStates (store l b s) !! b' = m_bwpStates l !! b'.
Proof. intros. unfold store. simpl. by apply lookup_insert_ne. Qed.

Lemma ChannelAccessRequest_elem `{SlotClock} now draw l b :
  ChannelAccessRequest now draw l b =
  let r := access_elem (m_cwMin l) (m_cwMax l) (m_mcotDuration l) now draw
             (at_key l b) in
  (store l b (fst r), snd r).
Proof.
  unfold ChannelAccessRequest, access_elem, UpdateFailureRate. cbv zeta.
  rewrite !at_key_store, !store_store.
  assert (Hb : channelBusyUntil
                 (set_totalAttempts (u32 (totalAttempts (at_key l b) + 1))
                    (at_key l b)) = channelBusyUntil (at_key l b)) by done.
  rewrite Hb.
  destruct (now <? channelBusyUntil (at_key l b)); [done|].
  by destruct (channelBusyUntil (at_key l b) <? now + MilliSecondsHalf (u16 draw)).
Qed.

Lemma at_key_lookup l b s : m_bwpStates l !! b = Some s → at_key l b = s.
Proof. unfold at_key. by intros ->. Qed.

(** ** Contention-window bounds *)

Lemma lbt_step_config `{SlotClock} l e :
  m_cwMin (lbt_step l e) = m_cwMin l ∧ m_cwMax (lbt_step l e) = m_cwMax l.
Proof. destruct e; simpl; [rewrite ChannelAccessRequest_elem|]; done. Qed.

Lemma lbt_run_config `{SlotClock} l es :
  m_cwMin (lbt_run l es) = m_cwMin l ∧ m_cwMax (lbt_run l es) = m_cwMax l.
Proof.
  revert l. induction es as [|e es IH]; intros l; [done|].
  simpl. destruct (IH (lbt_step l e)) as [-> ->]. apply lbt_step_config.
Qed.

Lemma access_elem_cw `{SlotClock} cwMin cwMax mcot now draw s :
  is_u16 cwMin → is_u16 cwMax → cwMin <= cwMax →
  cwMin <= currentCw s <= cwMax →
  let r := access_elem cwMin cwMax mcot now draw s in
  cwMin <= currentCw (fst r) <= cwMax ∧
  (snd r = true → currentCw (fst r) = cwMin).
Proof.
  intros Hmin Hmax Hle Hcw. unfold access_elem. cbv zeta.
  destruct (now <? channelBusyUntil s); [simpl; split; [lia|done]|].
  destruct (channelBusyUntil s <? now + MilliSecondsHalf (u16 draw)); simpl.
  - split; [|done]. unfold u16, is_u16 in *.
    rewrite Z.mod_small by lia. lia.
  - split; [lia|done].
Qed.

Lemma ChannelAccessRequest_cw_ok `{SlotClock} now draw l b :
  is_u16 (m_cwMin l) → is_u16 (m_cwMax l) → m_cwMin l <= m_cwMax l →
  cw_ok l b →
  let r := ChannelAccessRequest now draw l b in
  cw_ok (fst r) b ∧ (snd r = true → cw_of (fst r) b = Some (m_cwMin l)).
Proof.
  intros Hmin Hmax Hle (cw & Hcw & Hb). unfold cw_of in Hcw.
  destruct (m_bwpStates l !! b) as [s|] eqn:Hs; [|done].
  injection Hcw as <-. rewrite ChannelAccessRequest_elem. cbv zeta.
  rewrite (at_key_lookup _ _ _ Hs).
  pose proof (access_elem_cw _ _ (m_mcotDuration l) now draw s Hmin Hmax Hle Hb)
    as [H1 H2].
  unfold cw_ok, cw_of. simpl. rewrite lookup_insert_eq. simpl. split.
  - eexists. split; [done|]. exact H1.
  - intros Ht. by rewrite (H2 Ht).
Qed.

Lemma lbt_step_cw_ok `{SlotClock} l e b :
  is_u16 (m_cwMin l) → is_u16 (m_cwMax l) → m_cwMin l <= m_cwMax l →
  cw_ok l b → cw_ok (lbt_step l e) b.
Proof.
  intros Hmin Hmax Hle Hok. destruct e as [now draw b'|now rnd b']; simpl.
  - destruct (decide (b' = b)) as [->|Hne].
    + by apply ChannelAccessRequest_cw_ok.
    + rewrite ChannelAccessRequest_elem. cbv zeta. cbn [fst].
      destruct Hok as (cw & Hcw & Hb). exists cw. split; [|done].
      unfold cw_of in *. by rewrite lookup_store_ne.
  - destruct Hok as (cw & Hcw & Hb). unfold HandleWifiInterference. cbv zeta.
    destruct (decide (b' = b)) as [->|Hne].
    + exists cw. split; [|done]. unfold cw_of in *. rewrite lookup_store.
      destruct (m_bwpStates l !! b) as [s|] eqn:Hs; [|done].
      by rewrite (at_key_lookup _ _ _ Hs).
    + exists cw. split; [|done]. unfold cw_of in *. by rewrite lookup_store_ne.
Qed.

Lemma lbt_run_cw_ok `{SlotClock} l es b :
  is_u16 (m_cwMin l) → is_u16 (m_cwMax l) → m_cwMin l <= m_cwMax l →
  cw_ok l b → cw_ok (lbt_run l es) b.
Proof.
  revert l. induction es as [|e es IH]; intros l Hmin Hmax Hle Hok; [done|].
  simpl. destruct (lbt_step_config l e) as [E1 E2].
  apply IH; rewrite ?E1, ?E2; try done. by apply lbt_step_cw_ok.
Qed.

Lemma Lbt_AddBwp_cw_ok t0 l b mean :
  m_cwMin l <= m_cwMax l → cw_ok (Lbt_AddBwp t0 l b mean) b.
Proof.
  intros Hle. exists (m_cwMin l). unfold cw_of, Lbt_AddBwp.
  rewrite lookup_store. simpl. split; [done|lia].
Qed.

(** C2. A sub-band registered with [AddBwp] under [cwMin <= cwMax] keeps
    [cwMin <= currentCw <= cwMax] after any sequence of events (access
    requests and interference arrivals, on this or other sub-bands) and
    after one more access request; and the window is exactly [cwMin]
    right after a request that is granted. *)
Theorem contention_window_bounds `{SlotClock}
    (l0 : NrUeLbt) (t0 b : Z) (mean : double) (es : list LbtEvent) :
  is_u16 (m_cwMin l0) → is_u16 (m_cwMax l0) → m_cwMin l0 <= m_cwMax l0 →
  let l := lbt_run (Lbt_AddBwp t0 l0 b mean) es in
  (∃ cw, cw_of l b = Some cw ∧ m_cwMin l0 <= cw <= m_cwMax l0) ∧
  ∀ now draw,
    let r := ChannelAccessRequest now draw l b in
    (∃ cw, cw_of (fst r) b = Some cw ∧ m_cwMin l0 <= cw <= m_cwMax l0) ∧
    (snd r = true → cw_of (fst r) b = Some (m_cwMin l0)).
Proof.
  intros Hmin Hmax Hle l.
  assert (Hc : m_cwMin l = m_cwMin l0 ∧ m_cwMax l = m_cwMax l0).
  { unfold l. destruct (lbt_run_config (Lbt_AddBwp t0 l0 b mean) es) as [-> ->].
    done. }
  destruct Hc as [E1 E2].
  assert (Hok : cw_ok l b).
  { apply lbt_run_cw_ok; try done. by apply Lbt_AddBwp_cw_ok. }
  split.
  - destruct Hok as (cw & ? & ?). exists cw. by rewrite <- E1, <- E2.
  - intros now draw r.
    destruct (ChannelAccessRequest_cw_ok now draw l b) as [H1 H2];
      rewrite ?E1, ?E2; try done.
    split.
    + destruct H1 as (cw & ? & Hb). exists cw. split; [done|].
      unfold r in *. rewrite ChannelAccessRequest_elem in Hb. simpl in Hb.
      by rewrite <- E1, <- E2.
    + intros Ht. rewrite <- E1. by apply H2.
Qed.

Lemma contention_window_bounds_witness :
  let l := lbt_run (Lbt_AddBwp 0 (mkNrUeLbt ∅ 8 128 1 5) 0 (Dbl.Num 10))
             [EvAccess 1000000 4 0; EvInterference 100000000 2 0] in
  (∃ cw, cw_of l 0 = Some cw ∧ 8 <= cw <= 128) ∧
  ∀ now draw,
    let r := ChannelAccessRequest now draw l 0 in
    (∃ cw, cw_of (fst r) 0 = Some cw ∧ 8 <= cw <= 128) ∧
    (snd r = true → cw_of (fst r) 0 = Some 8).
Proof.
  apply (contention_window_bounds (mkNrUeLbt ∅ 8 128 1 5) 0 0 (Dbl.Num 10)
           [EvAccess 1000000 4 0; EvInterference 100000000 2 0]);
    unfold is_u16; simpl; lia.
Defined.

(** ** The ECCA decision *)

(** Once ICCA has passed, the request is denied exactly when the end of
    the backoff lies strictly after [channelBusyUntil], and it is granted
    only when the backoff has length zero and starts at the very instant
    the busy interval ends. *)
Lemma ecca_outcome `{SlotClock} now draw l b :
  channelBusyUntil (at_key l b) <= now →
  snd (ChannelAccessRequest now draw l b) = true ↔
  (MilliSecondsHalf (u16 draw) = 0 ∧ now = channelBusyUntil (at_key l b)).
Proof.
  intros Hicca. rewrite ChannelAccessRequest_elem. cbv zeta. cbn [snd].
  unfold access_elem. cbv zeta.
  assert (0 <= u16 draw) by (unfold u16; apply Z.mod_pos_bound; lia).
  pose proof (MilliSecondsHalf_nonneg (u16 draw)).
  destruct (Z.ltb_spec now (channelBusyUntil (at_key l b))); [lia|].
  destruct (Z.ltb_spec (channelBusyUntil (at_key l b))
              (now + MilliSecondsHalf (u16 draw)));
    simpl; split; try done; try lia.
Qed.

(** C1. Sub-band 0 has never seen interference ([channelBusyUntil] is 0).
    A request at 1 ms draws a backoff of 4 slots, which completes at 3 ms
    with the channel idle; the request is nevertheless denied, counted as
    a failure, and the contention window is doubled to 16. *)
Theorem ecca_denies_idle_channel :
  let now := 1000000 in
  let draw := 4 in
  let endTime := now + MilliSecondsHalf (u16 draw) in
  let r := ChannelAccessRequest now draw lbt_one 0 in
  0 <= draw <= ecca_max (currentCw (at_key lbt_one 0)) ∧
  (now <? channelBusyUntil (at_key lbt_one 0)) = false ∧
  (endTime <? channelBusyUntil (at_key lbt_one 0)) = false ∧
  snd r = false ∧
  cw_of (fst r) 0 = Some 16 ∧
  totalFailures (at_key (fst r) 0) = 1.
Proof. vm_compute. repeat split; congruence. Qed.

(** ** Failure-rate smoothing *)

Lemma access_elem_denied `{SlotClock} cwMin cwMax mcot now draw s :
  let r := access_elem cwMin cwMax mcot now draw s in
  snd r = false →
  totalAttempts (fst r) = u32 (totalAttempts s + 1) ∧
  totalFailures (fst r) = u32 (totalFailures s + 1) ∧
  lbtFailureRate (fst r) =
    Dbl.add (Dbl.mul d0_9 (lbtFailureRate s))
      (Dbl.mul d0_1
         (Dbl.div (Dbl.of_Z (totalFailures (fst r)))
            (Dbl.of_Z (totalAttempts (fst r))))).
Proof.
  unfold access_elem. cbv zeta.
  destruct (now <? channelBusyUntil s); [done|].
  by destruct (channelBusyUntil s <? now + MilliSecondsHalf (u16 draw)).
Qed.

Lemma smoothing_value (r : Q) (f a : Z) :
  a ≠ 0 →
  ∃ q, Dbl.add (Dbl.mul d0_9 (Dbl.Num r))
         (Dbl.mul d0_1 (Dbl.div (Dbl.of_Z f) (Dbl.of_Z a))) = Dbl.Num q ∧
       (q == (9 # 10) * r + (1 # 10) * (inject_Z f / inject_Z a))%Q.
Proof.
  intros Ha. unfold Dbl.of_Z, Dbl.div, d0_9, d0_1, Dbl.mul, Dbl.add.
  destruct (Qeq_bool (inject_Z a) 0) eqn:E.
  - apply Qeq_bool_iff in E. unfold Qeq, inject_Z in E. simpl in E. lia.
  - eexists. split; [reflexivity|]. by rewrite !Qred_correct.
Qed.

(** C4. After a denied request on a registered sub-band both counters
    have been incremented and the new failure rate is
    [0.9 * failureRate + 0.1 * (totalFailures / totalAttempts)] over the
    incremented counters; for a finite previous rate and a non-zero
    attempt counter this is the rational number of that value. *)
Theorem failure_rate_smoothing `{SlotClock}
    (l : NrUeLbt) (b now draw : Z) (s : BwpLbtState) :
  m_bwpStates l !! b = Some s →
  let r := ChannelAccessRequest now draw l b in
  snd r = false →
  ∃ s', m_bwpStates (fst r) !! b = Some s' ∧
        totalAttempts s' = u32 (totalAttempts s + 1) ∧
        totalFailures s' = u32 (totalFailures s + 1) ∧
        lbtFailureRate s' =
          Dbl.add (Dbl.mul d0_9 (lbtFailureRate s))
            (Dbl.mul d0_1
               (Dbl.div (Dbl.of_Z (totalFailures s'))
                  (Dbl.of_Z (totalAttempts s')))) ∧
        ∀ q0, lbtFailureRate s = Dbl.Num q0 → totalAttempts s' ≠ 0 →
          ∃ q, lbtFailureRate s' = Dbl.Num q ∧
               (q == (9 # 10) * q0 +
                     (1 # 10) * (inject_Z (totalFailures s') /
                                 inject_Z (totalAttempts s')))%Q.
Proof.
  intros Hs r. unfold r. rewrite ChannelAccessRequest_elem. cbv zeta.
  cbn [fst snd]. rewrite (at_key_lookup _ _ _ Hs). intros Hd.
  destruct (access_elem_denied _ _ _ _ _ _ Hd) as (Ha & Hf & Hr).
  eexists. split; [apply lookup_store|]. repeat split; try done.
  intros q0 Hq0 Hne. rewrite Hr, Hq0. by apply smoothing_value.
Qed.

Lemma failure_rate_smoothing_witness :
  let r := ChannelAccessRequest 1000000 4 lbt_one 0 in
  ∃ s', m_bwpStates (fst r) !! 0 = Some s' ∧
        totalAttempts s' = 1 ∧ totalFailures s' = 1 ∧
        lbtFailureRate s' =
          Dbl.add (Dbl.mul d0_9 d0)
            (Dbl.mul d0_1
               (Dbl.div (Dbl.of_Z (totalFailures s'))
                  (Dbl.of_Z (totalAttempts s')))) ∧
        ∀ q0, d0 = Dbl.Num q0 → totalAttempts s' ≠ 0 →
          ∃ q, lbtFailureRate s' = Dbl.Num q ∧
               (q == (9 # 10) * q0 +
                     (1 # 10) * (inject_Z (totalFailures s') /
                                 inject_Z (totalAttempts s')))%Q.
Proof.
  apply (failure_rate_smoothing lbt_one 0 1000000 4
           (mkBwpLbtState 0 8 (Dbl.Num 10) d0 d0 0 0 0 0 0));
    reflexivity.
Defined.

(** ** Queries and requests for an unknown sub-band *)

(** C8. For a sub-band id with no element in [m_bwpStates] (never
    registered and never accessed) the three getters return [0.0], [0.0]
    and [m_cwMin]; they are [const] functions of the controller, look the
    id up with [find], and in particular insert nothing: the id is still
    absent for the next query. *)
Theorem getters_unknown_bwp (l : NrUeLbt) (b : Z) :
  m_bwpStates l !! b = None →
  GetFailureRate l b = d0 ∧
  GetWifiOccupancy l b = d0 ∧
  GetContentionWindow l b = m_cwMin l.
Proof.
  intros H. unfold GetFailureRate, GetWifiOccupancy, GetContentionWindow.
  by rewrite H.
Qed.

Lemma getters_unknown_bwp_witness :
  GetFailureRate lbt_one 7 = d0 ∧
  GetWifiOccupancy lbt_one 7 = d0 ∧
  GetContentionWindow lbt_one 7 = 8.
Proof. apply (getters_unknown_bwp lbt_one 7). reflexivity. Defined.

(** The bound handed to the random draw for an unknown sub-band is the
    32-bit wrap of [-1], not 65535. *)
Lemma ecca_bound_unknown_bwp :
  m_bwpStates lbt_one !! 7 = None ∧
  currentCw (at_key lbt_one 7) = 0 ∧
  ecca_max (currentCw (at_key lbt_one 7)) = 4294967295 ∧
  ecca_max (currentCw (at_key lbt_one 7)) ≠ 65535.
Proof. vm_compute. repeat split; congruence. Qed.

(** C10 (amended). A request for a sub-band id that has no element in
    [m_bwpStates] inserts one, built from the value-initialised state:
    ICCA always passes (the busy time stamp is 0), the contention window
    in force for the draw is 0, so the bound passed to [GetInteger] is
    [-1] converted to 32 bits, 4294967295, and the 16-bit [backoffSlots]
    it yields can be as large as 65535.  The request is granted only at
    time 0 with a zero backoff (the window is then [m_cwMin]); otherwise
    it is denied and the element keeps the window 0, below [m_cwMin]
    whenever [m_cwMin] is positive. *)
Theorem access_unknown_bwp `{SlotClock}
    (l : NrUeLbt) (b now draw : Z) :
  m_bwpStates l !! b = None →
  0 <= now → is_u16 (m_cwMax l) →
  let r := ChannelAccessRequest now draw l b in
  (now <? channelBusyUntil (at_key l b)) = false ∧
  currentCw (at_key l b) = 0 ∧
  ecca_max (currentCw (at_key l b)) = 4294967295 ∧
  0 <= u16 draw <= 65535 ∧
  ∃ s', m_bwpStates (fst r) !! b = Some s' ∧
        totalAttempts s' = 1 ∧
        (snd r = true ↔ (now = 0 ∧ MilliSecondsHalf (u16 draw) = 0)) ∧
        (snd r = true → currentCw s' = m_cwMin l) ∧
        (snd r = false → currentCw s' = 0 ∧ totalFailures s' = 1).
Proof.
  intros Hs Hnow Hmax r. unfold r.
  assert (Hk : at_key l b = value_init) by (unfold at_key; by rewrite Hs).
  assert (Hd : 0 <= u16 draw < 65536) by (unfold u16; apply Z.mod_pos_bound; lia).
  rewrite ChannelAccessRequest_elem. cbv zeta. cbn [fst snd]. rewrite Hk.
  simpl channelBusyUntil. simpl currentCw.
  destruct (Z.ltb_spec now 0) as [?|_]; [lia|].
  split; [done|]. split; [done|]. split; [done|]. split; [lia|].
  eexists. split; [apply lookup_store|].
  unfold access_elem. cbv zeta. simpl channelBusyUntil.
  destruct (Z.ltb_spec now 0) as [?|_]; [lia|].
  pose proof (MilliSecondsHalf_nonneg (u16 draw)). unfold is_u16 in Hmax.
  destruct (Z.ltb_spec 0 (now + MilliSecondsHalf (u16 draw))); simpl.
  - rewrite Z.min_l by lia.
    split; [done|]. split; [split; [done|lia]|]. split; done.
  - split; [done|]. split; [split; [lia|done]|]. split; done.
Qed.

Lemma access_unknown_bwp_witness :
  let r := ChannelAccessRequest 1000000 65535 lbt_one 7 in
  (1000000 <? channelBusyUntil (at_key lbt_one 7)) = false ∧
  currentCw (at_key lbt_one 7) = 0 ∧
  ecca_max (currentCw (at_key lbt_one 7)) = 4294967295 ∧
  0 <= u16 65535 <= 65535 ∧
  ∃ s', m_bwpStates (fst r) !! 7 = Some s' ∧
        totalAttempts s' = 1 ∧
        (snd r = true ↔ (1000000 = 0 ∧ MilliSecondsHalf (u16 65535) = 0)) ∧
        (snd r = true → currentCw s' = 8) ∧
        (snd r = false → currentCw s' = 0 ∧ totalFailures s' = 1).
Proof.
  apply (access_unknown_bwp lbt_one 7 1000000 65535);
    [reflexivity | lia | unfold is_u16; simpl; lia].
Defined.

(** ** Ranges of the smoothed statistics *)

Lemma ratio_bounds (f a : Z) :
  0 <= f <= a → 0 < a → (0 <= inject_Z f / inject_Z a <= 1)%Q.
Proof.
  intros [Hf Hfa] Ha.
  assert (Ha' : (0 < inject_Z a)%Q) by (rewrite (Zlt_Qlt 0 a) in Ha; exact Ha).
  split.
  - apply Qle_shift_div_l; [done|]. rewrite Qmult_0_l.
    rewrite (Zle_Qle 0 f) in Hf. exact Hf.
  - apply Qle_shift_div_r; [done|]. rewrite Qmult_1_l.
    rewrite (Zle_Qle f a) in Hfa. exact Hfa.
Qed.

Lemma smoothing_within (r : Q) (f a : Z) :
  (0 <= r <= 1)%Q → 0 <= f <= a → 0 < a →
  Dbl.within 0 1
    (Dbl.add (Dbl.mul d0_9 (Dbl.Num r))
       (Dbl.mul d0_1 (Dbl.div (Dbl.of_Z f) (Dbl.of_Z a)))).
Proof.
  intros Hr Hf Ha.
  destruct (smoothing_value r f a) as (q & -> & Hq); [lia|].
  pose proof (ratio_bounds f a Hf Ha) as Hc.
  unfold Dbl.within. rewrite Hq. clear Hq.
  revert Hc. generalize (inject_Z f / inject_Z a)%Q. intros c Hc. lra.
Qed.

Lemma rate_ok_mono n m s : n <= m → rate_ok n s → rate_ok m s.
Proof. unfold rate_ok. intros ? (? & ? & ?). repeat split; try done; lia. Qed.

Lemma access_elem_rate_ok `{SlotClock} cwMin cwMax mcot now draw n s :
  n + 1 < 4294967296 → rate_ok n s →
  rate_ok (n + 1) (fst (access_elem cwMin cwMax mcot now draw s)).
Proof.
  intros Hn ([Hf Hfa] & Ha & Hr).
  destruct (lbtFailureRate s) as [q| | |] eqn:Eq; try done. simpl in Hr.
  assert (Ea : u32 (totalAttempts s + 1) = totalAttempts s + 1)
    by (unfold u32; apply Z.mod_small; lia).
  assert (Ef : u32 (totalFailures s + 1) = totalFailures s + 1)
    by (unfold u32; apply Z.mod_small; lia).
  assert (Hw : Dbl.within 0 1
                 (Dbl.add (Dbl.mul d0_9 (Dbl.Num q))
                    (Dbl.mul d0_1
                       (Dbl.div (Dbl.of_Z (totalFailures s + 1))
                          (Dbl.of_Z (totalAttempts s + 1))))))
    by (apply smoothing_within; [done|lia|lia]).
  unfold access_elem. cbv zeta.
  destruct (now <? channelBusyUntil s);
    [|destruct (channelBusyUntil s <? now + MilliSecondsHalf (u16 draw))];
    unfold rate_ok; simpl; rewrite ?Ea, ?Ef, ?Eq; simpl;
    repeat split; try lia; try exact Hw; by apply Hr.
Qed.

Lemma lbt_step_rate_ok `{SlotClock} l e b n s :
  n + 1 < 4294967296 →
  m_bwpStates l !! b = Some s → rate_ok n s →
  ∃ s', m_bwpStates (lbt_step l e) !! b = Some s' ∧ rate_ok (n + 1) s'.
Proof.
  intros Hn Hs Hok. destruct e as [now draw b'|now rnd b']; cbn [lbt_step].
  - rewrite ChannelAccessRequest_elem. cbv zeta. cbn [fst].
    destruct (decide (b' = b)) as [->|Hne].
    + rewrite (at_key_lookup _ _ _ Hs). eexists.
      split; [apply lookup_store|]. by apply access_elem_rate_ok.
    + exists s. rewrite lookup_store_ne by done.
      split; [done|]. apply (rate_ok_mono n); [lia|done].
  - unfold HandleWifiInterference. cbv zeta.
    destruct (decide (b' = b)) as [->|Hne].
    + rewrite (at_key_lookup _ _ _ Hs). eexists.
      split; [apply lookup_store|]. apply (rate_ok_mono n); [lia|done].
    + exists s. rewrite lookup_store_ne by done.
      split; [done|]. apply (rate_ok_mono n); [lia|done].
Qed.

Lemma lbt_run_rate_ok `{SlotClock} es : ∀ l b n s,
  n + Z.of_nat (length es) < 4294967296 →
  m_bwpStates l !! b = Some s → rate_ok n s →
  ∃ s', m_bwpStates (lbt_run l es) !! b = Some s' ∧
        rate_ok (n + Z.of_nat (length es)) s'.
Proof.
  induction es as [|e es IH]; intros l b n s Hn Hs Hok.
  - exists s. split; [done|]. apply (rate_ok_mono n); [simpl; lia|done].
  - simpl lbt_run. cbn [length] in *.
    destruct (lbt_step_rate_ok l e b n s) as (s1 & Hs1 & Hok1); [lia|done|done|].
    destruct (IH (lbt_step l e) b (n + 1) s1) as (s2 & Hs2 & Hok2);
      [lia|done|done|].
    exists s2. split; [done|]. apply (rate_ok_mono (n + 1 + Z.of_nat (length es)));
      [lia|done].
Qed.

(** C7.  The occupancy sample of [HandleWifiInterference] is
    [busySlots * 0.5], a number of milliseconds, divided by the elapsed
    time in seconds.  The first interference event of [lbt_one] (rate 10
    per second) runs 0.1 s after registration; with [rand () % 5 = 2] the
    channel is busy for three slots, 1.5 ms of the 100 ms elapsed, the
    sample is 15 and the smoothed occupancy becomes 1.5, outside the
    closed interval from 0 to 1. *)
Lemma occupancy_exceeds_one :
  ScheduleWifiInterference lbt_one 0 = Dbl.Num 100000000 ∧
  let l := lbt_run lbt_one [EvInterference 100000000 2 0] in
  GetWifiOccupancy l 0 = Dbl.Num (3 # 2) ∧
  ¬ Dbl.within 0 1 (GetWifiOccupancy l 0).
Proof.
  split; [reflexivity|]. cbv zeta. split; [reflexivity|].
  vm_compute. intros [_ H]. by apply H.
Qed.

(** X26.  The smoothed failure rate stays in the unit interval.  For a
    sub-band registered with [AddBwp] and any sequence of fewer than 2^32
    access requests and interference arrivals, for any sub-bands, the
    failure rate of the sub-band is a finite number in the closed
    interval from 0 to 1, also as [GetFailureRate] reports it; an
    interference arrival never changes it. *)
Theorem failure_rate_unit_interval `{SlotClock}
    (l0 : NrUeLbt) (t0 b : Z) (mean : double) (es : list LbtEvent) :
  Z.of_nat (length es) < 4294967296 →
  let l := lbt_run (Lbt_AddBwp t0 l0 b mean) es in
  (∃ s, m_bwpStates l !! b = Some s ∧ Dbl.within 0 1 (lbtFailureRate s)) ∧
  Dbl.within 0 1 (GetFailureRate l b) ∧
  ∀ now rnd,
    GetFailureRate (HandleWifiInterference now rnd l b) b = GetFailureRate l b.
Proof.
  intros Hlen l.
  destruct (lbt_run_rate_ok es (Lbt_AddBwp t0 l0 b mean) b 0
              (mkBwpLbtState b (m_cwMin l0) mean d0 d0 0 0 0 0 t0))
    as (s & Hs & Hok).
  - lia.
  - apply lookup_store.
  - unfold rate_ok. simpl. repeat split; try lia; done.
  - fold l in Hs. destruct Hok as (_ & _ & Hr).
    split; [by exists s|]. split.
    { unfold GetFailureRate. by rewrite Hs. }
    intros now rnd. unfold HandleWifiInterference. cbv zeta.
    unfold GetFailureRate.
    rewrite lookup_store, Hs, (at_key_lookup _ _ _ Hs). done.
Qed.

Lemma failure_rate_unit_interval_witness :
  let l := lbt_run lbt_one [EvAccess 1000000 4 0; EvInterference 100000000 2 0] in
  (∃ s, m_bwpStates l !! 0 = Some s ∧ Dbl.within 0 1 (lbtFailureRate s)) ∧
  Dbl.within 0 1 (GetFailureRate l 0) ∧
  ∀ now rnd,
    GetFailureRate (HandleWifiInterference now rnd l 0) 0 = GetFailureRate l 0.
Proof.
  apply (failure_rate_unit_interval lbt_default 0 0 (Dbl.Num 10)
           [EvAccess 1000000 4 0; EvInterference 100000000 2 0]).
  simpl. lia.
Defined.

(** ** Assignment conservation *)

Section Registry.

Implicit Types (bm : gmap Z BwpInfo) (um : gmap Z Z).

Lemma sum_active_insert_None bm b i :
  bm !! b = None → sum_active (<[b:=i]> bm) = activeUes i + sum_active bm.
Proof.
  intros H. unfold sum_active. rewrite map_fold_insert_L; [done| |done].
  intros. lia.
Qed.

Lemma sum_active_delete bm b i :
  bm !! b = Some i → sum_active bm = activeUes i + sum_active (delete b bm).
Proof.
  intros H. unfold sum_active. rewrite (map_fold_delete_L _ _ b i bm); [done| |done].
  intros. lia.
Qed.

Lemma sum_active_insert bm b i :
  sum_active (<[b:=i]> bm) =
  sum_active bm - activeUes (bwp_at bm b) + activeUes i.
Proof.
  unfold bwp_at. destruct (bm !! b) as [i0|] eqn:E; simpl.
  - rewrite <- insert_delete_eq.
    rewrite sum_active_insert_None by apply lookup_delete_eq.
    rewrite (sum_active_delete bm b i0 E). lia.
  - rewrite sum_active_insert_None by done. lia.
Qed.

Lemma bwp_at_insert bm b i : bwp_at (<[b:=i]> bm) b = i.
Proof. unfold bwp_at. by rewrite lookup_insert_eq. Qed.

Lemma bwp_at_insert_ne bm b b' i : b ≠ b' → bwp_at (<[b:=i]> bm) b' = bwp_at bm b'.
Proof. intros. unfold bwp_at. by rewrite lookup_insert_ne. Qed.

Lemma on_bwp_le um b : (on_bwp um b ≤ size um)%nat.
Proof. apply map_subseteq_size, map_filter_subseteq. Qed.

Lemma on_bwp_insert_fresh um u b0 b :
  um !! u = None →
  on_bwp (<[u:=b0]> um) b = ((if decide (b0 = b) then 1 else 0) + on_bwp um b)%nat.
Proof.
  intros H. unfold on_bwp. destruct (decide (b0 = b)) as [->|Hne].
  - rewrite map_filter_insert_True by done.
    rewrite map_size_insert_None; [done|].
    apply map_lookup_filter_None. by left.
  - rewrite map_filter_insert_False by (simpl; congruence).
    by rewrite delete_id.
Qed.

Lemma on_bwp_delete um u b0 b :
  um !! u = Some b0 →
  on_bwp um b = ((if decide (b0 = b) then 1 else 0) + on_bwp (delete u um) b)%nat.
Proof.
  intros H. rewrite <- (insert_delete_id um u b0 H) at 1.
  apply on_bwp_insert_fresh, lookup_delete_eq.
Qed.

End Registry.

Lemma on_bwp_empty b : on_bwp ∅ b = 0%nat.
Proof. unfold on_bwp. by rewrite map_filter_empty, map_size_empty. Qed.

Lemma add_bwps_inv bs : ∀ m,
  m_ueMap m = ∅ → reg_inv m → 
  m_ueMap (add_bwps m bs) = ∅ ∧ reg_inv (add_bwps m bs) ∧
  m_defaultBwpId (add_bwps m bs) = m_defaultBwpId m.
Proof.
  induction bs as [|[id rbs] bs IH]; intros m Hu Hinv; [done|].
  simpl. destruct (IH (AddBwp m id rbs)) as (H1 & H2 & H3); [done| |done].
  destruct Hinv as [Hc Ht]. unfold reg_inv, total_active, num_ues in *.
  simpl. rewrite Hu in *. split.
  - intros b. rewrite on_bwp_empty. destruct (decide (id = b)) as [->|Hne].
    + by rewrite bwp_at_insert.
    + rewrite bwp_at_insert_ne by done. by rewrite Hc, on_bwp_empty.
  - rewrite sum_active_insert, Hc, on_bwp_empty. simpl. lia.
Qed.

Lemma manager_new_inv d : reg_inv (manager_new d).
Proof.
  split; [|done]. intros b. simpl. by rewrite on_bwp_empty.
Qed.

Lemma AddUe_inv m u :
  reg_inv m → num_ues (AddUe m u) <= 65535 → reg_inv (AddUe m u).
Proof.
  intros [Hc Ht]. unfold AddUe.
  destruct (m_ueMap m !! u) as [b0|] eqn:Hu; [done|].
  unfold reg_inv, total_active, num_ues, incr_active in *. simpl.
  rewrite map_size_insert_None by done. intros Hn.
  set (d := m_defaultBwpId m) in *.
  pose proof (on_bwp_le (m_ueMap m) d) as Hle.
  assert (E : u16 (activeUes (bwp_at (m_bwpMap m) d) + 1) =
              Z.of_nat (on_bwp (m_ueMap m) d) + 1).
  { rewrite Hc. unfold u16. apply Z.mod_small. lia. }
  rewrite E. split.
  - intros b. rewrite on_bwp_insert_fresh by done.
    destruct (decide (d = b)) as [->|Hne].
    + rewrite bwp_at_insert. simpl. lia.
    + rewrite bwp_at_insert_ne by done. rewrite Hc. simpl. lia.
  - rewrite sum_active_insert. simpl. rewrite Hc. lia.
Qed.

Lemma RemoveUe_inv m u :
  reg_inv m → num_ues m <= 65535 → reg_inv (RemoveUe m u).
Proof.
  intros [Hc Ht] Hn. unfold RemoveUe.
  destruct (m_ueMap m !! u) as [b0|] eqn:Hu; [|done].
  unfold reg_inv, total_active, num_ues, decr_active in *. simpl.
  rewrite map_size_delete_Some by done.
  pose proof (on_bwp_le (m_ueMap m) b0) as Hle.
  pose proof (on_bwp_delete (m_ueMap m) u b0 b0 Hu) as Hd.
  rewrite decide_True in Hd by done.
  assert (E : u16 (activeUes (bwp_at (m_bwpMap m) b0) - 1) =
              Z.of_nat (on_bwp (delete u (m_ueMap m)) b0)).
  { rewrite Hc. unfold u16. rewrite Z.mod_small; lia. }
  rewrite E. split.
  - intros b. destruct (decide (b0 = b)) as [->|Hne].
    + by rewrite bwp_at_insert.
    + rewrite bwp_at_insert_ne by done. rewrite Hc.
      rewrite (on_bwp_delete (m_ueMap m) u b0 b Hu).
      by rewrite decide_False by done.
  - rewrite sum_active_insert. simpl. rewrite Hc.
    assert (size (m_ueMap m) ≠ 0)%nat by lia. lia.
Qed.

Lemma SwitchBwp_inv m u new :
  reg_inv m → num_ues m <= 65535 → reg_inv (SwitchBwp m u new).
Proof.
  intros [Hc Ht] Hn. unfold SwitchBwp.
  destruct (m_ueMap m !! u) as [old|] eqn:Hu; [|done].
  destruct (m_bwpMap m !! new) as [inew|] eqn:Hb; [|done].
  destruct (decide (old = new)) as [|Hne]; [done|].
  unfold reg_inv, total_active, num_ues, incr_active, decr_active in *. simpl.
  rewrite map_size_insert_Some by done.
  set (um := m_ueMap m) in *. set (bm := m_bwpMap m) in *.
  set (um0 := delete u um).
  assert (Hsz : size um = S (size um0)).
  { unfold um0. rewrite map_size_delete_Some by done.
    assert (size um ≠ 0)%nat; [|lia].
    apply map_size_ne_0_lookup. by exists u. }
  assert (Hold : ∀ b, on_bwp um b =
                   ((if decide (old = b) then 1 else 0) + on_bwp um0 b)%nat)
    by (intros b; by apply on_bwp_delete).
  assert (Hnew : ∀ b, on_bwp (<[u:=new]> um) b =
                   ((if decide (new = b) then 1 else 0) + on_bwp um0 b)%nat).
  { intros b. rewrite <- insert_delete_eq.
    apply on_bwp_insert_fresh, lookup_delete_eq. }
  pose proof (on_bwp_le um0 new) as Hle.
  assert (E1 : u16 (activeUes (bwp_at bm old) - 1) = Z.of_nat (on_bwp um0 old)).
  { rewrite Hc, Hold, decide_True by done.
    pose proof (on_bwp_le um0 old). unfold u16. rewrite Z.mod_small; lia. }
  rewrite E1. rewrite (bwp_at_insert_ne _ old new) by done.
  assert (E2 : u16 (activeUes (bwp_at bm new) + 1) = Z.of_nat (on_bwp um0 new) + 1).
  { rewrite Hc, Hold, decide_False by done. unfold u16.
    rewrite Z.mod_small; lia. }
  rewrite E2. split.
  - intros b. rewrite Hnew. destruct (decide (new = b)) as [->|Hnb].
    + rewrite bwp_at_insert. simpl. lia.
    + rewrite bwp_at_insert_ne by done.
      destruct (decide (old = b)) as [->|Hob].
      * rewrite bwp_at_insert. simpl. lia.
      * rewrite bwp_at_insert_ne by done.
        rewrite Hc, Hold, decide_False by done. lia.
  - rewrite !sum_active_insert. rewrite (bwp_at_insert_ne _ old new) by done.
    simpl. rewrite !Hc, !Hold, decide_True, decide_False by done. lia.
Qed.

Lemma ue_step_inv m o :
  reg_inv m → num_ues m <= 65535 → num_ues (ue_step m o) <= 65535 →
  reg_inv (ue_step m o).
Proof.
  intros Hinv Hn Hn'. destruct o as [u|u|u b]; cbn [ue_step] in *.
  - by apply AddUe_inv.
  - by apply RemoveUe_inv.
  - by apply SwitchBwp_inv.
Qed.

Lemma ue_run_inv os : ∀ m,
  reg_inv m → num_ues m <= 65535 → within_capacity m os →
  reg_inv (ue_run m os) ∧ num_ues (ue_run m os) <= 65535.
Proof.
  induction os as [|o os IH]; intros m Hinv Hn Hcap; [done|].
  destruct Hcap as [Hn' Hcap]. simpl. apply IH; [|done|done].
  by apply ue_step_inv.
Qed.

Lemma GetActiveUes_bwp_at m b :
  GetActiveUes m b = activeUes (bwp_at (m_bwpMap m) b).
Proof. unfold GetActiveUes, bwp_at. by destruct (m_bwpMap m !! b). Qed.

Lemma band_room_lookup m u b :
  band_room m → m_ueMap m !! u = Some b →
  Z.of_nat (on_bwp (m_ueMap m) b) <= 65535.
Proof.
  intros H Hu. unfold band_room in H. rewrite Forall_forall in H.
  apply (H (u, b)). by apply elem_of_map_to_list.
Qed.

Lemma band_room_size m : num_ues m <= 65535 → band_room m.
Proof.
  intros Hn. apply Forall_forall. intros [u b] _. cbn [snd].
  pose proof (on_bwp_le (m_ueMap m) b). unfold num_ues in Hn. lia.
Qed.

(** The invariant needs room in the counts that are touched only: the
    default sub-band for [AddUe], the target sub-band for [SwitchBwp]. *)
Lemma AddUe_fit m u :
  reg_inv m → band_room (AddUe m u) → reg_inv (AddUe m u).
Proof.
  intros [Hc Ht] Hroom.
  destruct (m_ueMap m !! u) as [b0|] eqn:Hu.
  { unfold AddUe. by rewrite Hu. }
  set (d := m_defaultBwpId m).
  assert (HA : AddUe m u =
               mkNrUeBwpManager (incr_active (m_bwpMap m) d)
                 (<[u := d]> (m_ueMap m)) d (phyNotifications m)).
  { unfold AddUe. by rewrite Hu. }
  rewrite HA in Hroom |- *.
  pose proof (band_room_lookup _ u d Hroom) as Hle.
  cbn [m_ueMap] in Hle. rewrite lookup_insert_eq in Hle.
  specialize (Hle eq_refl). rewrite on_bwp_insert_fresh in Hle by done.
  rewrite decide_True in Hle by done.
  unfold reg_inv, total_active, num_ues, incr_active in *.
  cbn [m_ueMap m_bwpMap]. rewrite map_size_insert_None by done.
  assert (E : u16 (activeUes (bwp_at (m_bwpMap m) d) + 1) =
              Z.of_nat (on_bwp (m_ueMap m) d) + 1).
  { rewrite Hc. unfold u16. apply Z.mod_small. lia. }
  rewrite E. split.
  - intros b. rewrite on_bwp_insert_fresh by done.
    destruct (decide (d = b)) as [->|Hne].
    + rewrite bwp_at_insert. simpl. lia.
    + rewrite bwp_at_insert_ne by done. rewrite Hc. simpl. lia.
  - rewrite sum_active_insert. simpl. rewrite Hc. lia.
Qed.

Lemma RemoveUe_fit m u :
  reg_inv m → band_room m → reg_inv (RemoveUe m u).
Proof.
  intros [Hc Ht] Hroom. unfold RemoveUe.
  destruct (m_ueMap m !! u) as [b0|] eqn:Hu; [|done].
  pose proof (band_room_lookup _ u b0 Hroom Hu) as Hle.
  unfold reg_inv, total_active, num_ues, decr_active in *. simpl.
  rewrite map_size_delete_Some by done.
  pose proof (on_bwp_delete (m_ueMap m) u b0 b0 Hu) as Hd.
  rewrite decide_True in Hd by done.
  assert (E : u16 (activeUes (bwp_at (m_bwpMap m) b0) - 1) =
              Z.of_nat (on_bwp (delete u (m_ueMap m)) b0)).
  { rewrite Hc. unfold u16. rewrite Z.mod_small; lia. }
  rewrite E. split.
  - intros b. destruct (decide (b0 = b)) as [->|Hne].
    + by rewrite bwp_at_insert.
    + rewrite bwp_at_insert_ne by done. rewrite Hc.
      rewrite (on_bwp_delete (m_ueMap m) u b0 b Hu).
      by rewrite decide_False by done.
  - rewrite sum_active_insert. simpl. rewrite Hc.
    assert (size (m_ueMap m) ≠ 0)%nat
      by (apply map_size_ne_0_lookup; by exists u).
    lia.
Qed.

(** A call of [SwitchBwp] that finds the terminal on [old], the target
    [new] registered and different, and room in the target's count: the
    terminal is recorded on [new], the count of [old] goes down by one and
    that of [new] up by one, nothing else changes, and the counts stay
    exact. *)
Lemma SwitchBwp_moves m u old new :
  reg_inv m → band_room m →
  m_ueMap m !! u = Some old → old ≠ new → is_Some (m_bwpMap m !! new) →
  GetActiveUes m new < 65535 →
  let m' := SwitchBwp m u new in
  reg_inv m' ∧
  m_ueMap m' !! u = Some new ∧
  (∀ v, v ≠ u → m_ueMap m' !! v = m_ueMap m !! v) ∧
  GetActiveUes m' old = GetActiveUes m old - 1 ∧
  GetActiveUes m' new = GetActiveUes m new + 1 ∧
  (∀ b, b ≠ old → b ≠ new → GetActiveUes m' b = GetActiveUes m b) ∧
  phyNotifications m' = (u, new) :: phyNotifications m.
Proof.
  intros [Hc Ht] Hroom Hu Hne [inew Hb] Hnew_room m'.
  pose proof (band_room_lookup _ u old Hroom Hu) as Hold_le.
  rewrite GetActiveUes_bwp_at, Hc in Hnew_room.
  assert (Hm' : m' = mkNrUeBwpManager
                       (incr_active (decr_active (m_bwpMap m) old) new)
                       (<[u := new]> (m_ueMap m)) (m_defaultBwpId m)
                       ((u, new) :: phyNotifications m)).
  { unfold m', SwitchBwp. rewrite Hu, Hb. by rewrite decide_False. }
  set (um := m_ueMap m) in *. set (bm := m_bwpMap m) in *.
  set (um0 := delete u um).
  assert (Hsz : size um = S (size um0)).
  { unfold um0. rewrite map_size_delete_Some by done.
    assert (size um ≠ 0)%nat; [|lia].
    apply map_size_ne_0_lookup. by exists u. }
  assert (Hold : ∀ b, on_bwp um b =
                   ((if decide (old = b) then 1 else 0) + on_bwp um0 b)%nat)
    by (intros b; by apply on_bwp_delete).
  assert (Hnew : ∀ b, on_bwp (<[u:=new]> um) b =
                   ((if decide (new = b) then 1 else 0) + on_bwp um0 b)%nat).
  { intros b. rewrite <- insert_delete_eq.
    apply on_bwp_insert_fresh, lookup_delete_eq. }
  assert (E1 : u16 (activeUes (bwp_at bm old) - 1) = Z.of_nat (on_bwp um0 old)).
  { rewrite Hc. fold um. rewrite Hold, decide_True by done.
    rewrite Hold, decide_True in Hold_le by done.
    unfold u16. rewrite Z.mod_small; lia. }
  assert (E2 : u16 (activeUes (bwp_at bm new) + 1) = Z.of_nat (on_bwp um0 new) + 1).
  { rewrite Hc. fold um. rewrite Hold, decide_False by done.
    rewrite Hold, decide_False in Hnew_room by done.
    unfold u16. rewrite Z.mod_small; lia. }
  assert (Hc' : ∀ b, activeUes (bwp_at (m_bwpMap m') b) =
                     Z.of_nat (on_bwp (m_ueMap m') b)).
  { intros b. rewrite Hm'. cbn [m_ueMap m_bwpMap].
    unfold incr_active, decr_active. rewrite E1.
    rewrite (bwp_at_insert_ne _ old new) by done. rewrite E2, Hnew.
    destruct (decide (new = b)) as [->|Hnb].
    - rewrite bwp_at_insert. simpl. lia.
    - rewrite bwp_at_insert_ne by done.
      destruct (decide (old = b)) as [->|Hob].
      + rewrite bwp_at_insert. simpl. lia.
      + rewrite bwp_at_insert_ne by done.
        rewrite Hc. fold um. rewrite Hold, decide_False by done. lia. }
  split; [split; [exact Hc'|]|].
  { rewrite Hm'. unfold total_active, num_ues in *. cbn [m_ueMap m_bwpMap].
    unfold incr_active, decr_active. rewrite E1.
    rewrite (bwp_at_insert_ne _ old new) by done. rewrite E2.
    rewrite map_size_insert_Some by done.
    rewrite !sum_active_insert. rewrite (bwp_at_insert_ne _ old new) by done.
    simpl. fold bm um in Ht. rewrite !Hc. fold um.
    rewrite !Hold, decide_True, decide_False by done. lia. }
  rewrite !GetActiveUes_bwp_at, !Hc'.
  split; [by rewrite Hm'; cbn [m_ueMap]; rewrite lookup_insert_eq|].
  split; [by intros v Hv; rewrite Hm'; cbn [m_ueMap]; rewrite lookup_insert_ne|].
  assert (Hum' : m_ueMap m' = <[u:=new]> um) by by rewrite Hm'.
  rewrite Hum'. split; [|split; [|split]].
  - rewrite Hc. fold um. rewrite Hnew, Hold.
    rewrite (decide_True (P := old = old)) by done.
    rewrite (decide_False (P := new = old)) by done. lia.
  - rewrite Hc. fold um. rewrite Hnew, Hold.
    rewrite (decide_True (P := new = new)) by done.
    rewrite (decide_False (P := old = new)) by done. lia.
  - intros b Hbo Hbn. rewrite !GetActiveUes_bwp_at, Hc', Hum', Hc. fold um.
    rewrite Hnew, Hold. by rewrite !decide_False by done.
  - by rewrite Hm'.
Qed.

Lemma SwitchBwp_fit m u new :
  reg_inv m → band_room m → band_room (SwitchBwp m u new) →
  reg_inv (SwitchBwp m u new).
Proof.
  intros Hinv Hroom Hroom'.
  destruct (m_ueMap m !! u) as [old|] eqn:Hu;
    [|by unfold SwitchBwp; rewrite Hu].
  destruct (m_bwpMap m !! new) as [inew|] eqn:Hb;
    [|by unfold SwitchBwp; rewrite Hu, Hb].
  destruct (decide (old = new)) as [->|Hne];
    [by unfold SwitchBwp; rewrite Hu, Hb, decide_True|].
  apply (SwitchBwp_moves m u old new); try done.
  pose proof (band_room_lookup _ u new Hroom') as Hle.
  assert (Hum' : m_ueMap (SwitchBwp m u new) = <[u:=new]> (m_ueMap m)).
  { unfold SwitchBwp. rewrite Hu, Hb. by rewrite decide_False. }
  rewrite Hum', lookup_insert_eq in Hle. specialize (Hle eq_refl).
  rewrite <- insert_delete_eq in Hle.
  rewrite on_bwp_insert_fresh in Hle by apply lookup_delete_eq.
  rewrite decide_True in Hle by done.
  destruct Hinv as [Hc _]. rewrite GetActiveUes_bwp_at, Hc.
  rewrite (on_bwp_delete (m_ueMap m) u old new Hu).
  rewrite decide_False by done. lia.
Qed.

Lemma ue_run_fit os : ∀ m,
  reg_inv m → band_room m → counts_fit m os →
  reg_inv (ue_run m os) ∧ band_room (ue_run m os).
Proof.
  induction os as [|o os IH]; intros m Hinv Hroom Hfit; [done|].
  destruct Hfit as [Hroom' Hfit]. cbn [ue_run fold_left].
  apply IH; [|done|done].
  destruct o as [u|u|u b]; cbn [ue_step] in *.
  - by apply AddUe_fit.
  - by apply RemoveUe_fit.
  - by apply SwitchBwp_fit.
Qed.

(** The 65536 terminals 0 .. 65535 registered on one sub-band: the 16-bit
    active count has wrapped to 0. *)
Lemma add_all_ues (n : nat) :
  let m := ue_run (add_bwps (manager_new 0) [(0, 10)])
             (map (λ k, OpAddUe (Z.of_nat k)) (seq 0 n)) in
  m_bwpMap m = {[0 := mkBwpInfo 0 10 (u16 (Z.of_nat n))]} ∧
  size (m_ueMap m) = n ∧
  (∀ k, Z.of_nat n <= k → m_ueMap m !! k = None) ∧
  m_defaultBwpId m = 0.
Proof.
  induction n as [|n IH]; [done|].
  rewrite seq_S, map_app. unfold ue_run in *. rewrite fold_left_app. simpl.
  cbv zeta in IH. destruct IH as (Hb & Hs & Hu & Hd).
  set (m := fold_left ue_step _ _) in *.
  unfold AddUe. rewrite Hu by lia. simpl. rewrite Hd, Hb.
  split; [|split; [|split; [|done]]].
  - unfold incr_active, bwp_at. rewrite lookup_singleton_eq. simpl.
    rewrite insert_singleton_eq. f_equal. unfold set_activeUes, u16. simpl.
    rewrite Zplus_mod_idemp_l. do 2 f_equal. lia.
  - rewrite map_size_insert_None by (apply Hu; lia). by rewrite Hs.
  - intros k Hk. rewrite lookup_insert_ne by lia. apply Hu. lia.
Qed.

(** With every terminal id in use the counts no longer add up to the
    number of terminals. *)
Lemma conservation_breaks_at_65536 :
  let m := ue_run (add_bwps (manager_new 0) [(0, 10)])
             (map (λ k, OpAddUe (Z.of_nat k)) (seq 0 (Z.to_nat 65536))) in
  total_active m = 0 ∧ num_ues m = 65536 ∧ total_active m ≠ num_ues m.
Proof.
  pose proof (add_all_ues (Z.to_nat 65536)) as H.
  cbv zeta in H |- *. destruct H as (Hb & Hs & _ & _).
  unfold total_active, num_ues. rewrite Hb, Hs.
  rewrite Z2Nat.id by lia. unfold sum_active.
  rewrite map_fold_singleton. cbn [activeUes].
  change (u16 65536) with 0. repeat split; lia.
Qed.

(** C3 (amended). Start from a fresh registry with any sub-bands
    registered, and make any sequence of [AddUe], [RemoveUe] and
    [SwitchBwp] calls (with known or unknown ids) after each of which no
    sub-band carries more than 65535 terminals.  After the sequence the
    active counts of all sub-bands add up to the number of registered
    terminals.  One more [SwitchBwp] changes nothing at all when the
    terminal is unknown, the target sub-band is unknown or the terminal
    is already on it; in every other case, the target's count having
    room, it records the target for the terminal, decrements the old
    sub-band's count and increments the target's, all three together,
    touches no other terminal and no other count, and the counts again
    add up to the number of terminals. *)
Theorem assignment_conservation
    (d : Z) (bs : list (Z * Z)) (os : list UeOp) :
  counts_fit (add_bwps (manager_new d) bs) os →
  let m := ue_run (add_bwps (manager_new d) bs) os in
  total_active m = num_ues m ∧
  ∀ u new,
    let m' := SwitchBwp m u new in
    (m_ueMap m !! u = None ∨ m_bwpMap m !! new = None ∨
     m_ueMap m !! u = Some new → m' = m) ∧
    (∀ old, m_ueMap m !! u = Some old → old ≠ new →
            is_Some (m_bwpMap m !! new) → GetActiveUes m new < 65535 →
       m_ueMap m' !! u = Some new ∧
       GetActiveUes m' old = GetActiveUes m old - 1 ∧
       GetActiveUes m' new = GetActiveUes m new + 1 ∧
       (∀ v, v ≠ u → m_ueMap m' !! v = m_ueMap m !! v) ∧
       (∀ b, b ≠ old → b ≠ new → GetActiveUes m' b = GetActiveUes m b) ∧
       total_active m' = num_ues m').
Proof.
  intros Hfit m.
  destruct (add_bwps_inv bs (manager_new d)) as (Hu & Hinv & _);
    [done|apply manager_new_inv|].
  destruct (ue_run_fit os (add_bwps (manager_new d) bs)) as [Hm Hroom];
    [done| |done|].
  { unfold band_room. by rewrite Hu, map_to_list_empty. }
  fold m in Hm, Hroom. split; [apply Hm|].
  intros u new m'. split.
  - unfold m', SwitchBwp. intros [Hn|[Hn|Hs]].
    + by rewrite Hn.
    + rewrite Hn. by destruct (m_ueMap m !! u).
    + rewrite Hs. destruct (m_bwpMap m !! new); [|done].
      by rewrite decide_True.
  - intros old Hold Hne Hnew Hfree.
    destruct (SwitchBwp_moves m u old new Hm Hroom Hold Hne Hnew Hfree)
      as ([_ Ht'] & H1 & H2 & H3 & H4 & H5 & _).
    done.
Qed.

Lemma assignment_conservation_witness :
  let m := ue_run (add_bwps (manager_new 0) [(0, 10); (1, 10)])
             [OpAddUe 1; OpAddUe 2; OpSwitchBwp 1 1; OpRemoveUe 2] in
  let m' := SwitchBwp m 1 0 in
  total_active m = num_ues m ∧
  m_ueMap m !! 1 = Some 1 ∧
  m_ueMap m' !! 1 = Some 0 ∧
  GetActiveUes m' 1 = GetActiveUes m 1 - 1 ∧
  GetActiveUes m' 0 = GetActiveUes m 0 + 1 ∧
  total_active m' = num_ues m' ∧
  SwitchBwp m 1 1 = m ∧ SwitchBwp m 1 7 = m ∧ SwitchBwp m 2 0 = m.
Proof.
  cbv zeta.
  destruct (assignment_conservation 0 [(0, 10); (1, 10)]
              [OpAddUe 1; OpAddUe 2; OpSwitchBwp 1 1; OpRemoveUe 2])
    as [Hsum Hsw].
  { cbn [counts_fit]. repeat split; apply (bool_decide_unpack _);
      vm_compute; exact I. }
  split; [exact Hsum|]. split; [vm_compute; reflexivity|].
  destruct (Hsw 1 0) as [_ Hmove].
  destruct (Hmove 1) as (H1 & H2 & H3 & _ & _ & H6).
  { vm_compute. reflexivity. }
  { lia. }
  { vm_compute. eauto. }
  { vm_compute. reflexivity. }
  split; [exact H1|]. split; [exact H2|]. split; [exact H3|].
  split; [exact H6|].
  split; [|split].
  - apply (Hsw 1 1). right. right. vm_compute. reflexivity.
  - apply (Hsw 1 7). right. left. vm_compute. reflexivity.
  - apply (Hsw 2 0). left. vm_compute. reflexivity.
Defined.

(** ** Epsilon decay *)

Lemma ltb_Num a b : Dbl.ltb (Dbl.Num a) (Dbl.Num b) = true ↔ (a < b)%Q.
Proof.
  unfold Dbl.ltb. rewrite Qlt_alt. destruct (a ?= b)%Q; split; congruence.
Qed.

Lemma ltb_Num_false a b : Dbl.ltb (Dbl.Num a) (Dbl.Num b) = false ↔ (b <= a)%Q.
Proof.
  rewrite <- not_true_iff_false, ltb_Num. split.
  - apply Qnot_lt_le.
  - apply Qle_not_lt.
Qed.

Lemma epsilon_update e d m :
  (0 < d <= 1)%Q → (m <= e)%Q → (0 <= e)%Q →
  ∃ e', Dbl.max (Dbl.mul (Dbl.Num e) (Dbl.Num d)) (Dbl.Num m) = Dbl.Num e' ∧
        (m <= e' <= e)%Q ∧ (0 <= e')%Q.
Proof.
  intros Hd Hm He. unfold Dbl.mul, Dbl.max.
  assert (Hp : (0 <= Qred (e * d) <= e)%Q).
  { rewrite Qred_correct. split; [apply Qmult_le_0_compat; lra|]. nra. }
  destruct (Dbl.ltb (Dbl.Num (Qred (e * d))) (Dbl.Num m)) eqn:E.
  - apply ltb_Num in E. exists m. split; [done|]. split; lra.
  - apply ltb_Num_false in E. eexists. split; [done|]. split; lra.
Qed.

(** With a negative exploration rate the update raises it: the schedule
    [epsilon = -1], [epsilonMin = -2], [epsilonDecay = 1/2] has its decay
    in (0,1] and starts at or above the floor, and the first window moves
    epsilon from -1 up to -1/2. *)
Lemma epsilon_can_increase :
  let s := rla_scheduler (Dbl.Num (-1)) (Dbl.Num (-2)) (Dbl.Num (1 # 2)) in
  Dbl.ltb d0 (m_epsilonDecay s) = true ∧
  Dbl.ltb d1 (m_epsilonDecay s) = false ∧
  Dbl.ltb (m_epsilon s) (m_epsilonMin s) = false ∧
  ∃ s', rla_windows s [d0_5] = Some s' ∧
        m_epsilon s' = Dbl.Num (-1 # 2) ∧
        Dbl.ltb (m_epsilon s) (m_epsilon s') = true.
Proof.
  cbv zeta. repeat split. eexists. repeat split.
Qed.

Lemma AssignBwpsRla_config s rnd s' br :
  AssignBwpsRla s rnd = Some (s', br) →
  m_rlEnv s' = m_rlEnv s ∧ m_epsilonDecay s' = m_epsilonDecay s ∧
  m_epsilonMin s' = m_epsilonMin s ∧
  m_epsilon s' =
    Dbl.max (Dbl.mul (m_epsilon s) (m_epsilonDecay s)) (m_epsilonMin s).
Proof.
  unfold AssignBwpsRla. destruct (m_rlEnv s) eqn:E; [|done].
  intros [= <- _]. by rewrite <- E.
Qed.

Lemma rla_windows_range rnds : ∀ s e d m,
  m_rlEnv s = true →
  m_epsilon s = Dbl.Num e → m_epsilonDecay s = Dbl.Num d →
  m_epsilonMin s = Dbl.Num m →
  (0 < d <= 1)%Q → (m <= e)%Q → (0 <= e)%Q →
  ∃ s1 e1, rla_windows s rnds = Some s1 ∧ m_rlEnv s1 = true ∧
           m_epsilonDecay s1 = Dbl.Num d ∧ m_epsilonMin s1 = Dbl.Num m ∧
           m_epsilon s1 = Dbl.Num e1 ∧ (m <= e1 <= e)%Q ∧ (0 <= e1)%Q.
Proof.
  induction rnds as [|rnd rnds IH]; intros s e d m Henv He Hd Hm Hdr Hme He0.
  - exists s, e. simpl. repeat split; try done; lra.
  - destruct (epsilon_update e d m Hdr Hme He0) as (e' & Hmax & Hr & H0).
    simpl. destruct (AssignBwpsRla s rnd) as [[s' br]|] eqn:Hstep;
      [|unfold AssignBwpsRla in Hstep; by rewrite Henv in Hstep].
    apply AssignBwpsRla_config in Hstep as (E1 & E2 & E3 & E4). simpl.
    rewrite He, Hd, Hm, Hmax in E4.
    destruct (IH s' e' d m) as (s1 & e1 & ? & ? & ? & ? & ? & ? & ?);
      try congruence; try lra.
    exists s1, e1. repeat split; try done; lra.
Qed.

(** C6 (amended). With the environment attached, a window under RLA
    replaces epsilon by [max (epsilon * epsilonDecay, epsilonMin)], the
    same value after the exploration branch and after the exploitation
    branch.  For a decay in (0,1] and an initial epsilon that is at least
    [epsilonMin] and not negative, after any number of windows epsilon is
    between [epsilonMin] and its initial value, and one more window does
    not raise it and keeps it at or above [epsilonMin].  The whole
    decision window ([RunDecisionWindow] under [RLA]) changes epsilon
    exactly as this one update does. *)
Theorem epsilon_decay
    (s : NrUeAiScheduler) (e d m : Q) (rnds : list double) :
  m_rlEnv s = true →
  m_epsilon s = Dbl.Num e → m_epsilonDecay s = Dbl.Num d →
  m_epsilonMin s = Dbl.Num m →
  (0 < d <= 1)%Q → (m <= e)%Q → (0 <= e)%Q →
  ∃ s1 e1,
    rla_windows s rnds = Some s1 ∧ m_epsilon s1 = Dbl.Num e1 ∧
    (m <= e1 <= e)%Q ∧
    ∀ rnd, ∃ s2 e2,
      AssignBwpsRla s1 rnd =
        Some (s2, if Dbl.ltb rnd (m_epsilon s1) then Exploration
                  else Exploitation) ∧
      m_epsilon s2 =
        Dbl.max (Dbl.mul (m_epsilon s1) (m_epsilonDecay s1)) (m_epsilonMin s1) ∧
      m_epsilon s2 = Dbl.Num e2 ∧ (m <= e2 <= e1)%Q ∧
      (m_algorithmType s1 = RLA →
       ∀ lbt mgr phy, ∃ s3,
         RunDecisionWindow s1 lbt mgr phy rnd = Some (s3, mgr) ∧
         m_epsilon s3 = m_epsilon s2).
Proof.
  intros Henv He Hd Hm Hdr Hme He0.
  destruct (rla_windows_range rnds s e d m) as
    (s1 & e1 & Hrun & Henv1 & Hd1 & Hm1 & He1 & Hr1 & H01); try done.
  exists s1, e1. repeat split; try done; try lra.
  intros rnd.
  destruct (epsilon_update e1 d m Hdr) as (e2 & Hmax & Hr2 & _); try lra.
  unfold AssignBwpsRla. rewrite Henv1. eexists. exists e2.
  split; [done|]. simpl. rewrite He1, Hd1, Hm1.
  split; [done|]. split; [done|]. split; [done|].
  intros Halg lbt mgr phy. unfold RunDecisionWindow, AssignBwpsRla. cbv zeta.
  cbn [CollectWindowStatistics set_stats m_algorithmType m_rlEnv m_epsilon
       m_epsilonDecay m_epsilonMin].
  rewrite Halg, Henv1. simpl. eexists. split; [done|].
  by rewrite He1, Hd1, Hm1.
Qed.

Lemma epsilon_decay_witness :
  ∃ s1 e1,
    rla_windows (rla_scheduler d1 (Dbl.Num (1 # 100)) (Dbl.Num (995 # 1000)))
      [d0_5; d0; d1] = Some s1 ∧
    m_epsilon s1 = Dbl.Num e1 ∧
    ((1 # 100) <= e1 <= 1)%Q ∧
    ∀ rnd, ∃ s2 e2,
      AssignBwpsRla s1 rnd =
        Some (s2, if Dbl.ltb rnd (m_epsilon s1) then Exploration
                  else Exploitation) ∧
      m_epsilon s2 =
        Dbl.max (Dbl.mul (m_epsilon s1) (m_epsilonDecay s1)) (m_epsilonMin s1) ∧
      m_epsilon s2 = Dbl.Num e2 ∧ ((1 # 100) <= e2 <= e1)%Q ∧
      (m_algorithmType s1 = RLA →
       ∀ lbt mgr phy, ∃ s3,
         RunDecisionWindow s1 lbt mgr phy rnd = Some (s3, mgr) ∧
         m_epsilon s3 = m_epsilon s2).
Proof.
  apply (epsilon_decay
           (rla_scheduler d1 (Dbl.Num (1 # 100)) (Dbl.Num (995 # 1000)))
           1 (995 # 1000) (1 # 100) [d0_5; d0; d1]);
    try reflexivity; try (split; reflexivity || discriminate); discriminate.
Defined.

(** ** The reward of a decision window *)

Lemma mul_NaN_r x : Dbl.mul x Dbl.NaN = Dbl.NaN.
Proof. by destruct x. Qed.

Lemma add_NaN_l x : Dbl.add Dbl.NaN x = Dbl.NaN.
Proof. done. Qed.

Lemma add_NaN_r x : Dbl.add x Dbl.NaN = Dbl.NaN.
Proof. by destruct x. Qed.

Lemma reward_sums_split (us : list UeStats) (a b : double) :
  fold_left
    (λ (acc : double * double) ue,
       (Dbl.add acc.1 (holDelay ue), Dbl.add acc.2 (throughput ue)))
    us (a, b) =
  (fold_left Dbl.add (map holDelay us) a,
   fold_left Dbl.add (map throughput us) b).
Proof.
  revert a b. induction us as [|u us IH]; intros a b; [done|].
  simpl. apply IH.
Qed.

(** With no terminal the division is carried out, 0.0 by 0: the reward of
    the default environment is NaN, while the formula on a skipped
    average (0.0) is -1000. *)
Lemma reward_zero_terminals_divides :
  (GetReward env_default []).2 = Dbl.NaN ∧
  Dbl.div d0 (Dbl.of_Z (Z.of_nat (length (@nil UeStats)))) = Dbl.NaN ∧
  reward_formula env_default d0 d0 = Dbl.Num (-1000) ∧
  (GetReward env_default []).2 ≠ reward_formula env_default d0 d0.
Proof. repeat split. discriminate. Qed.

(** C9 (amended). [GetReward] always divides the sum of the head-of-line
    delays by the number of terminals.  With zero terminals that is 0.0
    divided by 0: the average is NaN, the reward is NaN and NaN is added
    to the total reward.  With at least one terminal the reward is
    [-(alpha * avg + beta * (maxThroughput - total))] for the average
    delay [avg] and the summed throughput [total]. *)
Theorem reward_value (env : GymBwpRlEnv) (us : list UeStats) :
  let r := GetReward env us in
  let total := fold_left Dbl.add (map throughput us) d0 in
  let avg :=
    Dbl.div (fold_left Dbl.add (map holDelay us) d0)
      (Dbl.of_Z (Z.of_nat (length us))) in
  r.2 = reward_formula env avg total ∧
  m_totalReward r.1 = Dbl.add (m_totalReward env) r.2 ∧
  (us = [] → avg = Dbl.NaN ∧ r.2 = Dbl.NaN ∧ m_totalReward r.1 = Dbl.NaN) ∧
  (us ≠ [] →
   ∀ qs, fold_left Dbl.add (map holDelay us) d0 = Dbl.Num qs →
     ∃ qa, avg = Dbl.Num qa ∧
           (qa == qs / inject_Z (Z.of_nat (length us)))%Q).
Proof.
  cbv zeta. unfold GetReward, reward_formula, reward_sums.
  rewrite reward_sums_split. cbn [fst snd m_totalReward].
  split; [done|]. split; [done|]. split.
  - intros ->. cbn [map fold_left length Z.of_nat].
    change (Dbl.div d0 (Dbl.of_Z 0)) with Dbl.NaN.
    rewrite mul_NaN_r, add_NaN_l. cbn [Dbl.neg]. by rewrite add_NaN_r.
  - intros Hne qs ->. unfold Dbl.div, Dbl.of_Z.
    destruct (Qeq_bool (inject_Z (Z.of_nat (length us))) 0) eqn:E.
    + apply Qeq_bool_iff in E. unfold Qeq, inject_Z in E. simpl in E.
      destruct us; [done|]. simpl length in E. lia.
    + eexists. split; [done|]. apply Qred_correct.
Qed.

(** ** The LCA policy *)

Lemma find_best_from mgr stats : ∀ best q0,
  metrics_finite mgr stats →
  let r := fold_left (best_step mgr) stats (best, Dbl.Num q0) in
  ((∀ st, st ∈ stats → (metric_q mgr st <= q0)%Q) ∧ r = (best, Dbl.Num q0)) ∨
  (∃ i st, first_argmax mgr stats i st ∧ (q0 < metric_q mgr st)%Q ∧
           r.1 = bs_bwpId st).
Proof.
  induction stats as [|s stats IH]; intros best q0 Hfin; cbv zeta.
  - left. split; [|done]. intros st Hin. by apply elem_of_nil in Hin.
  - apply Forall_cons in Hfin as [Hs Hfin]. cbn [fold_left].
    assert (Hstep : best_step mgr (best, Dbl.Num q0) s =
              if Dbl.ltb (Dbl.Num q0) (Dbl.Num (metric_q mgr s))
              then (bs_bwpId s, Dbl.Num (metric_q mgr s))
              else (best, Dbl.Num q0))
      by (unfold best_step; cbn [snd]; by rewrite Hs).
    rewrite Hstep. clear Hstep.
    destruct (Dbl.ltb (Dbl.Num q0) (Dbl.Num (metric_q mgr s))) eqn:E.
    + apply ltb_Num in E. right.
      pose proof (IH (bs_bwpId s) (metric_q mgr s) Hfin) as H. cbv zeta in H.
      destruct H as [[Hall Hr]|Hex].
      * exists 0%nat, s. split; [|split; [done|by rewrite Hr]].
        split; [done|]. split; [|intros; lia].
        intros [|j] st' Hj; simpl in Hj.
        -- injection Hj as <-. apply Qle_refl.
        -- apply Hall. by eapply list_elem_of_lookup_2.
      * destruct Hex as (i & st & (Hi & Hmax & Hlt) & Hq & Hr).
        exists (S i), st. split; [|split; [lra|done]].
        split; [done|]. split.
        -- intros [|j] st' Hj; simpl in Hj.
           ++ injection Hj as <-. lra.
           ++ by eapply Hmax.
        -- intros [|j] st' Hlt' Hj; simpl in Hj.
           ++ by injection Hj as <-.
           ++ eapply Hlt; [|done]. lia.
    + apply ltb_Num_false in E.
      pose proof (IH best q0 Hfin) as H. cbv zeta in H.
      destruct H as [[Hall Hr]|Hex].
      * left. split; [|done]. intros st Hin.
        apply elem_of_cons in Hin as [->|Hin]; [done|by apply Hall].
      * right. destruct Hex as (i & st & (Hi & Hmax & Hlt) & Hq & Hr).
        exists (S i), st. split; [|done].
        split; [done|]. split.
        -- intros [|j] st' Hj; simpl in Hj.
           ++ injection Hj as <-. lra.
           ++ by eapply Hmax.
        -- intros [|j] st' Hlt' Hj; simpl in Hj.
           ++ injection Hj as <-. lra.
           ++ eapply Hlt; [|done]. lia.
Qed.

Lemma SwitchBwp_bwp_some m u n b :
  is_Some (m_bwpMap m !! b) → is_Some (m_bwpMap (SwitchBwp m u n) !! b).
Proof.
  intros Hb. unfold SwitchBwp.
  destruct (m_ueMap m !! u) as [old|]; [|done].
  destruct (m_bwpMap m !! n); [|done]. case_decide; [done|]. simpl.
  unfold incr_active, decr_active.
  rewrite !lookup_insert. repeat case_decide; done.
Qed.

Lemma SwitchBwp_ue_some m u n v :
  is_Some (m_ueMap (SwitchBwp m u n) !! v) ↔ is_Some (m_ueMap m !! v).
Proof.
  unfold SwitchBwp. destruct (m_ueMap m !! u) as [old|] eqn:Hu; [|done].
  destruct (m_bwpMap m !! n); [|done]. case_decide; [done|]. simpl.
  rewrite lookup_insert. case_decide as E; [|done]. subst. by rewrite Hu.
Qed.

Lemma SwitchBwp_to m u best :
  is_Some (m_bwpMap m !! best) → is_Some (m_ueMap m !! u) →
  m_ueMap (SwitchBwp m u best) !! u = Some best.
Proof.
  intros [i Hb] [old Hu]. unfold SwitchBwp. rewrite Hu, Hb.
  case_decide as E; [by subst|]. simpl. apply lookup_insert_eq.
Qed.

Lemma SwitchBwp_keeps m u v best :
  m_ueMap m !! v = Some best → m_ueMap (SwitchBwp m u best) !! v = Some best.
Proof.
  intros Hv. unfold SwitchBwp. destruct (m_ueMap m !! u) as [old|] eqn:Hu; [|done].
  destruct (m_bwpMap m !! best); [|done]. case_decide; [done|]. simpl.
  rewrite lookup_insert. by case_decide.
Qed.

Lemma switch_all_keeps (ues : list UeStats) best : ∀ m v,
  m_ueMap m !! v = Some best →
  m_ueMap (fold_left (λ m ue, SwitchBwp m (ueId ue) best) ues m) !! v = Some best.
Proof.
  induction ues as [|a ues IH]; intros m v Hv; [done|].
  simpl. apply IH. by apply SwitchBwp_keeps.
Qed.

Lemma switch_all (ues : list UeStats) best : ∀ m,
  is_Some (m_bwpMap m !! best) →
  let m' := fold_left (λ m ue, SwitchBwp m (ueId ue) best) ues m in
  (∀ v, is_Some (m_ueMap m' !! v) ↔ is_Some (m_ueMap m !! v)) ∧
  (∀ ue, ue ∈ ues → is_Some (m_ueMap m !! ueId ue) →
         m_ueMap m' !! ueId ue = Some best).
Proof.
  induction ues as [|a ues IH]; intros m Hb; cbv zeta.
  - split; [done|]. intros ue Hin. by apply elem_of_nil in Hin.
  - cbn [fold_left].
    pose proof (IH (SwitchBwp m (ueId a) best)
                  (SwitchBwp_bwp_some m (ueId a) best best Hb)) as H.
    cbv zeta in H. destruct H as [Hdom Hall]. split.
    + intros v. rewrite Hdom. apply SwitchBwp_ue_some.
    + intros ue Hin Hsome. apply elem_of_cons in Hin as [->|Hin].
      * apply switch_all_keeps. by apply SwitchBwp_to.
      * apply Hall; [done|]. by apply SwitchBwp_ue_some.
Qed.

Lemma collected_ues s lbt mgr phy :
  let s' := CollectWindowStatistics s lbt mgr phy in
  Z.of_nat (length (m_ueStats s')) = num_ues mgr ∧
  (∀ u, is_Some (m_ueMap mgr !! u) → ∃ ue, ue ∈ m_ueStats s' ∧ ueId ue = u) ∧
  m_maxScheduledUes s' = m_maxScheduledUes s ∧
  m_algorithmType s' = m_algorithmType s.
Proof.
  cbv zeta. unfold CollectWindowStatistics, num_ues, ue_entries. simpl.
  split; [|split; [|done]].
  - rewrite length_map, merge_sort_Permutation. by rewrite length_map_to_list.
  - intros u [b Hu]. eexists. split; [|shelve].
    apply list_elem_of_fmap. exists (u, b). split; [done|].
    rewrite merge_sort_Permutation. by apply elem_of_map_to_list.
    Unshelve. done.
Qed.

Lemma find_best_first_argmax mgr stats :
  stats_ok mgr stats → bs_bwpId <$> head stats = Some 0 →
  ∃ i st, first_argmax mgr stats i st ∧ (find_best mgr stats).1 = bs_bwpId st.
Proof.
  intros Hok Hhead.
  assert (Hfin : metrics_finite mgr stats).
  { unfold metrics_finite. eapply Forall_impl; [exact Hok|]. by intros ? (? & _). }
  pose proof (find_best_from mgr stats 0 0 Hfin) as H. cbv zeta in H.
  destruct H as [[Hall Hr]|(i & st & Harg & _ & Hr)].
  - destruct stats as [|st0 stats]; [done|]. simpl in Hhead.
    injection Hhead as Hid. exists 0%nat, st0.
    split; [|unfold find_best, d0; by rewrite Hr].
    split; [done|]. split; [|intros; lia].
    intros j st' Hj. apply list_elem_of_lookup_2 in Hj.
    pose proof (Hall st' Hj) as Hle.
    apply Forall_cons in Hok as [(_ & H0 & _) _]. lra.
  - exists i, st. split; [done|]. exact Hr.
Qed.

(** C5 (amended). After the statistics of a window are collected, suppose the
    registry holds at most [maxScheduledUes] terminals, every sub-band of
    the statistics is registered and has a finite, non-negative metric
    [(1 - failureRate) * avgBitsPerRb * numRbs], and the first entry is
    sub-band 0 (as [DoInitialize] builds the list).  Then the LCA policy
    moves every registered terminal to the sub-band with the largest
    metric, the earliest entry among several that reach the maximum; no
    terminal is added or lost; and this is the assignment the decision
    window makes under [LCA]. *)
Theorem lca_single_best
    (s0 : NrUeAiScheduler) (lbt : NrUeLbt) (mgr : NrUeBwpManager)
    (phy : NrUePhy) :
  let s := CollectWindowStatistics s0 lbt mgr phy in
  num_ues mgr <= m_maxScheduledUes s →
  stats_ok mgr (m_bwpStats s) →
  bs_bwpId <$> head (m_bwpStats s) = Some 0 →
  ∃ i st mgr',
    first_argmax mgr (m_bwpStats s) i st ∧
    AssignBwpsLca s mgr = Some mgr' ∧
    (∀ u, is_Some (m_ueMap mgr !! u) →
          m_ueMap mgr' !! u = Some (bs_bwpId st) ∧
          GetUeBwp mgr' u = bs_bwpId st) ∧
    (∀ u, is_Some (m_ueMap mgr' !! u) ↔ is_Some (m_ueMap mgr !! u)) ∧
    (m_algorithmType s0 = LCA →
     ∀ rnd, ∃ s', RunDecisionWindow s0 lbt mgr phy rnd = Some (s', mgr')).
Proof.
  intros s Hn Hok Hhead.
  destruct (find_best_first_argmax mgr (m_bwpStats s) Hok Hhead)
    as (i & st & Harg & Hbest).
  pose proof (collected_ues s0 lbt mgr phy) as H. cbv zeta in H. fold s in H.
  destruct H as (Hlen & Hues & Hmax & Halg).
  assert (Hreg : is_Some (m_bwpMap mgr !! bs_bwpId st)).
  { destruct Harg as (Hi & _). apply list_elem_of_lookup_2 in Hi.
    unfold stats_ok in Hok. rewrite Forall_forall in Hok.
    by destruct (Hok st Hi) as (_ & _ & ?). }
  pose proof (switch_all (m_ueStats s) (bs_bwpId st) mgr Hreg) as Hsw.
  cbv zeta in Hsw. destruct Hsw as [Hdom Hall].
  set (mgr' := fold_left (λ m ue, SwitchBwp m (ueId ue) (bs_bwpId st))
                 (m_ueStats s) mgr) in *.
  assert (Hlca : AssignBwpsLca s mgr = Some mgr').
  { unfold AssignBwpsLca. cbv zeta. rewrite Hbest, Hlen.
    destruct (Z.leb_spec (num_ues mgr) (m_maxScheduledUes s)); [done|lia]. }
  exists i, st, mgr'. split; [done|]. split; [done|]. split; [|split; [done|]].
  - intros u Hu. destruct (Hues u Hu) as (ue & Hin & <-).
    assert (E : m_ueMap mgr' !! ueId ue = Some (bs_bwpId st)) by by apply Hall.
    split; [done|]. unfold GetUeBwp. by rewrite E.
  - intros Hl rnd. unfold RunDecisionWindow. cbv zeta. fold s.
    rewrite Halg, Hl, Hlca. simpl. by eexists.
Qed.

Lemma lca_single_best_witness :
  let s := CollectWindowStatistics demo_scheduler demo_lbt demo_manager demo_phy in
  map (lca_metric demo_manager) (m_bwpStats s) = [Dbl.Num 180; Dbl.Num 100] ∧
  num_ues demo_manager = 5 ∧
  m_maxScheduledUes s = 16 ∧
  m_ueMap demo_manager = list_to_map [(1, 0); (2, 1); (3, 0); (4, 1); (5, 0)] ∧
  m_ueMap <$> AssignBwpsLca s demo_manager =
    Some (list_to_map [(1, 0); (2, 0); (3, 0); (4, 0); (5, 0)]) ∧
  ∃ i st mgr',
    first_argmax demo_manager (m_bwpStats s) i st ∧
    AssignBwpsLca s demo_manager = Some mgr' ∧
    (∀ u, is_Some (m_ueMap demo_manager !! u) →
          m_ueMap mgr' !! u = Some (bs_bwpId st) ∧
          GetUeBwp mgr' u = bs_bwpId st) ∧
    (∀ u, is_Some (m_ueMap mgr' !! u) ↔ is_Some (m_ueMap demo_manager !! u)) ∧
    (m_algorithmType demo_scheduler = LCA →
     ∀ rnd, ∃ s', RunDecisionWindow demo_scheduler demo_lbt demo_manager
                    demo_phy rnd = Some (s', mgr')).
Proof.
  cbv zeta. split; [vm_compute; reflexivity|]. split; [vm_compute; reflexivity|].
  split; [reflexivity|]. split; [vm_compute; reflexivity|].
  split; [vm_compute; reflexivity|].
  apply (lca_single_best demo_scheduler demo_lbt demo_manager demo_phy).
  - vm_compute. congruence.
  - repeat constructor; vm_compute; congruence || eauto.
  - vm_compute. reflexivity.
Defined.

(** The registry [offset_manager] uses the sub-band ids 2 and 3, while
    [DoInitialize] numbers the two statistics entries 0 and 1.  Neither
    0 nor 1 is registered, so [GetNumRbs] is 0 for both and both metrics
    are 0; the search keeps its start value, id 0; with 3 terminals and
    [maxScheduledUes = 16] every terminal is handed to [SwitchBwp] with
    target 0, which is refused: the registry is unchanged, terminals 1
    and 2 stay on sub-band 2 and terminal 3 on sub-band 3. *)
Lemma lca_offset_ids_move_nobody :
  let phy := phy_const (Dbl.Num 20) in
  let s := CollectWindowStatistics offset_scheduler lbt_default
             offset_manager phy in
  map bs_bwpId (m_bwpStats s) = [0; 1] ∧
  map (lca_metric offset_manager) (m_bwpStats s) = [d0; d0] ∧
  GetNumRbs offset_manager 2 = 10 ∧ GetNumRbs offset_manager 3 = 10 ∧
  num_ues offset_manager = 3 ∧ m_maxScheduledUes s = 16 ∧
  AssignBwpsLca s offset_manager = Some offset_manager ∧
  map (GetUeBwp offset_manager) [1; 2; 3] = [2; 2; 3] ∧
  ∀ rnd, ∃ s', RunDecisionWindow offset_scheduler lbt_default
                 offset_manager phy rnd = Some (s', offset_manager).
Proof.
  cbv zeta. do 8 (split; [vm_compute; reflexivity|]).
  intros rnd. eexists. vm_compute. reflexivity.
Qed.

(** * Further properties of the controller *)

Lemma lbt_step_other `{SlotClock} l e b :
  event_bwp e ≠ b →
  m_bwpStates (lbt_step l e) !! b = m_bwpStates l !! b.
Proof.
  intros Hne. destruct e as [now draw b'|now rnd b']; cbn [lbt_step event_bwp] in *.
  - rewrite ChannelAccessRequest_elem. cbv zeta. cbn [fst].
    by apply lookup_store_ne.
  - unfold HandleWifiInterference. cbv zeta. by apply lookup_store_ne.
Qed.

Lemma lbt_step_durations `{SlotClock} l e :
  m_iccaDuration (lbt_step l e) = m_iccaDuration l ∧
  m_mcotDuration (lbt_step l e) = m_mcotDuration l.
Proof. destruct e; simpl; [rewrite ChannelAccessRequest_elem|]; done. Qed.

(** X1. Events addressed to other sub-bands never touch sub-band [b]: its
    element (or its absence) is the same after any such sequence, the
    three getters answer as before, and the four attributes of the
    controller are never changed by any event. *)
Theorem lbt_events_isolated `{SlotClock}
    (l : NrUeLbt) (b : Z) (es : list LbtEvent) :
  Forall (λ e, event_bwp e ≠ b) es →
  let l' := lbt_run l es in
  m_bwpStates l' !! b = m_bwpStates l !! b ∧
  GetFailureRate l' b = GetFailureRate l b ∧
  GetWifiOccupancy l' b = GetWifiOccupancy l b ∧
  GetContentionWindow l' b = GetContentionWindow l b ∧
  m_cwMin l' = m_cwMin l ∧ m_cwMax l' = m_cwMax l ∧
  m_iccaDuration l' = m_iccaDuration l ∧ m_mcotDuration l' = m_mcotDuration l.
Proof.
  revert l. induction es as [|e es IH]; intros l Hall; [done|].
  apply Forall_cons in Hall as [He Hall]. cbv zeta. simpl lbt_run.
  specialize (IH (lbt_step l e) Hall). cbv zeta in IH.
  destruct IH as (E1 & E2 & E3 & E4 & E5 & E6 & E7 & E8).
  pose proof (lbt_step_other l e b He) as Eo.
  destruct (lbt_step_config l e) as [C1 C2].
  destruct (lbt_step_durations l e) as [C3 C4].
  unfold lbt_run in *.
  rewrite E1, E2, E3, E4, E5, E6, E7, E8.
  unfold GetFailureRate, GetWifiOccupancy, GetContentionWindow.
  rewrite Eo, C1, C2, C3, C4. done.
Qed.

Lemma lbt_events_isolated_witness :
  let l' := lbt_run lbt_one [EvAccess 1000000 4 3; EvInterference 100000000 2 5] in
  m_bwpStates l' !! 0 = m_bwpStates lbt_one !! 0 ∧
  GetFailureRate l' 0 = GetFailureRate lbt_one 0 ∧
  GetWifiOccupancy l' 0 = GetWifiOccupancy lbt_one 0 ∧
  GetContentionWindow l' 0 = GetContentionWindow lbt_one 0 ∧
  m_cwMin l' = m_cwMin lbt_one ∧ m_cwMax l' = m_cwMax lbt_one ∧
  m_iccaDuration l' = m_iccaDuration lbt_one ∧
  m_mcotDuration l' = m_mcotDuration lbt_one.
Proof.
  apply (lbt_events_isolated lbt_one 0
           [EvAccess 1000000 4 3; EvInterference 100000000 2 5]).
  repeat constructor; simpl; lia.
Defined.

Lemma at_key_step_other `{SlotClock} l e b :
  event_bwp e ≠ b → at_key (lbt_step l e) b = at_key l b.
Proof. intros Hne. unfold at_key. by rewrite lbt_step_other. Qed.

Lemma at_key_access `{SlotClock} now draw l b :
  at_key (fst (ChannelAccessRequest now draw l b)) b =
  fst (access_elem (m_cwMin l) (m_cwMax l) (m_mcotDuration l) now draw
         (at_key l b)).
Proof. rewrite ChannelAccessRequest_elem. cbv zeta. cbn [fst]. apply at_key_store. Qed.

Lemma access_elem_counters `{SlotClock} cwMin cwMax mcot now draw s :
  let r := access_elem cwMin cwMax mcot now draw s in
  totalAttempts (fst r) = u32 (totalAttempts s + 1) ∧
  totalFailures (fst r) =
    (if snd r then totalFailures s else u32 (totalFailures s + 1)) ∧
  channelBusyUntil (fst r) = channelBusyUntil s ∧
  lastUpdateTime (fst r) = lastUpdateTime s ∧
  wifiOccupancy (fst r) = wifiOccupancy s ∧
  wifiPoissonMean (fst r) = wifiPoissonMean s.
Proof.
  unfold access_elem. cbv zeta.
  destruct (now <? channelBusyUntil s); [done|].
  by destruct (channelBusyUntil s <? now + MilliSecondsHalf (u16 draw)).
Qed.

Lemma at_key_interference `{SlotClock} now rnd l b :
  let s := at_key (HandleWifiInterference now rnd l b) b in
  totalAttempts s = totalAttempts (at_key l b) ∧
  totalFailures s = totalFailures (at_key l b) ∧
  currentCw s = currentCw (at_key l b) ∧
  lbtFailureRate s = lbtFailureRate (at_key l b) ∧
  wifiPoissonMean s = wifiPoissonMean (at_key l b) ∧
  lastUpdateTime s = now ∧
  channelBusyUntil s = now + MilliSecondsHalf (u16 (1 + rnd mod 5)).
Proof. unfold HandleWifiInterference. cbv zeta. by rewrite at_key_store. Qed.

(** X2. The two counters of a sub-band are exact: as long as the 32-bit
    attempt counter does not wrap, after any sequence of events
    [totalAttempts] has grown by the number of access requests for the
    sub-band and [totalFailures] by the number of those that were denied;
    interference arrivals and requests for other sub-bands count for
    nothing, and failures never exceed attempts. *)
Theorem lbt_counters_exact `{SlotClock}
    (l : NrUeLbt) (b : Z) (es : list LbtEvent) :
  0 <= totalFailures (at_key l b) <= totalAttempts (at_key l b) →
  totalAttempts (at_key l b) + accesses b es < 4294967296 →
  let l' := lbt_run l es in
  totalAttempts (at_key l' b) = totalAttempts (at_key l b) + accesses b es ∧
  totalFailures (at_key l' b) = totalFailures (at_key l b) + denials l b es ∧
  0 <= denials l b es <= accesses b es ∧
  totalFailures (at_key l' b) <= totalAttempts (at_key l' b).
Proof.
  revert l. induction es as [|e es IH]; intros l Hfa Hn; cbv zeta.
  { simpl. repeat split; lia. }
  assert (Hacc : 0 <= accesses b es).
  { clear. induction es as [|[? ? b'|] es IHes]; simpl; [lia| |done].
    destruct (decide (b' = b)); lia. }
  simpl lbt_run. revert Hn. cbn [accesses denials].
  destruct e as [now draw b'|now rnd b']; intros Hn.
  - revert Hn.
    destruct (decide (b' = b)) as [->|Hne]; intros Hn.
    + change (lbt_step l (EvAccess now draw b))
        with (fst (ChannelAccessRequest now draw l b)).
      pose proof (access_elem_counters (m_cwMin l) (m_cwMax l)
                    (m_mcotDuration l) now draw (at_key l b)) as Hc.
      cbv zeta in Hc. destruct Hc as (Ea & Ef & _).
      pose proof (at_key_access now draw l b) as Ek.
      assert (Es : snd (ChannelAccessRequest now draw l b) =
                   snd (access_elem (m_cwMin l) (m_cwMax l) (m_mcotDuration l)
                          now draw (at_key l b)))
        by (by rewrite ChannelAccessRequest_elem).
      rewrite <- Ek in Ea, Ef. rewrite <- Es in Ef.
      unfold u32 in Ea.
      rewrite (Z.mod_small (totalAttempts (at_key l b) + 1)) in Ea by lia.
      assert (Ef' : totalFailures
                      (at_key (fst (ChannelAccessRequest now draw l b)) b) =
                    totalFailures (at_key l b) +
                    (if snd (ChannelAccessRequest now draw l b) then 0 else 1)).
      { rewrite Ef. destruct (snd (ChannelAccessRequest now draw l b)); [lia|].
        unfold u32. rewrite Z.mod_small; lia. }
      pose proof (IH (fst (ChannelAccessRequest now draw l b))) as IH'.
      cbv zeta in IH'. rewrite Ea, Ef' in IH'.
      destruct IH' as (I1 & I2 & I3 & I4).
      * destruct (snd (ChannelAccessRequest now draw l b)); lia.
      * lia.
      * unfold lbt_run in *. rewrite I1, I2.
        destruct (snd (ChannelAccessRequest now draw l b)); repeat split; lia.
    + pose proof (IH (lbt_step l (EvAccess now draw b'))) as IH'.
      cbv zeta in IH'.
      rewrite (at_key_step_other l (EvAccess now draw b') b Hne) in IH'.
      destruct IH' as (I1 & I2 & I3 & I4); [done|lia|].
      unfold lbt_run in *. rewrite I1, I2. repeat split; lia.
  - change (lbt_step l (EvInterference now rnd b'))
      with (HandleWifiInterference now rnd l b').
    assert (Ek : totalAttempts (at_key (HandleWifiInterference now rnd l b') b) =
                 totalAttempts (at_key l b) ∧
                 totalFailures (at_key (HandleWifiInterference now rnd l b') b) =
                 totalFailures (at_key l b)).
    { destruct (decide (b' = b)) as [->|Hne].
      - pose proof (at_key_interference now rnd l b) as Hi. cbv zeta in Hi.
        by destruct Hi as (? & ? & _).
      - pose proof (at_key_step_other l (EvInterference now rnd b') b Hne) as E.
        cbn [lbt_step] in E. by rewrite E. }
    destruct Ek as [Ea Ef].
    pose proof (IH (HandleWifiInterference now rnd l b')) as IH'.
    cbv zeta in IH'. rewrite Ea, Ef in IH'.
    destruct IH' as (I1 & I2 & I3 & I4); [done|lia|].
    unfold lbt_run in *. rewrite I1, I2. repeat split; lia.
Qed.

Lemma lbt_counters_exact_witness :
  let es := [EvAccess 1000000 4 0; EvInterference 100000000 2 0;
             EvAccess 100500000 0 0; EvAccess 100500000 0 1] in
  let l' := lbt_run lbt_one es in
  totalAttempts (at_key l' 0) = totalAttempts (at_key lbt_one 0) + accesses 0 es ∧
  totalFailures (at_key l' 0) = totalFailures (at_key lbt_one 0) + denials lbt_one 0 es ∧
  0 <= denials lbt_one 0 es <= accesses 0 es ∧
  totalFailures (at_key l' 0) <= totalAttempts (at_key l' 0).
Proof.
  apply (lbt_counters_exact lbt_one 0
           [EvAccess 1000000 4 0; EvInterference 100000000 2 0;
            EvAccess 100500000 0 0; EvAccess 100500000 0 1]);
    vm_compute; [split|]; congruence.
Defined.

Lemma min_double_pow (c M p : Z) :
  0 <= c → 0 <= M → 1 <= p →
  Z.min (Z.min (2 * c) M * p) M = Z.min (c * (2 * p)) M.
Proof. intros. destruct (Z.le_gt_cases (2 * c) M); nia. Qed.

(** X3. Binary exponential backoff in closed form: when [n] requests in
    a row pass ICCA and are denied by the ECCA test (each backoff ends
    after [channelBusyUntil]), the contention window is
    [min (cw * 2^n, cwMax)] for the window [cw] before the first of them;
    so it reaches [cwMax] and stays there. *)
Theorem ecca_backoff_closed_form `{SlotClock}
    (l : NrUeLbt) (b : Z) (reqs : list (Z * Z)) :
  is_u16 (m_cwMax l) →
  0 <= currentCw (at_key l b) <= m_cwMax l →
  Forall (λ r : Z * Z,
            channelBusyUntil (at_key l b) <= r.1 ∧
            channelBusyUntil (at_key l b) < r.1 + MilliSecondsHalf (u16 r.2))
         reqs →
  let l' := lbt_run l (map (λ r : Z * Z, EvAccess r.1 r.2 b) reqs) in
  currentCw (at_key l' b) =
    Z.min (currentCw (at_key l b) * 2 ^ Z.of_nat (length reqs)) (m_cwMax l) ∧
  channelBusyUntil (at_key l' b) = channelBusyUntil (at_key l b).
Proof.
  revert l. induction reqs as [|[now draw] reqs IH]; intros l Hmax Hcw Hall;
    cbv zeta.
  { simpl. split; [lia|done]. }
  apply Forall_cons in Hall as [[Hicca Hecca] Hall]. cbn [fst snd] in *.
  cbn [map]. simpl lbt_run.
  change (lbt_step l (EvAccess now draw b))
    with (fst (ChannelAccessRequest now draw l b)).
  set (l1 := fst (ChannelAccessRequest now draw l b)).
  assert (Hk : currentCw (at_key l1 b) =
               Z.min (2 * currentCw (at_key l b)) (m_cwMax l) ∧
               channelBusyUntil (at_key l1 b) = channelBusyUntil (at_key l b)).
  { unfold l1. rewrite at_key_access. unfold access_elem. cbv zeta.
    destruct (Z.ltb_spec now (channelBusyUntil (at_key l b))); [lia|].
    destruct (Z.ltb_spec (channelBusyUntil (at_key l b))
                (now + MilliSecondsHalf (u16 draw))); [|lia].
    simpl. split; [|done]. unfold u16, is_u16 in *.
    apply Z.mod_small. lia. }
  destruct Hk as [Hc Hb].
  assert (Hm : m_cwMax l1 = m_cwMax l)
    by (unfold l1; by rewrite ChannelAccessRequest_elem).
  pose proof (IH l1) as IH'. cbv zeta in IH'. rewrite Hm, Hc, Hb in IH'.
  destruct IH' as [I1 I2]; [done| unfold is_u16 in *; lia |done|].
  unfold lbt_run in *. rewrite I1, I2. split; [|done].
  cbn [length]. rewrite Nat2Z.inj_succ, Z.pow_succ_r by lia.
  apply min_double_pow; unfold is_u16 in *; lia.
Qed.

Lemma ecca_backoff_closed_form_witness :
  let reqs := [(1000000, 4); (2000000, 2); (3000000, 6); (4000000, 2);
               (5000000, 2)] in
  let l' := lbt_run lbt_one (map (λ r : Z * Z, EvAccess r.1 r.2 0) reqs) in
  currentCw (at_key l' 0) =
    Z.min (currentCw (at_key lbt_one 0) * 2 ^ Z.of_nat (length reqs)) 128 ∧
  channelBusyUntil (at_key l' 0) = channelBusyUntil (at_key lbt_one 0).
Proof.
  apply (ecca_backoff_closed_form lbt_one 0
           [(1000000, 4); (2000000, 2); (3000000, 6); (4000000, 2);
            (5000000, 2)]).
  - unfold is_u16. simpl. lia.
  - vm_compute. split; congruence.
  - repeat constructor; vm_compute; congruence.
Defined.

(** X4. A request made while the busy interval opened by an interference
    arrival is still running is denied by ICCA: it counts as an attempt
    and a failure, and it leaves the contention window and the occupied
    time stamp as they were (only the ECCA denial doubles the window). *)
Theorem icca_denies_during_busy `{SlotClock}
    (l : NrUeLbt) (b t rnd now draw : Z) :
  let l1 := HandleWifiInterference t rnd l b in
  now < t + MilliSecondsHalf (1 + rnd mod 5) →
  let r := ChannelAccessRequest now draw l1 b in
  snd r = false ∧
  currentCw (at_key (fst r) b) = currentCw (at_key l b) ∧
  channelOccupiedUntil (at_key (fst r) b) = channelOccupiedUntil (at_key l b) ∧
  totalAttempts (at_key (fst r) b) = u32 (totalAttempts (at_key l b) + 1) ∧
  totalFailures (at_key (fst r) b) = u32 (totalFailures (at_key l b) + 1).
Proof.
  intros l1 Hbusy r. unfold r.
  assert (Hs : snd (ChannelAccessRequest now draw l1 b) =
               snd (access_elem (m_cwMin l1) (m_cwMax l1) (m_mcotDuration l1)
                      now draw (at_key l1 b)))
    by (by rewrite ChannelAccessRequest_elem).
  rewrite Hs, at_key_access.
  assert (Hk : at_key l1 b =
               set_lastUpdateTime t
                 (set_wifiOccupancy (wifiOccupancy (at_key l1 b))
                    (set_channelBusyUntil
                       (t + MilliSecondsHalf (1 + rnd mod 5)) (at_key l b)))).
  { unfold l1, HandleWifiInterference. cbv zeta. rewrite !at_key_store.
    unfold u16. rewrite (Z.mod_small (1 + rnd mod 5))
      by (pose proof (Z.mod_pos_bound rnd 5); lia). done. }
  rewrite Hk. unfold access_elem. cbv zeta. simpl channelBusyUntil.
  destruct (Z.ltb_spec now (t + MilliSecondsHalf (1 + rnd mod 5))); [done|lia].
Qed.

Lemma icca_denies_during_busy_witness :
  let l1 := HandleWifiInterference 100000000 2 lbt_one 0 in
  let r := ChannelAccessRequest 100500000 0 l1 0 in
  snd r = false ∧
  currentCw (at_key (fst r) 0) = currentCw (at_key lbt_one 0) ∧
  channelOccupiedUntil (at_key (fst r) 0) =
    channelOccupiedUntil (at_key lbt_one 0) ∧
  totalAttempts (at_key (fst r) 0) = u32 (totalAttempts (at_key lbt_one 0) + 1) ∧
  totalFailures (at_key (fst r) 0) = u32 (totalFailures (at_key lbt_one 0) + 1).
Proof.
  apply (icca_denies_during_busy lbt_one 0 100000000 2 100500000 0).
  vm_compute. reflexivity.
Defined.

(** X5. [SetWifiInterference] reconfigures the arrival rate only: for an
    unknown sub-band it changes nothing at all (it inserts no element),
    and for a known one the next interval scheduled is [1 s / mean] while
    the window, the counters, both smoothed statistics and the time
    stamps of the sub-band, and every other sub-band, stay as they are. *)
Theorem SetWifiInterference_effect (l : NrUeLbt) (b : Z) (mean : double) :
  let l' := SetWifiInterference l b mean in
  (m_bwpStates l !! b = None → l' = l) ∧
  (∀ s, m_bwpStates l !! b = Some s →
        m_bwpStates l' !! b = Some (set_wifiPoissonMean mean s) ∧
        ScheduleWifiInterference l' b = Dbl.div (Dbl.Num 1000000000) mean) ∧
  (∀ b', GetFailureRate l' b' = GetFailureRate l b' ∧
         GetWifiOccupancy l' b' = GetWifiOccupancy l b' ∧
         GetContentionWindow l' b' = GetContentionWindow l b' ∧
         totalAttempts (at_key l' b') = totalAttempts (at_key l b') ∧
         totalFailures (at_key l' b') = totalFailures (at_key l b') ∧
         channelBusyUntil (at_key l' b') = channelBusyUntil (at_key l b')) ∧
  (∀ b', b' ≠ b → m_bwpStates l' !! b' = m_bwpStates l !! b').
Proof.
  cbv zeta. unfold SetWifiInterference.
  destruct (m_bwpStates l !! b) as [s|] eqn:Hs.
  - split; [done|]. split; [|split].
    + intros s' [= <-]. split; [apply lookup_store|].
      unfold ScheduleWifiInterference. by rewrite at_key_store.
    + intros b'. unfold GetFailureRate, GetWifiOccupancy, GetContentionWindow, at_key.
      destruct (decide (b = b')) as [<-|Hne].
      * rewrite lookup_store, Hs. done.
      * rewrite lookup_store_ne by done. done.
    + intros b' Hne. by apply lookup_store_ne.
  - split; [done|]. split; [done|]. split; done.
Qed.

Lemma GetSeconds_pos (delta : Z) :
  0 < delta → ∃ q, GetSeconds delta = Dbl.Num q ∧ (0 < q)%Q.
Proof.
  intros Hd. unfold GetSeconds. eexists. split; [done|].
  rewrite Qred_correct. unfold Qlt. simpl. lia.
Qed.

Lemma occupancy_sample_nonneg (busySlots delta : Z) :
  0 <= busySlots → 0 < delta →
  ∃ q, Dbl.div (Dbl.mul (Dbl.of_Z busySlots) d0_5) (GetSeconds delta) = Dbl.Num q ∧
       (0 <= q)%Q.
Proof.
  intros Hb Hd. destruct (GetSeconds_pos delta Hd) as (qs & -> & Hqs).
  unfold Dbl.of_Z, d0_5, Dbl.mul, Dbl.div.
  destruct (Qeq_bool qs 0) eqn:E.
  - apply Qeq_bool_iff in E. rewrite E in Hqs. by apply Qlt_irrefl in Hqs.
  - eexists. split; [done|]. rewrite !Qred_correct.
    apply Qle_shift_div_l; [done|]. rewrite Qmult_0_l.
    apply Qmult_le_0_compat; [|done].
    rewrite (Zle_Qle 0 busySlots) in Hb. exact Hb.
Qed.

Lemma occupancy_update_nonneg (q0 : Q) (busySlots delta : Z) :
  (0 <= q0)%Q → 0 <= busySlots → 0 < delta →
  ∃ q, Dbl.add (Dbl.mul (Dbl.Num q0) d0_9)
         (Dbl.mul d0_1
            (Dbl.div (Dbl.mul (Dbl.of_Z busySlots) d0_5) (GetSeconds delta))) =
       Dbl.Num q ∧ (0 <= q)%Q.
Proof.
  intros Hq Hb Hd.
  destruct (occupancy_sample_nonneg busySlots delta Hb Hd) as (qs & -> & Hqs).
  unfold d0_9, d0_1, Dbl.mul, Dbl.add. eexists. split; [done|].
  rewrite !Qred_correct. lra.
Qed.

(** X6. The smoothed occupancy stays a finite, non-negative number over
    any sequence of events in which every interference arrival of the
    sub-band runs strictly later than its previous statistics update. *)
Theorem occupancy_finite_nonneg `{SlotClock}
    (l : NrUeLbt) (b : Z) (es : list LbtEvent) (q0 : Q) :
  wifiOccupancy (at_key l b) = Dbl.Num q0 → (0 <= q0)%Q →
  timely l b es →
  ∃ q, wifiOccupancy (at_key (lbt_run l es) b) = Dbl.Num q ∧ (0 <= q)%Q.
Proof.
  revert l q0. induction es as [|e es IH]; intros l q0 Ho Hq Ht.
  { by exists q0. }
  destruct Ht as [He Ht]. simpl lbt_run.
  assert (Hstep : ∃ q1, wifiOccupancy (at_key (lbt_step l e) b) = Dbl.Num q1 ∧
                        (0 <= q1)%Q).
  { destruct (decide (event_bwp e = b)) as [Heq|Hne];
      [|exists q0; by rewrite at_key_step_other].
    destruct e as [now draw b'|now rnd b']; cbn [event_bwp] in Heq; subst b'.
    - exists q0. cbn [lbt_step]. rewrite at_key_access.
      pose proof (access_elem_counters (m_cwMin l) (m_cwMax l)
                    (m_mcotDuration l) now draw (at_key l b)) as Hc.
      cbv zeta in Hc. destruct Hc as (_ & _ & _ & _ & -> & _). done.
    - specialize (He eq_refl). cbn [lbt_step].
      unfold HandleWifiInterference. cbv zeta. rewrite at_key_store.
      simpl. rewrite Ho.
      apply occupancy_update_nonneg; [done| |lia].
      unfold u16. pose proof (Z.mod_pos_bound (1 + rnd mod 5) 65536). lia. }
  destruct Hstep as (q1 & Ho1 & Hq1). by apply (IH _ q1).
Qed.

Lemma occupancy_finite_nonneg_witness :
  ∃ q, wifiOccupancy
         (at_key (lbt_run lbt_one
                    [EvInterference 100000000 2 0; EvAccess 100500000 0 0;
                     EvInterference 200000000 4 0]) 0) = Dbl.Num q ∧
       (0 <= q)%Q.
Proof.
  apply (occupancy_finite_nonneg lbt_one 0
           [EvInterference 100000000 2 0; EvAccess 100500000 0 0;
            EvInterference 200000000 4 0] 0).
  - reflexivity.
  - discriminate.
  - vm_compute. repeat split; intros; congruence.
Defined.

(** X7. An interference arrival that runs at the very instant of the
    sub-band's last statistics update divides the busy time by an elapsed
    time of zero: a finite occupancy becomes plus infinity, and the next
    arrival then turns it into NaN or leaves it infinite, never finite
    again. *)
Theorem occupancy_zero_elapsed `{SlotClock}
    (l : NrUeLbt) (b rnd : Z) (q0 : Q) :
  wifiOccupancy (at_key l b) = Dbl.Num q0 →
  let l1 := HandleWifiInterference (lastUpdateTime (at_key l b)) rnd l b in
  wifiOccupancy (at_key l1 b) = Dbl.PInf ∧
  GetWifiOccupancy l1 b = Dbl.PInf ∧
  ∀ now rnd', ∀ q, GetWifiOccupancy (HandleWifiInterference now rnd' l1 b) b
                   ≠ Dbl.Num q.
Proof.
  intros Ho l1.
  assert (H1 : wifiOccupancy (at_key l1 b) = Dbl.PInf).
  { unfold l1, HandleWifiInterference. cbv zeta. rewrite at_key_store.
    simpl. rewrite Ho, Z.sub_diag.
    assert (Hb : 1 <= u16 (1 + rnd mod 5)).
    { unfold u16. pose proof (Z.mod_pos_bound rnd 5).
      rewrite Z.mod_small; lia. }
    change (GetSeconds 0) with (Dbl.Num 0).
    unfold Dbl.of_Z, d0_5, Dbl.mul at 3, Dbl.div.
    change (Qeq_bool 0 0) with true. cbv iota.
    assert (Hc : (Qred (inject_Z (u16 (1 + rnd mod 5)) * (1 # 2)) ?= 0)%Q = Gt).
    { apply Qgt_alt. rewrite Qred_correct.
      rewrite (Zle_Qle 1 (u16 (1 + rnd mod 5))) in Hb.
      change (inject_Z 1) with 1%Q in Hb. lra. }
    rewrite Hc. done. }
  split; [done|]. split.
  { unfold GetWifiOccupancy, l1, HandleWifiInterference. cbv zeta.
    rewrite lookup_store. revert H1.
    unfold l1, HandleWifiInterference. cbv zeta. by rewrite at_key_store. }
  intros now rnd' q. unfold GetWifiOccupancy, HandleWifiInterference at 1.
  cbv zeta. rewrite lookup_store. simpl. rewrite H1.
  change (Dbl.mul Dbl.PInf d0_9) with Dbl.PInf.
  generalize (Dbl.mul d0_1
                (Dbl.div (Dbl.mul (Dbl.of_Z (u16 (1 + rnd' mod 5))) d0_5)
                   (GetSeconds (now - lastUpdateTime (at_key l1 b))))).
  by intros [| | |].
Qed.

Lemma occupancy_zero_elapsed_witness :
  let l1 := HandleWifiInterference (lastUpdateTime (at_key lbt_one 0)) 2 lbt_one 0 in
  wifiOccupancy (at_key l1 0) = Dbl.PInf ∧
  GetWifiOccupancy l1 0 = Dbl.PInf ∧
  ∀ now rnd', ∀ q, GetWifiOccupancy (HandleWifiInterference now rnd' l1 0) 0
                   ≠ Dbl.Num q.
Proof. apply (occupancy_zero_elapsed lbt_one 0 2 0). reflexivity. Defined.

(** * Further properties of the registry *)

Lemma ue_entries_spec (m : NrUeBwpManager) :
  NoDup (ue_entries m).*1 ∧
  ∀ u x, (u, x) ∈ ue_entries m ↔ m_ueMap m !! u = Some x.
Proof.
  unfold ue_entries. split.
  - rewrite merge_sort_Permutation. apply NoDup_fst_map_to_list.
  - intros u x. rewrite merge_sort_Permutation. apply elem_of_map_to_list.
Qed.

Lemma on_bwp_zero (um : gmap Z Z) (b : Z) :
  (∀ u, um !! u ≠ Some b) → on_bwp um b = 0%nat.
Proof.
  intros H. unfold on_bwp. apply map_size_empty_iff, map_empty_filter.
  intros u x Hu Hx. simpl in Hx. subst. by apply (H u).
Qed.

Lemma reassign_lookup (b d : Z) (l : list (Z * Z)) : ∀ um bm,
  b ≠ d → NoDup l.*1 →
  (∀ u x, (u, x) ∈ l → um !! u = Some x) →
  (∀ u, um !! u = Some b → u ∈ l.*1) →
  ∀ u, (fold_left (reassign_step b d) l (um, bm)).1 !! u =
       reassigned b d <$> um !! u.
Proof.
  induction l as [|[u0 x0] l IH]; intros um bm Hbd Hnd Hin Hall u.
  - simpl. destruct (um !! u) as [x|] eqn:E; [|done]. simpl.
    unfold reassigned. case_decide; [|done]. subst.
    specialize (Hall u E). by apply elem_of_nil in Hall.
  - cbn [fold_left]. rewrite fmap_cons in Hnd.
    apply NoDup_cons in Hnd as [Hu0 Hnd]. cbn [fst] in Hu0.
    assert (H0 : um !! u0 = Some x0) by (apply Hin; left).
    unfold reassign_step at 2. cbn [fst snd].
    destruct (decide (x0 = b)) as [->|Hx].
    + rewrite IH; try done.
      * destruct (decide (u = u0)) as [->|Hne].
        -- rewrite lookup_insert_eq, H0. cbn [fmap option_fmap option_map].
           unfold reassigned. repeat case_decide; congruence.
        -- by rewrite lookup_insert_ne.
      * intros u' x' Hin'. rewrite lookup_insert_ne.
        -- apply Hin. by right.
        -- intros ->. apply Hu0. apply list_elem_of_fmap. by exists (u', x').
      * intros u' Hu'. destruct (decide (u' = u0)) as [->|Hne].
        -- rewrite lookup_insert_eq in Hu'. congruence.
        -- rewrite lookup_insert_ne in Hu' by done.
           specialize (Hall u' Hu'). rewrite fmap_cons in Hall.
           apply elem_of_cons in Hall as [?|?]; [done|done].
    + rewrite IH; try done.
      * intros u' x' Hin'. apply Hin. by right.
      * intros u' Hu'. specialize (Hall u' Hu'). rewrite fmap_cons in Hall.
        apply elem_of_cons in Hall as [->|?]; [cbn [fst] in *; congruence|done].
Qed.

Lemma reassign_counts (b d : Z) (l : list (Z * Z)) : ∀ um bm,
  b ≠ d → NoDup l.*1 →
  (∀ u x, (u, x) ∈ l → um !! u = Some x) →
  removing_inv b um bm → Z.of_nat (size um) <= 65535 →
  let r := fold_left (reassign_step b d) l (um, bm) in
  removing_inv b r.1 r.2 ∧ size r.1 = size um ∧
  activeUes (bwp_at r.2 d) + Z.of_nat (on_bwp r.1 b) =
    activeUes (bwp_at bm d) + Z.of_nat (on_bwp um b) ∧
  (∀ b', b' ≠ d → r.2 !! b' = bm !! b').
Proof.
  induction l as [|[u0 x0] l IH]; intros um bm Hbd Hnd Hin Hinv Hsz; cbv zeta.
  { done. }
  cbn [fold_left]. rewrite fmap_cons in Hnd.
  apply NoDup_cons in Hnd as [Hu0 Hnd]. cbn [fst] in Hu0.
  assert (H0 : um !! u0 = Some x0) by (apply Hin; left).
  assert (Hst : reassign_step b d (um, bm) (u0, x0) =
                if decide (x0 = b) then (<[u0:=d]> um, incr_active bm d)
                else (um, bm)) by done.
  rewrite Hst. clear Hst.
  destruct (decide (x0 = b)) as [->|Hx].
  2:{ apply IH; try done. intros u' x' Hin'. apply Hin. by right. }
  set (um0 := delete u0 um).
  assert (Hs0 : size um = S (size um0)).
  { unfold um0. rewrite map_size_delete_Some by done.
    assert (size um ≠ 0)%nat; [|lia].
    apply map_size_ne_0_lookup. by exists u0. }
  assert (Hold : ∀ b', on_bwp um b' =
                   ((if decide (b = b') then 1 else 0) + on_bwp um0 b')%nat)
    by (intros b'; by apply on_bwp_delete).
  assert (Hnew : ∀ b', on_bwp (<[u0:=d]> um) b' =
                   ((if decide (d = b') then 1 else 0) + on_bwp um0 b')%nat).
  { intros b'. rewrite <- insert_delete_eq.
    apply on_bwp_insert_fresh, lookup_delete_eq. }
  destruct Hinv as (Hc & Hsum & Hsome).
  pose proof (on_bwp_le um0 d) as Hle.
  assert (E : u16 (activeUes (bwp_at bm d) + 1) = Z.of_nat (on_bwp um0 d) + 1).
  { rewrite Hc, Hold, decide_False by done. unfold u16.
    rewrite Z.mod_small; lia. }
  pose proof (IH (<[u0:=d]> um) (incr_active bm d)) as IH'. cbv zeta in IH'.
  destruct IH' as (Hinv' & Hsz' & Hd' & Hfr'); try done.
  - intros u' x' Hin'. rewrite lookup_insert_ne.
    + apply Hin. by right.
    + intros ->. apply Hu0. apply list_elem_of_fmap. by exists (u', x').
  - unfold removing_inv, incr_active. rewrite E. split; [|split].
    + intros b' Hb'. rewrite Hnew. destruct (decide (d = b')) as [->|Hd].
      * rewrite bwp_at_insert. simpl. lia.
      * rewrite bwp_at_insert_ne by done.
        rewrite Hc, Hold, decide_False by done. lia.
    + rewrite sum_active_insert, (bwp_at_insert_ne _ d b) by done.
      simpl. rewrite map_size_insert_Some by done.
      rewrite Hnew, decide_False by done.
      rewrite (Hc d), !Hold in * by done.
      rewrite decide_True in Hsum by done.
      rewrite decide_False by done. lia.
    + rewrite lookup_insert_ne by done. done.
  - rewrite map_size_insert_Some by done. done.
  - split; [done|]. split; [rewrite Hsz'; by rewrite map_size_insert_Some|].
    split.
    + rewrite Hd'. unfold incr_active. rewrite bwp_at_insert, E. simpl.
      rewrite Hnew, decide_False by done.
      rewrite (Hc d), !Hold by done.
      repeat case_decide; try congruence; lia.
    + intros b' Hb'. rewrite Hfr' by done. unfold incr_active.
      by rewrite lookup_insert_ne.
Qed.

(** X8. Removing a registered sub-band other than the default one moves
    every terminal recorded on it to the default sub-band and leaves the
    other terminals alone; the sub-band is gone, the default sub-band's
    count grows by the removed sub-band's count, every other count is
    unchanged, and the counts still add up to the number of terminals.
    No notification is scheduled for the PHY.  (At most 65535 terminals,
    as for the 16-bit counts.) *)
Theorem RemoveBwp_reassigns (m : NrUeBwpManager) (b : Z) :
  reg_inv m → num_ues m <= 65535 →
  is_Some (m_bwpMap m !! b) → b ≠ m_defaultBwpId m →
  let m' := RemoveBwp m b in
  m_bwpMap m' !! b = None ∧
  (∀ u, m_ueMap m' !! u = reassigned b (m_defaultBwpId m) <$> m_ueMap m !! u) ∧
  (∀ u, GetUeBwp m' u ≠ b) ∧
  reg_inv m' ∧ num_ues m' = num_ues m ∧
  GetActiveUes m' (m_defaultBwpId m) =
    GetActiveUes m (m_defaultBwpId m) + GetActiveUes m b ∧
  (∀ b', b' ≠ b → b' ≠ m_defaultBwpId m →
         m_bwpMap m' !! b' = m_bwpMap m !! b') ∧
  phyNotifications m' = phyNotifications m.
Proof.
  intros [Hc Ht] Hn [ib Hb] Hbd m'. unfold m', RemoveBwp. rewrite Hb.
  set (d := m_defaultBwpId m) in *.
  destruct (ue_entries_spec m) as [Hnd Hent].
  assert (Hin : ∀ u x, (u, x) ∈ ue_entries m → m_ueMap m !! u = Some x)
    by (intros u x; apply Hent).
  assert (Hall : ∀ u, m_ueMap m !! u = Some b → u ∈ (ue_entries m).*1).
  { intros u Hu. apply list_elem_of_fmap. exists (u, b). split; [done|].
    by apply Hent. }
  pose proof (reassign_lookup b d (ue_entries m) (m_ueMap m) (m_bwpMap m)
                Hbd Hnd Hin Hall) as Hlk.
  assert (Hri : removing_inv b (m_ueMap m) (m_bwpMap m)).
  { unfold total_active, num_ues in Ht. split; [|split; [|by exists ib]].
    - intros b' _. apply Hc.
    - rewrite Hc. lia. }
  pose proof (reassign_counts b d (ue_entries m) (m_ueMap m) (m_bwpMap m)
                Hbd Hnd Hin Hri Hn) as Hcnt.
  cbv zeta in Hcnt.
  set (r := fold_left (reassign_step b d) (ue_entries m) (m_ueMap m, m_bwpMap m))
    in *.
  destruct Hcnt as ((Hc' & Hsum' & [ib' Hb']) & Hsz & Hd & Hfr).
  assert (Hnob : ∀ u, r.1 !! u ≠ Some b).
  { intros u. rewrite Hlk. destruct (m_ueMap m !! u) as [x|]; [|done]. simpl.
    unfold reassigned. case_decide; congruence. }
  assert (Hz : on_bwp r.1 b = 0%nat) by by apply on_bwp_zero.
  cbn [m_bwpMap m_ueMap phyNotifications m_defaultBwpId].
  split; [apply lookup_delete_eq|]. split; [done|]. split.
  { intros u. unfold GetUeBwp. cbn [m_ueMap m_defaultBwpId].
    destruct (r.1 !! u) as [x|] eqn:E; [|done]. intros ->. by apply (Hnob u). }
  assert (Hat : ∀ b', b' ≠ b → bwp_at (delete b r.2) b' = bwp_at r.2 b').
  { intros b' Hb'0. unfold bwp_at. by rewrite lookup_delete_ne. }
  split; [|split; [|split; [|split]]].
  - split.
    + intros b'. cbn [m_bwpMap m_ueMap]. destruct (decide (b' = b)) as [->|Hne].
      * unfold bwp_at. rewrite lookup_delete_eq, Hz. done.
      * rewrite Hat by done. by apply Hc'.
    + unfold total_active, num_ues. cbn [m_bwpMap m_ueMap].
      pose proof (sum_active_delete r.2 b ib' Hb') as Hsd.
      assert (Hib : activeUes (bwp_at r.2 b) = activeUes ib')
        by (unfold bwp_at; by rewrite Hb').
      rewrite Hz in Hsum'. lia.
  - unfold num_ues. cbn [m_ueMap]. by rewrite Hsz.
  - rewrite !GetActiveUes_bwp_at. cbn [m_bwpMap].
    rewrite Hat by done. rewrite Hz in Hd. rewrite (Hc b). lia.
  - intros b' Hb'0 Hb'1. rewrite lookup_delete_ne by done. by apply Hfr.
  - done.
Qed.

Lemma RemoveBwp_reassigns_witness :
  let m' := RemoveBwp demo_manager 1 in
  m_bwpMap m' !! 1 = None ∧
  (∀ u, m_ueMap m' !! u = reassigned 1 0 <$> m_ueMap demo_manager !! u) ∧
  (∀ u, GetUeBwp m' u ≠ 1) ∧
  reg_inv m' ∧ num_ues m' = num_ues demo_manager ∧
  GetActiveUes m' 0 = GetActiveUes demo_manager 0 + GetActiveUes demo_manager 1 ∧
  (∀ b', b' ≠ 1 → b' ≠ 0 → m_bwpMap m' !! b' = m_bwpMap demo_manager !! b') ∧
  phyNotifications m' = phyNotifications demo_manager.
Proof.
  apply (RemoveBwp_reassigns demo_manager 1).
  - apply (ue_run_inv _ (add_bwps (manager_new 0) [(0, 10); (1, 10)])).
    + apply (add_bwps_inv [(0, 10); (1, 10)] (manager_new 0));
        [done|apply manager_new_inv].
    + vm_compute. congruence.
    + vm_compute. repeat split; congruence.
  - vm_compute. congruence.
  - vm_compute. eauto.
  - vm_compute. congruence.
Defined.

Lemma reassign_default (d : Z) (l : list (Z * Z)) : ∀ um bm,
  (∀ u x, (u, x) ∈ l → um !! u = Some x) →
  let r := fold_left (reassign_step d d) l (um, bm) in
  r.1 = um ∧ delete d r.2 = delete d bm.
Proof.
  induction l as [|[u0 x0] l IH]; intros um bm Hin; cbv zeta; [done|].
  cbn [fold_left].
  assert (H0 : um !! u0 = Some x0) by (apply Hin; left).
  assert (Hst : reassign_step d d (um, bm) (u0, x0) =
                if decide (x0 = d) then (um, incr_active bm d) else (um, bm)).
  { unfold reassign_step. cbn [fst snd]. case_decide; [|done]. subst.
    by rewrite insert_id. }
  rewrite Hst. clear Hst.
  assert (Hin' : ∀ u x, (u, x) ∈ l → um !! u = Some x)
    by (intros u x ?; apply Hin; by right).
  destruct (decide (x0 = d)) as [->|Hx]; [|by apply IH].
  pose proof (IH um (incr_active bm d) Hin') as H. cbv zeta in H.
  destruct H as [-> ->]. split; [done|].
  unfold incr_active. apply delete_insert_eq.
Qed.

(** X9. Removing the default sub-band leaves its terminals recorded on
    a sub-band that no longer exists: the terminal map is unchanged, the
    element is erased together with its count (so the counts fall short
    of the number of terminals by that count), and the removed sub-band
    reports 0 resource blocks and 0 active terminals.  When such a
    terminal is switched to another sub-band afterwards, the decrement
    re-creates the default sub-band with 0 resource blocks and an active
    count of 65535. *)
Theorem RemoveBwp_default (m : NrUeBwpManager) :
  is_Some (m_bwpMap m !! m_defaultBwpId m) →
  let d := m_defaultBwpId m in
  let m' := RemoveBwp m d in
  m_ueMap m' = m_ueMap m ∧
  m_bwpMap m' = delete d (m_bwpMap m) ∧
  GetNumRbs m' d = 0 ∧ GetActiveUes m' d = 0 ∧
  total_active m' = total_active m - GetActiveUes m d ∧
  num_ues m' = num_ues m ∧
  ∀ u new, m_ueMap m !! u = Some d → new ≠ d →
           is_Some (m_bwpMap m !! new) →
           let m'' := SwitchBwp m' u new in
           m_ueMap m'' !! u = Some new ∧
           m_bwpMap m'' !! d = Some (mkBwpInfo 0 0 65535).
Proof.
  intros [id Hd] d m'. fold d in Hd.
  destruct (ue_entries_spec m) as [_ Hent].
  pose proof (reassign_default d (ue_entries m) (m_ueMap m) (m_bwpMap m)) as H.
  cbv zeta in H. destruct H as [Hu Hb]; [intros u x; apply Hent|].
  assert (Hm' : m' = mkNrUeBwpManager (delete d (m_bwpMap m)) (m_ueMap m)
                       d (phyNotifications m)).
  { unfold m', RemoveBwp. rewrite Hd. fold d. cbv zeta. by rewrite Hu, Hb. }
  rewrite Hm'. cbn [m_ueMap m_bwpMap]. split; [done|]. split; [done|].
  unfold GetNumRbs, GetActiveUes, total_active, num_ues.
  cbn [m_ueMap m_bwpMap]. rewrite lookup_delete_eq, Hd.
  split; [done|]. split; [done|]. split.
  { rewrite (sum_active_delete (m_bwpMap m) d id Hd). lia. }
  split; [done|].
  intros u new Hud Hne [inew Hnew]. unfold SwitchBwp.
  cbn [m_ueMap m_bwpMap m_defaultBwpId phyNotifications].
  rewrite Hud, lookup_delete_ne, Hnew by done.
  rewrite decide_False by done. cbn [m_ueMap m_bwpMap].
  split; [apply lookup_insert_eq|].
  unfold incr_active, decr_active.
  rewrite lookup_insert_ne by done. rewrite lookup_insert_eq.
  unfold bwp_at. rewrite lookup_delete_eq. done.
Qed.

Lemma RemoveBwp_default_witness :
  let d := m_defaultBwpId demo_manager in
  let m' := RemoveBwp demo_manager d in
  m_ueMap m' = m_ueMap demo_manager ∧
  m_bwpMap m' = delete d (m_bwpMap demo_manager) ∧
  GetNumRbs m' d = 0 ∧ GetActiveUes m' d = 0 ∧
  total_active m' = total_active demo_manager - GetActiveUes demo_manager d ∧
  num_ues m' = num_ues demo_manager ∧
  ∀ u new, m_ueMap demo_manager !! u = Some d → new ≠ d →
           is_Some (m_bwpMap demo_manager !! new) →
           let m'' := SwitchBwp m' u new in
           m_ueMap m'' !! u = Some new ∧
           m_bwpMap m'' !! d = Some (mkBwpInfo 0 0 65535).
Proof. apply (RemoveBwp_default demo_manager). vm_compute. eauto. Defined.

Lemma set_activeUes_id (i : BwpInfo) (a : Z) :
  activeUes i = a → set_activeUes a i = i.
Proof. intros <-. by destruct i. Qed.

Lemma set_activeUes_twice (i : BwpInfo) (a a' : Z) :
  set_activeUes a' (set_activeUes a i) = set_activeUes a' i.
Proof. done. Qed.

(** X10. Registration of a terminal round-trips: when the default
    sub-band is registered and its 16-bit count has room, [AddUe] of a new
    terminal records it on the default sub-band, a second [AddUe] of the
    same terminal changes nothing, and [RemoveUe] restores the registry
    exactly as it was. *)
Theorem AddUe_RemoveUe_roundtrip (m : NrUeBwpManager) (u : Z) (i : BwpInfo) :
  m_ueMap m !! u = None →
  m_bwpMap m !! m_defaultBwpId m = Some i →
  0 <= activeUes i < 65535 →
  GetUeBwp (AddUe m u) u = m_defaultBwpId m ∧
  GetActiveUes (AddUe m u) (m_defaultBwpId m) = activeUes i + 1 ∧
  AddUe (AddUe m u) u = AddUe m u ∧
  RemoveUe (AddUe m u) u = m.
Proof.
  intros Hu Hd Ha.
  assert (E : u16 (activeUes i + 1) = activeUes i + 1)
    by (unfold u16; apply Z.mod_small; lia).
  assert (HA : AddUe m u =
               mkNrUeBwpManager
                 (<[m_defaultBwpId m := set_activeUes (activeUes i + 1) i]>
                    (m_bwpMap m))
                 (<[u := m_defaultBwpId m]> (m_ueMap m))
                 (m_defaultBwpId m) (phyNotifications m)).
  { unfold AddUe. rewrite Hu. unfold incr_active, bwp_at. rewrite Hd.
    cbn [from_option id]. by rewrite E. }
  rewrite HA. unfold GetUeBwp, GetActiveUes.
  cbn [m_ueMap m_bwpMap m_defaultBwpId]. rewrite !lookup_insert_eq.
  split; [done|]. split; [done|]. split.
  - unfold AddUe. cbn [m_ueMap]. by rewrite lookup_insert_eq.
  - unfold RemoveUe. cbn [m_ueMap m_bwpMap m_defaultBwpId phyNotifications].
    rewrite lookup_insert_eq. unfold decr_active, bwp_at.
    rewrite lookup_insert_eq. cbn [from_option id].
    rewrite insert_insert_eq, delete_insert_eq, delete_id by done.
    rewrite set_activeUes_twice. cbn [activeUes set_activeUes].
    replace (u16 (activeUes i + 1 - 1)) with (activeUes i)
      by (unfold u16; rewrite Z.mod_small; lia).
    rewrite set_activeUes_id by done. rewrite insert_id by done.
    by destruct m.
Qed.

Lemma AddUe_RemoveUe_roundtrip_witness :
  GetUeBwp (AddUe demo_manager 9) 9 = m_defaultBwpId demo_manager ∧
  GetActiveUes (AddUe demo_manager 9) (m_defaultBwpId demo_manager) = 3 + 1 ∧
  AddUe (AddUe demo_manager 9) 9 = AddUe demo_manager 9 ∧
  RemoveUe (AddUe demo_manager 9) 9 = demo_manager.
Proof.
  apply (AddUe_RemoveUe_roundtrip demo_manager 9 (mkBwpInfo 0 10 3));
    vm_compute; [reflexivity|reflexivity|split; congruence].
Defined.

(** X11. [AddUe] does not check that the default sub-band exists: when it
    is not registered, adding a terminal creates it through
    [m_bwpMap[m_defaultBwpId]] with 0 resource blocks, an id field of 0
    (whatever the default id is) and an active count of 1, so the number
    of sub-bands grows by one; removing the terminal again leaves that
    sub-band behind with count 0. *)
Theorem AddUe_creates_default (m : NrUeBwpManager) (u : Z) :
  m_ueMap m !! u = None →
  m_bwpMap m !! m_defaultBwpId m = None →
  let m' := AddUe m u in
  m_bwpMap m' !! m_defaultBwpId m = Some (mkBwpInfo 0 0 1) ∧
  GetNumRbs m' (m_defaultBwpId m) = 0 ∧
  size (m_bwpMap m') = S (size (m_bwpMap m)) ∧
  m_bwpMap (RemoveUe m' u) !! m_defaultBwpId m = Some (mkBwpInfo 0 0 0) ∧
  m_ueMap (RemoveUe m' u) = m_ueMap m.
Proof.
  intros Hu Hd. cbv zeta. unfold GetNumRbs, AddUe. rewrite Hu.
  cbn [m_ueMap m_bwpMap m_defaultBwpId]. unfold incr_active, bwp_at.
  rewrite Hd. cbn [from_option id]. rewrite lookup_insert_eq.
  split; [done|]. split; [done|]. split; [by apply map_size_insert_None|].
  unfold RemoveUe. cbn [m_ueMap m_bwpMap m_defaultBwpId phyNotifications].
  rewrite lookup_insert_eq. cbn [m_ueMap m_bwpMap].
  unfold decr_active, bwp_at. rewrite !lookup_insert_eq. cbn [from_option id].
  split; [done|]. by rewrite delete_insert_eq, delete_id.
Qed.

Lemma AddUe_creates_default_witness :
  let m := AddBwp (manager_new 3) 1 10 in
  let m' := AddUe m 7 in
  m_bwpMap m' !! 3 = Some (mkBwpInfo 0 0 1) ∧
  GetNumRbs m' 3 = 0 ∧
  size (m_bwpMap m') = S (size (m_bwpMap m)) ∧
  m_bwpMap (RemoveUe m' 7) !! 3 = Some (mkBwpInfo 0 0 0) ∧
  m_ueMap (RemoveUe m' 7) = m_ueMap m.
Proof.
  apply (AddUe_creates_default (AddBwp (manager_new 3) 1 10) 7); reflexivity.
Defined.

Lemma cons_neq_self {A} (x : A) (l : list A) : x :: l ≠ l.
Proof. induction l as [|y l IH]; [done|]. intros [= -> H]. by apply IH. Qed.

Lemma SwitchBwp_cases (m : NrUeBwpManager) (u new : Z) :
  (SwitchBwp m u new = m ∧
   ¬ ∃ old, m_ueMap m !! u = Some old ∧ old ≠ new ∧
            is_Some (m_bwpMap m !! new)) ∨
  (∃ old, m_ueMap m !! u = Some old ∧ old ≠ new ∧
          is_Some (m_bwpMap m !! new) ∧
          SwitchBwp m u new =
            mkNrUeBwpManager
              (incr_active (decr_active (m_bwpMap m) old) new)
              (<[u := new]> (m_ueMap m)) (m_defaultBwpId m)
              ((u, new) :: phyNotifications m)).
Proof.
  unfold SwitchBwp. destruct (m_ueMap m !! u) as [old|] eqn:Hu.
  2:{ left. split; [done|]. by intros (? & ? & _). }
  destruct (m_bwpMap m !! new) as [inew|] eqn:Hb.
  2:{ left. split; [done|]. by intros (? & _ & _ & [? ?]). }
  destruct (decide (old = new)) as [->|Hne].
  { left. split; [done|]. intros (? & [= <-] & ? & _). done. }
  right. exists old. split; [done|]. split; [done|]. split; [by exists inew|done].
Qed.

(** X12. [SwitchBwp] changes the registry exactly when the terminal is
    known, the target sub-band is known and it differs from the recorded
    one; in that case exactly one PHY notification [(ueId, newBwpId)] is
    scheduled, and otherwise none.  Repeating a call changes nothing
    more. *)
Theorem SwitchBwp_changes_iff (m : NrUeBwpManager) (u new : Z) :
  let m' := SwitchBwp m u new in
  (m' ≠ m ↔ ∃ old, m_ueMap m !! u = Some old ∧ old ≠ new ∧
                   is_Some (m_bwpMap m !! new)) ∧
  (m' ≠ m → phyNotifications m' = (u, new) :: phyNotifications m) ∧
  (m' = m ∨ GetUeBwp m' u = new) ∧
  SwitchBwp m' u new = m'.
Proof.
  cbv zeta.
  destruct (SwitchBwp_cases m u new) as [[E Hn]|(old & Hu & Hne & Hb & E)].
  - rewrite E. split; [|split; [|split; [by left|done]]].
    + split; [intros H; by destruct H|intros H; by destruct Hn].
    + intros H. by destruct H.
  - assert (Hneq : SwitchBwp m u new ≠ m).
    { rewrite E. intros E'. apply (f_equal phyNotifications) in E'.
      simpl in E'. by apply cons_neq_self in E'. }
    split; [|split; [|split]].
    + split; [intros _; by exists old|done].
    + intros _. by rewrite E.
    + right. rewrite E. unfold GetUeBwp. cbn [m_ueMap].
      by rewrite lookup_insert_eq.
    + rewrite E. unfold SwitchBwp at 1. cbn [m_ueMap m_bwpMap].
      rewrite lookup_insert_eq.
      unfold incr_active at 1. rewrite lookup_insert_eq.
      by rewrite decide_True.
Qed.

(** X13. Switching a terminal to another sub-band and back restores the
    terminal map and every active count; only the two PHY notifications
    remain. *)
Theorem SwitchBwp_roundtrip (m : NrUeBwpManager) (u a b : Z) :
  reg_inv m → num_ues m <= 65535 →
  m_ueMap m !! u = Some a → is_Some (m_bwpMap m !! b) → a ≠ b →
  let m2 := SwitchBwp (SwitchBwp m u b) u a in
  m_ueMap m2 = m_ueMap m ∧ m_bwpMap m2 = m_bwpMap m ∧
  phyNotifications m2 = (u, a) :: (u, b) :: phyNotifications m.
Proof.
  intros [Hc _] Hn Hu [ib Hb] Hne.
  pose proof (on_bwp_delete (m_ueMap m) u a a Hu) as Ha1.
  rewrite decide_True in Ha1 by done.
  pose proof (on_bwp_delete (m_ueMap m) u a b Hu) as Hb1.
  rewrite decide_False in Hb1 by done.
  pose proof (on_bwp_le (delete u (m_ueMap m)) b) as Hle.
  assert (Hsz : size (m_ueMap m) = S (size (delete u (m_ueMap m)))).
  { rewrite map_size_delete_Some by done.
    assert (size (m_ueMap m) ≠ 0)%nat; [|lia].
    apply map_size_ne_0_lookup. by exists u. }
  unfold num_ues in Hn.
  assert (Hca : 1 <= activeUes (bwp_at (m_bwpMap m) a) <= 65535).
  { rewrite Hc. pose proof (on_bwp_le (m_ueMap m) a). lia. }
  assert (Hcb : 0 <= activeUes (bwp_at (m_bwpMap m) b) < 65535)
    by (rewrite Hc; lia).
  destruct (m_bwpMap m !! a) as [ia|] eqn:Hma.
  2:{ unfold bwp_at in Hca. rewrite Hma in Hca. simpl in Hca. lia. }
  unfold bwp_at in Hca, Hcb. rewrite Hma in Hca. rewrite Hb in Hcb.
  cbn [from_option id] in Hca, Hcb.
  set (m1 := SwitchBwp m u b).
  assert (Hm1 : m1 = mkNrUeBwpManager
                  (<[b := set_activeUes (activeUes ib + 1) ib]>
                     (<[a := set_activeUes (activeUes ia - 1) ia]> (m_bwpMap m)))
                  (<[u := b]> (m_ueMap m)) (m_defaultBwpId m)
                  ((u, b) :: phyNotifications m)).
  { unfold m1, SwitchBwp. rewrite Hu, Hb, decide_False by done.
    unfold incr_active, decr_active, bwp_at.
    rewrite Hma. cbn [from_option id].
    rewrite lookup_insert_ne, Hb by done. cbn [from_option id].
    unfold u16. rewrite !Z.mod_small by lia. done. }
  cbv zeta. fold m1. rewrite Hm1. unfold SwitchBwp.
  cbn [m_ueMap m_bwpMap m_defaultBwpId phyNotifications].
  rewrite lookup_insert_eq, lookup_insert_ne, lookup_insert_eq by done.
  rewrite decide_False by done.
  cbn [m_ueMap m_bwpMap phyNotifications].
  split; [|split; [|done]].
  - rewrite insert_insert_eq. by apply insert_id.
  - unfold incr_active, decr_active, bwp_at.
    rewrite lookup_insert_eq. cbn [from_option id].
    rewrite lookup_insert_ne, lookup_insert_ne, lookup_insert_eq by done.
    cbn [from_option id activeUes set_activeUes].
    unfold u16. rewrite !Z.mod_small by lia.
    apply map_eq. intros k.
    destruct (decide (k = a)) as [->|Hka].
    + rewrite lookup_insert_eq, Hma. f_equal. destruct ia.
      unfold set_activeUes. simpl. f_equal. lia.
    + rewrite lookup_insert_ne by done.
      destruct (decide (k = b)) as [->|Hkb].
      * rewrite lookup_insert_eq, Hb. f_equal. destruct ib.
        unfold set_activeUes. simpl. f_equal. lia.
      * by rewrite !lookup_insert_ne by done.
Qed.

Lemma SwitchBwp_roundtrip_witness :
  let m2 := SwitchBwp (SwitchBwp demo_manager 1 1) 1 0 in
  m_ueMap m2 = m_ueMap demo_manager ∧ m_bwpMap m2 = m_bwpMap demo_manager ∧
  phyNotifications m2 = (1, 0) :: (1, 1) :: phyNotifications demo_manager.
Proof.
  apply (SwitchBwp_roundtrip demo_manager 1 0 1).
  - apply (ue_run_inv _ (add_bwps (manager_new 0) [(0, 10); (1, 10)])).
    + apply (add_bwps_inv [(0, 10); (1, 10)] (manager_new 0));
        [done|apply manager_new_inv].
    + vm_compute. congruence.
    + vm_compute. repeat split; congruence.
  - vm_compute. congruence.
  - reflexivity.
  - vm_compute. eauto.
  - lia.
Defined.

(** * Further properties of the scheduler *)

#[local] Instance key_le_trans : Transitive key_le.
Proof. intros a b c. unfold key_le. lia. Qed.

#[local] Instance key_le_total : Total key_le.
Proof. intros a b. unfold key_le. lia. Qed.

(** X14. [DoInitialize] appends one statistics entry per registered
    sub-band, numbered 0, 1, 2, ... in order whatever ids the registry
    uses; entry [i] starts with failure rate [0.1 + 0.2 i], occupancy
    [0.2 + 0.2 i], window 8 and 20 bits per resource block, so from
    entry 5 on the initial failure rate and occupancy already exceed 1. *)
Theorem DoInitialize_entries (s : NrUeAiScheduler) (mgr : NrUeBwpManager) :
  let s' := DoInitialize s mgr in
  let n := Z.to_nat (GetNumBwps mgr) in
  length (m_bwpStats s') = (length (m_bwpStats s) + n)%nat ∧
  (∀ i, (i < length (m_bwpStats s))%nat →
        m_bwpStats s' !! i = m_bwpStats s !! i) ∧
  (∀ i, (i < n)%nat →
        m_bwpStats s' !! (length (m_bwpStats s) + i)%nat =
          Some (initial_stats (Z.of_nat i)) ∧
        bs_bwpId (initial_stats (Z.of_nat i)) = Z.of_nat i ∧
        ((5 <= i)%nat →
         Dbl.ltb d1 (bs_lbtFailureRate (initial_stats (Z.of_nat i))) = true ∧
         Dbl.ltb d1 (bs_wifiOccupancy (initial_stats (Z.of_nat i))) = true)) ∧
  m_ueStats s' = m_ueStats s ∧ m_epsilon s' = m_epsilon s.
Proof.
  cbv zeta. unfold DoInitialize. cbn [m_bwpStats set_stats m_ueStats m_epsilon].
  split; [by rewrite length_app, length_map, length_seq|].
  split; [intros i Hi; by rewrite lookup_app_l|].
  split; [|done]. intros i Hi. split; [|split; [done|]].
  - rewrite lookup_app_r by lia.
    replace (length (m_bwpStats s) + i - length (m_bwpStats s))%nat with i by lia.
    rewrite list_lookup_fmap, lookup_seq_lt by done. done.
  - intros H5. unfold initial_stats. cbn [bs_lbtFailureRate bs_wifiOccupancy].
    unfold Dbl.of_Z, Dbl.mul, Dbl.add, d0_1, d1.
    assert (H5q : (5 <= inject_Z (Z.of_nat i))%Q).
    { change 5%Q with (inject_Z 5). rewrite <- Zle_Qle. lia. }
    split; apply ltb_Num; rewrite !Qred_correct; lra.
Qed.

(** X15. [CollectWindowStatistics] rebuilds the terminal statistics from
    the registry alone: whatever the list held before, afterwards it has
    one entry per registered terminal, in increasing order of terminal
    id and without repetition, each with the sub-band recorded in the
    registry and the four PHY readings of that terminal.  The sub-band
    entries keep their ids, order and window counters. *)
Theorem collect_rebuilds_ue_stats
    (s : NrUeAiScheduler) (lbt : NrUeLbt) (mgr : NrUeBwpManager) (phy : NrUePhy) :
  let s' := CollectWindowStatistics s lbt mgr phy in
  StronglySorted Z.le (map ueId (m_ueStats s')) ∧
  NoDup (map ueId (m_ueStats s')) ∧
  Z.of_nat (length (m_ueStats s')) = num_ues mgr ∧
  (∀ u b, m_ueMap mgr !! u = Some b ↔
          mkUeStats u b (GetQueueSize phy u) (GetHolDelay phy u)
            (GetThroughput phy u) (GetUeAvgBitsPerRb phy u) ∈ m_ueStats s') ∧
  (∀ ue, ue ∈ m_ueStats s' → m_ueMap mgr !! ueId ue = Some (currentBwp ue)) ∧
  map bs_bwpId (m_bwpStats s') = map bs_bwpId (m_bwpStats s) ∧
  map bs_totalThroughput (m_bwpStats s') = map bs_totalThroughput (m_bwpStats s) ∧
  map bs_totalCollisions (m_bwpStats s') = map bs_totalCollisions (m_bwpStats s).
Proof.
  cbv zeta. unfold CollectWindowStatistics.
  cbn [m_ueStats m_bwpStats set_stats].
  destruct (ue_entries_spec mgr) as [Hnd Hent].
  assert (Hids : map ueId
                   (map (λ uePair : Z * Z,
                      mkUeStats uePair.1 uePair.2 (GetQueueSize phy uePair.1)
                        (GetHolDelay phy uePair.1) (GetThroughput phy uePair.1)
                        (GetUeAvgBitsPerRb phy uePair.1)) (ue_entries mgr)) =
                 (ue_entries mgr).*1).
  { rewrite map_map. by apply map_ext. }
  rewrite Hids. split; [|split; [done|split; [|split; [|split]]]].
  - unfold ue_entries.
    apply (StronglySorted_fmap fst key_le Z.le); [by intros ? ?|].
    apply StronglySorted_merge_sort; apply _.
  - pose proof (collected_ues s lbt mgr phy) as H. cbv zeta in H.
    destruct H as (H & _). unfold CollectWindowStatistics in H.
    cbn [m_ueStats set_stats] in H. exact H.
  - intros u b. rewrite <- Hent. split.
    + intros Hin. apply list_elem_of_fmap. by exists (u, b).
    + intros Hin. apply list_elem_of_fmap in Hin as ([u' b'] & E & Hin).
      by injection E as -> ->.
  - intros ue Hin. apply list_elem_of_fmap in Hin as ([u' b'] & -> & Hin).
    simpl. by apply Hent.
  - split; [|split]; rewrite map_map; by apply map_ext.
Qed.

Lemma assign_block_preserves (P : NrUeBwpManager → Prop) :
  (∀ m u b, P m → P (SwitchBwp m u b)) →
  ∀ n ues idx b m, P m → P (assign_block n ues idx b m).1.
Proof.
  intros HP n ues. induction n as [|n IH]; intros idx b m Hm; [done|].
  cbn [assign_block]. destruct (idx <? Z.of_nat (length ues)); [|done].
  destruct (ues !! Z.to_nat idx); [|done]. apply IH. by apply HP.
Qed.

Lemma AssignBwpsLca_preserves (P : NrUeBwpManager → Prop) :
  (∀ m u b, P m → P (SwitchBwp m u b)) →
  ∀ s mgr mgr', P mgr → AssignBwpsLca s mgr = Some mgr' → P mgr'.
Proof.
  intros HP s mgr mgr' Hm. unfold AssignBwpsLca. cbv zeta.
  destruct (Z.of_nat (length (m_ueStats s)) <=? m_maxScheduledUes s).
  - intros [= <-]. generalize ((find_best mgr (m_bwpStats s)).1). intros best.
    generalize (m_ueStats s). intros ues. revert mgr Hm.
    induction ues as [|ue ues IH]; intros mgr Hm; [done|].
    simpl. apply IH. by apply HP.
  - destruct (mapM _ _) as [cs|]; [|done]. simpl. intros [= <-].
    generalize (zip (m_bwpStats s) cs). intros bcs.
    assert (H : ∀ acc : NrUeBwpManager * Z, P acc.1 →
              P (fold_left
                   (λ (acc : NrUeBwpManager * Z) (bc : BwpStats * Z),
                      assign_block (Z.to_nat bc.2) (m_ueStats s) acc.2
                        (bs_bwpId bc.1) acc.1) bcs acc).1).
    { induction bcs as [|bc bcs IH]; intros acc Hacc; [done|].
      simpl. apply IH. by apply assign_block_preserves. }
    by apply (H (mgr, 0)).
Qed.

Lemma SwitchBwp_GetNumRbs m u new b :
  GetNumRbs (SwitchBwp m u new) b = GetNumRbs m b.
Proof.
  destruct (SwitchBwp_cases m u new) as [[-> _]|(old & Hu & Hne & [i Hb] & ->)];
    [done|].
  unfold GetNumRbs. cbn [m_bwpMap]. unfold incr_active, decr_active.
  rewrite !lookup_insert. unfold bwp_at.
  destruct (decide (new = b)) as [->|Hnb].
  - rewrite lookup_insert_ne by done. by rewrite Hb.
  - destruct (decide (old = b)) as [->|Hob]; [|done].
    by destruct (m_bwpMap m !! b).
Qed.

Lemma SwitchBwp_num_ues m u new : num_ues (SwitchBwp m u new) = num_ues m.
Proof.
  destruct (SwitchBwp_cases m u new) as [[-> _]|(old & Hu & Hne & _ & ->)];
    [done|].
  unfold num_ues. cbn [m_ueMap]. by rewrite map_size_insert_Some.
Qed.

(** X16. Whatever it decides, in the single-sub-band branch or in the
    proportional one, the LCA policy only moves terminals: afterwards the
    same terminals are registered, every sub-band has the resource blocks
    it had, and the active counts are again the exact per-sub-band
    numbers of terminals, adding up to the number of terminals (at most
    65535 terminals). *)
Theorem lca_preserves_registry
    (s : NrUeAiScheduler) (mgr mgr' : NrUeBwpManager) :
  reg_inv mgr → num_ues mgr <= 65535 →
  AssignBwpsLca s mgr = Some mgr' →
  reg_inv mgr' ∧ num_ues mgr' = num_ues mgr ∧
  total_active mgr' = total_active mgr ∧
  (∀ u, is_Some (m_ueMap mgr' !! u) ↔ is_Some (m_ueMap mgr !! u)) ∧
  (∀ b, GetNumRbs mgr' b = GetNumRbs mgr b) ∧
  (∀ b, GetActiveUes mgr' b = Z.of_nat (on_bwp (m_ueMap mgr') b)).
Proof.
  intros Hinv Hn Hlca.
  set (P := λ m, reg_inv m ∧ num_ues m = num_ues mgr ∧
                 (∀ u, is_Some (m_ueMap m !! u) ↔ is_Some (m_ueMap mgr !! u)) ∧
                 (∀ b, GetNumRbs m b = GetNumRbs mgr b)).
  assert (Hstep : ∀ m u b, P m → P (SwitchBwp m u b)).
  { intros m u b (Hi & Hnn & Hd & Hr). split; [|split; [|split]].
    - apply SwitchBwp_inv; [done|lia].
    - by rewrite SwitchBwp_num_ues.
    - intros v. rewrite SwitchBwp_ue_some. apply Hd.
    - intros b'. rewrite SwitchBwp_GetNumRbs. apply Hr. }
  assert (H0 : P mgr) by (unfold P; done).
  destruct (AssignBwpsLca_preserves P Hstep s mgr mgr' H0 Hlca)
    as (Hinv' & Hn' & Hdom & Hrb).
  split; [done|]. split; [done|]. split.
  - destruct Hinv as [_ ->]. destruct Hinv' as [_ ->]. done.
  - split; [done|]. split; [done|]. intros b.
    rewrite GetActiveUes_bwp_at. by destruct Hinv' as [-> _].
Qed.

Lemma prop_manager_inv :
  reg_inv prop_manager ∧ num_ues prop_manager <= 65535.
Proof.
  destruct (ue_run_inv (map OpAddUe [1; 2; 3; 4; 5; 6; 7; 8; 9; 10; 11; 12])
              (add_bwps (manager_new 0) [(0, 1); (1, 2); (2, 3)])) as [H1 H2].
  - apply (add_bwps_inv [(0, 1); (1, 2); (2, 3)] (manager_new 0));
      [done|apply manager_new_inv].
  - vm_compute. congruence.
  - vm_compute. repeat split; congruence.
  - done.
Qed.

Lemma lca_preserves_registry_witness :
  ∃ mgr', AssignBwpsLca prop_scheduler prop_manager = Some mgr' ∧
    reg_inv mgr' ∧ num_ues mgr' = num_ues prop_manager ∧
    total_active mgr' = total_active prop_manager ∧
    (∀ u, is_Some (m_ueMap mgr' !! u) ↔ is_Some (m_ueMap prop_manager !! u)) ∧
    (∀ b, GetNumRbs mgr' b = GetNumRbs prop_manager b) ∧
    (∀ b, GetActiveUes mgr' b = Z.of_nat (on_bwp (m_ueMap mgr') b)).
Proof.
  destruct (AssignBwpsLca prop_scheduler prop_manager) as [mgr'|] eqn:E;
    [|by vm_compute in E].
  exists mgr'. split; [done|].
  destruct prop_manager_inv as [H1 H2].
  exact (lca_preserves_registry prop_scheduler prop_manager mgr' H1 H2 E).
Defined.

Lemma zip_nil_r {A B} (l : list A) : zip l (@nil B) = [].
Proof. by destruct l. Qed.

Lemma assign_block_switch_pairs (ues : list UeStats) (b : Z) : ∀ n idx m,
  0 <= idx <= Z.of_nat (length ues) → Z.of_nat (length ues) < 65536 →
  assign_block n ues idx b m =
  (switch_pairs m (zip (drop (Z.to_nat idx) ues) (replicate n b)),
   Z.min (idx + Z.of_nat n) (Z.of_nat (length ues))).
Proof.
  induction n as [|n IH]; intros idx m Hidx Hlen.
  { cbn [assign_block replicate]. unfold switch_pairs.
    rewrite zip_nil_r. simpl. f_equal. lia. }
  cbn [assign_block].
  destruct (Z.ltb_spec idx (Z.of_nat (length ues))).
  - destruct (ues !! Z.to_nat idx) as [ue|] eqn:Hue.
    2:{ apply lookup_ge_None in Hue. lia. }
    rewrite (drop_S _ _ _ Hue). cbn [replicate zip zip_with].
    unfold switch_pairs at 1. cbn [fold_left fst snd].
    assert (E : u16 (idx + 1) = idx + 1) by (unfold u16; apply Z.mod_small; lia).
    rewrite E, IH by lia.
    replace (Z.to_nat (idx + 1)) with (S (Z.to_nat idx)) by lia.
    unfold switch_pairs. f_equal. lia.
  - rewrite drop_ge by lia. unfold switch_pairs. simpl. f_equal. lia.
Qed.

Lemma distribute_switch_pairs (ues : list UeStats) (bcs : list (BwpStats * Z)) :
  Z.of_nat (length ues) < 65536 →
  ∀ idx m, 0 <= idx <= Z.of_nat (length ues) →
  (fold_left
     (λ (acc : NrUeBwpManager * Z) (bc : BwpStats * Z),
        assign_block (Z.to_nat bc.2) ues acc.2 (bs_bwpId bc.1) acc.1)
     bcs (m, idx)).1 =
  switch_pairs m
    (zip (drop (Z.to_nat idx) ues)
       (concat (map (λ bc : BwpStats * Z,
                       replicate (Z.to_nat bc.2) (bs_bwpId bc.1)) bcs))).
Proof.
  intros Hlen. induction bcs as [|bc bcs IH]; intros idx m Hidx.
  { cbn [fold_left map concat fst]. unfold switch_pairs.
    by rewrite zip_nil_r. }
  cbn [fold_left map concat fst snd].
  rewrite assign_block_switch_pairs by done.
  rewrite IH by lia.
  unfold switch_pairs. rewrite zip_with_app_r, fold_left_app.
  rewrite length_replicate, drop_drop.
  rewrite zip_with_take_l' by (rewrite length_replicate; lia).
  f_equal.
  destruct (Z.le_gt_cases (idx + Z.of_nat (Z.to_nat bc.2)) (Z.of_nat (length ues))).
  - rewrite Z.min_l by lia. do 2 f_equal. lia.
  - rewrite Z.min_r by lia. rewrite !drop_ge by lia. done.
Qed.

Lemma SwitchBwp_ue_other m u new v :
  v ≠ u → m_ueMap (SwitchBwp m u new) !! v = m_ueMap m !! v.
Proof.
  intros Hne.
  destruct (SwitchBwp_cases m u new) as [[-> _]|(old & _ & _ & _ & ->)]; [done|].
  cbn [m_ueMap]. by rewrite lookup_insert_ne.
Qed.

Lemma switch_pairs_cons m p ps :
  switch_pairs m (p :: ps) = switch_pairs (SwitchBwp m (ueId p.1) p.2) ps.
Proof. done. Qed.

Lemma switch_pairs_other (ps : list (UeStats * Z)) : ∀ m v,
  (∀ p, p ∈ ps → ueId p.1 ≠ v) →
  m_ueMap (switch_pairs m ps) !! v = m_ueMap m !! v.
Proof.
  induction ps as [|p ps IH]; intros m v Hv; [done|].
  rewrite switch_pairs_cons, IH.
  - apply SwitchBwp_ue_other. intros ->. by apply (Hv p); [left|].
  - intros q Hq. apply Hv. by right.
Qed.

Lemma switch_pairs_lookup (ps : list (UeStats * Z)) : ∀ m,
  NoDup (map (λ p : UeStats * Z, ueId p.1) ps) →
  (∀ p, p ∈ ps → is_Some (m_ueMap m !! ueId p.1) ∧
                 is_Some (m_bwpMap m !! p.2)) →
  ∀ p, p ∈ ps → m_ueMap (switch_pairs m ps) !! ueId p.1 = Some p.2.
Proof.
  induction ps as [|q ps IH]; intros m Hnd Hreg p Hp.
  { by apply elem_of_nil in Hp. }
  cbn [map] in Hnd. apply NoDup_cons in Hnd as [Hq Hnd].
  rewrite switch_pairs_cons.
  apply elem_of_cons in Hp as [->|Hp].
  - rewrite (switch_pairs_other ps).
    + apply SwitchBwp_to; apply Hreg; left.
    + intros p Hp E. apply Hq. rewrite <- E.
      apply (list_elem_of_fmap_2 (λ p : UeStats * Z, ueId p.1)). done.
  - apply IH; [done| |done]. intros p' Hp'. split.
    + apply SwitchBwp_ue_some. apply Hreg. by right.
    + apply SwitchBwp_bwp_some. apply Hreg. by right.
Qed.

Lemma AssignBwpsLca_proportional s mgr cs :
  m_maxScheduledUes s < Z.of_nat (length (m_ueStats s)) →
  Z.of_nat (length (m_ueStats s)) < 65536 →
  lca_counts s mgr = Some cs →
  AssignBwpsLca s mgr =
  Some (switch_pairs mgr (zip (m_ueStats s) (lca_targets (m_bwpStats s) cs))).
Proof.
  intros Hmax Hlen Hcs. unfold AssignBwpsLca. cbv zeta.
  destruct (Z.leb_spec (Z.of_nat (length (m_ueStats s))) (m_maxScheduledUes s));
    [lia|].
  unfold lca_counts in Hcs. cbv zeta in Hcs. rewrite Hcs. simpl. f_equal.
  rewrite distribute_switch_pairs by lia. simpl drop.
  unfold lca_targets. do 2 f_equal.
  rewrite (zip_with_zip (λ (st : BwpStats) (c : Z),
                           replicate (Z.to_nat c) (bs_bwpId st))).
  f_equal. apply map_ext. by intros [].
Qed.

Lemma lca_targets_listed (stats : list BwpStats) : ∀ cs b,
  b ∈ lca_targets stats cs → ∃ st, st ∈ stats ∧ b = bs_bwpId st.
Proof.
  unfold lca_targets.
  induction stats as [|st stats IH]; intros [|c cs] b Hb;
    cbn [zip_with concat] in Hb; try by apply elem_of_nil in Hb.
  apply elem_of_app in Hb as [Hb|Hb].
  - apply elem_of_replicate_inv in Hb. exists st. split; [left|done].
  - destruct (IH cs b Hb) as (st' & Hst & ->). exists st'. split; [by right|done].
Qed.

Lemma zip_ids_NoDup (ues : list UeStats) : ∀ ts : list Z,
  NoDup (map ueId ues) →
  NoDup (map (λ p : UeStats * Z, ueId p.1) (zip ues ts)).
Proof.
  induction ues as [|ue ues IH]; intros [|t ts] Hnd;
    cbn [zip zip_with map]; try apply NoDup_nil_2.
  cbn [map] in Hnd. apply NoDup_cons in Hnd as [Hue Hnd].
  apply NoDup_cons. split; [|by apply IH].
  intros Hin. apply Hue.
  apply (list_elem_of_fmap (λ p : UeStats * Z, ueId p.1)) in Hin
    as ([ue' t'] & E & Hin).
  cbn [fst] in E. rewrite E.
  apply (list_elem_of_fmap_2 ueId). by apply elem_of_zip_l in Hin.
Qed.

(** X17.  The proportional branch of [AssignBwpsLca].  When more terminals
    are collected than [m_maxScheduledUes] (and fewer than 65536, the range
    of the [uint16_t] index), and every share [round (size * metric / total)]
    is representable, the call lays the shares out in the order of the
    statistics list: the terminal at position [k] of the terminal list ends
    on the sub-band at position [k] of that layout.  Terminals beyond the
    sum of the shares are not switched and keep their sub-band; shares
    beyond the number of terminals are dropped. *)
Theorem lca_proportional_layout s mgr cs :
  m_maxScheduledUes s < Z.of_nat (length (m_ueStats s)) →
  Z.of_nat (length (m_ueStats s)) < 65536 →
  lca_counts s mgr = Some cs →
  NoDup (map ueId (m_ueStats s)) →
  (∀ ue, ue ∈ m_ueStats s → is_Some (m_ueMap mgr !! ueId ue)) →
  (∀ st, st ∈ m_bwpStats s → is_Some (m_bwpMap mgr !! bs_bwpId st)) →
  ∃ mgr', AssignBwpsLca s mgr = Some mgr' ∧
    ∀ k ue, m_ueStats s !! k = Some ue →
      m_ueMap mgr' !! ueId ue =
      match lca_targets (m_bwpStats s) cs !! k with
      | Some b => Some b
      | None => m_ueMap mgr !! ueId ue
      end.
Proof.
  intros Hmax Hlen Hcs Hnd Hues Hbwps.
  rewrite (AssignBwpsLca_proportional s mgr cs Hmax Hlen Hcs).
  eexists. split; [done|]. intros k ue Hk.
  destruct (lca_targets (m_bwpStats s) cs !! k) as [b|] eqn:Hb.
  - apply (switch_pairs_lookup _ mgr (zip_ids_NoDup _ _ Hnd)) with (p := (ue, b)).
    + intros [ue' b'] Hp. cbn [fst snd]. split.
      * apply Hues. by apply elem_of_zip_l in Hp.
      * apply elem_of_zip_r in Hp.
        destruct (lca_targets_listed _ _ _ Hp) as (st & Hst & ->).
        by apply Hbwps.
    + apply list_elem_of_lookup. exists k. apply lookup_zip_Some. done.
  - apply switch_pairs_other. intros [ue' b'] Hp E. cbn [fst] in E.
    apply list_elem_of_lookup in Hp as [j Hj].
    apply lookup_zip_Some in Hj as [Hj1 Hj2].
    assert (j = k).
    { apply (NoDup_lookup (map ueId (m_ueStats s)) j k (ueId ue)); [done| |].
      - change (map ueId (m_ueStats s)) with (ueId <$> m_ueStats s).
        by rewrite list_lookup_fmap, Hj1, <- E.
      - change (map ueId (m_ueStats s)) with (ueId <$> m_ueStats s).
        by rewrite list_lookup_fmap, Hk. }
    subst j. congruence.
Qed.

Lemma lca_proportional_layout_witness :
  ∃ mgr', AssignBwpsLca prop_scheduler prop_manager = Some mgr' ∧
    ∀ k ue, m_ueStats prop_scheduler !! k = Some ue →
      m_ueMap mgr' !! ueId ue =
      match lca_targets (m_bwpStats prop_scheduler) [2; 4; 6] !! k with
      | Some b => Some b
      | None => m_ueMap prop_manager !! ueId ue
      end.
Proof.
  apply (lca_proportional_layout prop_scheduler prop_manager [2; 4; 6]).
  - vm_compute. reflexivity.
  - vm_compute. reflexivity.
  - vm_compute. reflexivity.
  - apply (bool_decide_unpack _). vm_compute. exact I.
  - apply Forall_forall. apply (bool_decide_unpack _). vm_compute. exact I.
  - apply Forall_forall. apply (bool_decide_unpack _). vm_compute. exact I.
Defined.

Lemma share_of_zero_total (n : Z) (m : double) (q : Q) :
  Qeq_bool q 0 = true →
  to_u16 (dround (Dbl.mul (Dbl.of_Z n) (Dbl.div m (Dbl.Num q)))) = None.
Proof.
  intros Hq.
  assert (Hinf : ∀ c, to_u16 (dround (Dbl.mul (Dbl.of_Z n) (Dbl.inf_of c))) = None).
  { intros c. unfold Dbl.mul, Dbl.of_Z.
    destruct c; cbn [Dbl.inf_of Dbl.sgn]; try done;
      by destruct (inject_Z n ?= 0)%Q. }
  destruct m as [a| | |]; unfold Dbl.div; rewrite ?Hq.
  - apply Hinf.
  - apply (Hinf Gt).
  - apply (Hinf Lt).
  - apply (Hinf Eq).
Qed.

(** X18.  The proportional branch of [AssignBwpsLca] with a zero total
    metric.  When more terminals are collected than [m_maxScheduledUes],
    the statistics list is not empty and the metrics add up to zero (every
    sub-band fails all its LBT attempts, or has no resource blocks), each
    share [size * metric / total] is a division by zero: the value is NaN
    or infinite and its conversion to [uint16_t] is undefined.  No guard
    of the function excludes this case. *)
Theorem lca_zero_total_undefined s mgr (q : Q) :
  m_maxScheduledUes s < Z.of_nat (length (m_ueStats s)) →
  m_bwpStats s ≠ [] →
  fold_left Dbl.add (map (lca_metric mgr) (m_bwpStats s)) d0 = Dbl.Num q →
  (q == 0)%Q →
  AssignBwpsLca s mgr = None.
Proof.
  intros Hmax Hne Htot Hq. unfold AssignBwpsLca. cbv zeta.
  destruct (Z.leb_spec (Z.of_nat (length (m_ueStats s))) (m_maxScheduledUes s));
    [lia|].
  rewrite Htot. apply Qeq_bool_iff in Hq.
  destruct (m_bwpStats s) as [|st stats]; [done|].
  cbn [map mapM]. rewrite (share_of_zero_total _ _ _ Hq). done.
Qed.

Lemma lca_zero_total_undefined_witness :
  AssignBwpsLca blocked_scheduler prop_manager = None.
Proof.
  apply (lca_zero_total_undefined blocked_scheduler prop_manager 0).
  - vm_compute. reflexivity.
  - discriminate.
  - vm_compute. reflexivity.
  - reflexivity.
Defined.

Lemma lca_window_step s lbt mgr phy rnd s' mgr' :
  m_algorithmType s = LCA →
  RunDecisionWindow s lbt mgr phy rnd = Some (s', mgr') →
  AssignBwpsLca (CollectWindowStatistics s lbt mgr phy) mgr = Some mgr' ∧
  m_algorithmType s' = LCA ∧
  m_currentWindow s' = u32 (m_currentWindow s + 1) ∧
  m_epsilon s' = m_epsilon s ∧
  map bs_bwpId (m_bwpStats s') = map bs_bwpId (m_bwpStats s) ∧
  map bs_avgBitsPerRb (m_bwpStats s') =
    map (λ st, Dbl.add (Dbl.mul d0_9 (bs_avgBitsPerRb st))
                 (Dbl.mul d0_1 (GetAvgBitsPerRb phy (bs_bwpId st))))
      (m_bwpStats s) ∧
  Forall (λ st, bs_totalThroughput st = d0 ∧ bs_totalCollisions st = 0)
    (m_bwpStats s') ∧
  map (λ ue, (ueId ue, currentBwp ue)) (m_ueStats s') = ue_entries mgr.
Proof.
  intros Halg Hrun. unfold RunDecisionWindow in Hrun. cbv zeta in Hrun.
  replace (m_algorithmType (CollectWindowStatistics s lbt mgr phy)) with LCA
    in Hrun by (symmetry; exact Halg).
  destruct (AssignBwpsLca (CollectWindowStatistics s lbt mgr phy) mgr)
    as [m1|] eqn:E; [|done].
  cbn [mbind option_bind fst snd] in Hrun. injection Hrun as <- <-.
  split; [done|]. split; [exact Halg|]. split; [done|]. split; [done|].
  cbn [set_currentWindow ResetWindowStatistics CollectWindowStatistics
       set_stats m_bwpStats m_ueStats].
  rewrite !map_map. cbn [bs_bwpId bs_avgBitsPerRb bs_totalThroughput
                          bs_totalCollisions ueId currentBwp].
  split; [done|]. split; [done|]. split.
  - apply Forall_forall. intros st Hst.
    apply list_elem_of_In, in_map_iff in Hst as (st0 & <- & _). done.
  - rewrite <- (map_id (ue_entries mgr)) at 2. apply map_ext. by intros [].
Qed.

(** X19.  Any number of decision windows under the LCA policy.  Whenever
    the windows all complete, the window counter has advanced by their
    number modulo 2^32, the statistics list still holds the same sub-band
    ids in the same order, the exploration rate is untouched, and the
    registry still has exact per-sub-band counts and the same number of
    terminals. *)
Theorem lca_windows_invariants (ws : list (NrUeLbt * NrUePhy)) :
  ∀ s mgr s' mgr',
  m_algorithmType s = LCA →
  0 <= m_currentWindow s < 2 ^ 32 →
  reg_inv mgr → num_ues mgr <= 65535 →
  lca_windows s mgr ws = Some (s', mgr') →
  m_currentWindow s' = u32 (m_currentWindow s + Z.of_nat (length ws)) ∧
  map bs_bwpId (m_bwpStats s') = map bs_bwpId (m_bwpStats s) ∧
  m_epsilon s' = m_epsilon s ∧
  reg_inv mgr' ∧ num_ues mgr' = num_ues mgr.
Proof.
  induction ws as [|w ws IH]; intros s mgr s' mgr' Halg Hw Hinv Hn Hrun.
  { cbn [lca_windows] in Hrun. injection Hrun as <- <-.
    cbn [length Z.of_nat]. rewrite Z.add_0_r.
    unfold u32. rewrite Z.mod_small by lia. done. }
  cbn [lca_windows] in Hrun.
  destruct (RunDecisionWindow s w.1 mgr w.2 d0) as [[s1 m1]|] eqn:E; [|done].
  cbn [mbind option_bind fst snd] in Hrun.
  destruct (lca_window_step _ _ _ _ _ _ _ Halg E)
    as (Hlca & Halg1 & Hw1 & Heps1 & Hids1 & _ & _ & _).
  assert (Hreg1 : reg_inv m1 ∧ num_ues m1 = num_ues mgr).
  { apply (AssignBwpsLca_preserves
             (λ m, reg_inv m ∧ num_ues m = num_ues mgr)) in Hlca; [done| |done].
    intros m u b [Hm Hnm]. split.
    - apply SwitchBwp_inv; [done|lia].
    - by rewrite SwitchBwp_num_ues. }
  destruct Hreg1 as [Hinv1 Hn1].
  destruct (IH s1 m1 s' mgr' Halg1) as (Hw' & Hids' & Heps' & Hinv' & Hn');
    try done.
  { rewrite Hw1. unfold u32. apply Z.mod_pos_bound. lia. }
  { lia. }
  split.
  { rewrite Hw', Hw1. unfold u32. rewrite Zplus_mod_idemp_l.
    f_equal. cbn [length]. lia. }
  split; [congruence|]. split; [congruence|].
  split; [done|lia].
Qed.

Lemma lca_windows_invariants_witness :
  ∃ s' mgr',
    lca_windows prop_scheduler prop_manager calm_windows = Some (s', mgr') ∧
    m_currentWindow s' =
      u32 (m_currentWindow prop_scheduler + Z.of_nat (length calm_windows)) ∧
    map bs_bwpId (m_bwpStats s') = map bs_bwpId (m_bwpStats prop_scheduler) ∧
    m_epsilon s' = m_epsilon prop_scheduler ∧
    reg_inv mgr' ∧ num_ues mgr' = num_ues prop_manager.
Proof.
  destruct (lca_windows prop_scheduler prop_manager calm_windows)
    as [[s' mgr']|] eqn:E; [|by vm_compute in E].
  exists s', mgr'. split; [done|].
  destruct prop_manager_inv as [H1 H2].
  apply (lca_windows_invariants calm_windows
           prop_scheduler prop_manager s' mgr').
  - reflexivity.
  - vm_compute. split; congruence.
  - exact H1.
  - exact H2.
  - exact E.
Defined.

(** * Registering a sub-band twice *)

Lemma on_bwp_pos (um : gmap Z Z) (u b : Z) :
  um !! u = Some b → (0 < on_bwp um b)%nat.
Proof.
  intros Hu. unfold on_bwp.
  assert (H : size (filter (λ kv : Z * Z, kv.2 = b) um) ≠ 0%nat); [|lia].
  apply (map_size_ne_0_lookup_2 _ u). exists b.
  by apply map_lookup_filter_Some.
Qed.

(** X20.  [AddBwp] on a sub-band that already carries terminals.  The
    call overwrites the element with an active count of 0 and leaves the
    terminal map alone: the terminals stay recorded on the sub-band, its
    count no longer matches them (the registry's counts stop being
    exact), and the first terminal switched away decrements the count
    from 0 to 65535. *)
Theorem AddBwp_again_forgets_terminals (m : NrUeBwpManager) (u b rbs : Z) :
  reg_inv m → m_ueMap m !! u = Some b →
  let m' := AddBwp m b rbs in
  GetUeBwp m' u = b ∧
  GetActiveUes m' b = 0 ∧
  GetNumRbs m' b = rbs ∧
  (0 < on_bwp (m_ueMap m') b)%nat ∧
  ¬ reg_inv m' ∧
  ∀ new, new ≠ b → is_Some (m_bwpMap m !! new) →
         GetUeBwp (SwitchBwp m' u new) u = new ∧
         GetActiveUes (SwitchBwp m' u new) b = 65535.
Proof.
  intros Hinv Hu m'. unfold m', AddBwp, GetUeBwp, GetActiveUes, GetNumRbs.
  cbn [m_ueMap m_bwpMap]. rewrite Hu, !lookup_insert_eq.
  cbn [activeUes numRbs].
  pose proof (on_bwp_pos _ _ _ Hu) as Hpos.
  split; [done|]. split; [done|]. split; [done|]. split; [done|]. split.
  - intros [Hc _]. specialize (Hc b). cbn [m_ueMap m_bwpMap] in Hc.
    unfold bwp_at in Hc. rewrite lookup_insert_eq in Hc.
    cbn [from_option id activeUes] in Hc. lia.
  - intros new Hne [inew Hnew]. unfold SwitchBwp.
    cbn [m_ueMap m_bwpMap m_defaultBwpId phyNotifications].
    rewrite Hu, lookup_insert_ne, Hnew by done.
    rewrite decide_False by done. cbn [m_ueMap m_bwpMap].
    rewrite lookup_insert_eq. split; [done|].
    unfold incr_active, decr_active.
    rewrite lookup_insert_ne by done. rewrite lookup_insert_eq.
    unfold bwp_at. rewrite lookup_insert_eq. done.
Qed.

Lemma AddBwp_again_forgets_terminals_witness :
  let m' := AddBwp prop_manager 0 1 in
  GetUeBwp m' 5 = 0 ∧
  GetActiveUes m' 0 = 0 ∧
  GetNumRbs m' 0 = 1 ∧
  (0 < on_bwp (m_ueMap m') 0)%nat ∧
  ¬ reg_inv m' ∧
  ∀ new, new ≠ 0 → is_Some (m_bwpMap prop_manager !! new) →
         GetUeBwp (SwitchBwp m' 5 new) 5 = new ∧
         GetActiveUes (SwitchBwp m' 5 new) 0 = 65535.
Proof.
  apply (AddBwp_again_forgets_terminals prop_manager 5 0 1).
  - exact (proj1 prop_manager_inv).
  - vm_compute. reflexivity.
Defined.

(** * Further properties of the RL environment *)

Lemma fold_left_app_concat {A B} (f : A → list B) (l : list A) : ∀ acc,
  fold_left (λ box x, box ++ f x) l acc = acc ++ concat (map f l).
Proof.
  induction l as [|x l IH]; intros acc; cbn [fold_left map concat].
  - by rewrite app_nil_r.
  - by rewrite IH, app_assoc.
Qed.

Lemma GetObservation_blocks ues bwps :
  GetObservation ues bwps =
  concat (map (ue_state (length bwps)) ues) ++ concat (map bwp_state bwps).
Proof.
  unfold GetObservation. cbv zeta. by rewrite !fold_left_app_concat.
Qed.

Lemma length_concat_uniform {A} (n : nat) (ls : list (list A)) :
  Forall (λ l, length l = n) ls → length (concat ls) = (length ls * n)%nat.
Proof.
  induction 1 as [|l ls Hl _ IH]; [done|].
  cbn [concat length]. rewrite length_app, IH, Hl. lia.
Qed.

Lemma lookup_concat_uniform {A} (n : nat) (ls : list (list A)) :
  Forall (λ l, length l = n) ls →
  ∀ j l i, ls !! j = Some l → (i < n)%nat →
           concat ls !! (j * n + i)%nat = l !! i.
Proof.
  induction 1 as [|l0 ls Hl _ IH]; intros j l i Hj Hi; [done|].
  cbn [concat]. destruct j as [|j].
  - injection Hj as ->. rewrite lookup_app_l by lia. done.
  - rewrite lookup_app_r by lia.
    replace (S j * n + i - length l0)%nat with (j * n + i)%nat by lia.
    by apply IH.
Qed.

Lemma length_ue_state k ue : length (ue_state k ue) = (5 + k)%nat.
Proof. unfold ue_state. by rewrite length_app, length_map, length_seq. Qed.

Lemma ue_states_uniform k ues :
  Forall (λ l, length l = (5 + k)%nat) (map (ue_state k) ues).
Proof. apply Forall_map, Forall_forall. intros. apply length_ue_state. Qed.

Lemma bwp_states_uniform bwps :
  Forall (λ l, length l = 3%nat) (map bwp_state bwps).
Proof. by apply Forall_map, Forall_forall. Qed.

Lemma length_GetObservation ues bwps :
  length (GetObservation ues bwps) =
  (length ues * (5 + length bwps) + length bwps * 3)%nat.
Proof.
  rewrite GetObservation_blocks, length_app.
  rewrite (length_concat_uniform _ _ (ue_states_uniform _ _)).
  rewrite (length_concat_uniform _ _ (bwp_states_uniform _)).
  by rewrite !length_map.
Qed.

(** X21.  The observation fills the declared box exactly.  When the
    scheduler reports the sizes of its two statistics lists and the
    product does not exceed the 32-bit range, the second dimension of
    [GetObservationSpaceShape] is the number of values [GetObservation]
    adds: [numUes * (5 + numBwps) + 3 * numBwps]. *)
Theorem observation_fills_shape (ues : list UeStats) (bwps : list BwpStats) :
  let numUes := Z.of_nat (length ues) in
  let numBwps := Z.of_nat (length bwps) in
  numUes * (5 + numBwps) + 3 * numBwps < 2 ^ 32 →
  Z.of_nat (length (GetObservation ues bwps)) =
    numUes * (5 + numBwps) + 3 * numBwps ∧
  GetObservationSpaceShape numUes numBwps =
    [1; Z.of_nat (length (GetObservation ues bwps))].
Proof.
  intros numUes numBwps Hsz.
  assert (Hlen : Z.of_nat (length (GetObservation ues bwps)) =
                 numUes * (5 + numBwps) + 3 * numBwps).
  { rewrite length_GetObservation. unfold numUes, numBwps. lia. }
  split; [done|]. rewrite Hlen. unfold GetObservationSpaceShape. cbv zeta.
  assert (0 <= numUes) by (unfold numUes; lia).
  assert (0 <= numBwps) by (unfold numBwps; lia).
  unfold u32. rewrite (Z.mod_small (5 + numBwps)) by nia.
  rewrite (Z.mod_small (numUes * _)) by nia.
  rewrite (Z.mod_small (numBwps * 3)) by nia.
  rewrite Z.mod_small by nia. do 2 f_equal. lia.
Qed.

Lemma observation_fills_shape_witness :
  let ues := m_ueStats prop_scheduler in
  let bwps := m_bwpStats prop_scheduler in
  Z.of_nat (length (GetObservation ues bwps)) = 12 * (5 + 3) + 3 * 3 ∧
  GetObservationSpaceShape 12 3 =
    [1; Z.of_nat (length (GetObservation ues bwps))].
Proof.
  apply (observation_fills_shape (m_ueStats prop_scheduler)
           (m_bwpStats prop_scheduler)).
  vm_compute. reflexivity.
Defined.

(** X22.  The layout of the observation.  Terminal [j] of the terminal
    list occupies the [5 + numBwps] values from position
    [j * (5 + numBwps)]: queue size, head-of-line delay, bits per resource
    block, throughput, bits per resource block again, then one value per
    position [i] of the sub-band list, 1.0 exactly when the terminal's
    recorded sub-band id equals the position [i] (not the id stored at
    that position); a terminal whose sub-band id is not a position of the
    list gets zeros only.  Sub-band [j] of the sub-band list follows all
    terminals with occupancy, failure rate and contention window. *)
Theorem observation_layout (ues : list UeStats) (bwps : list BwpStats) :
  let k := length bwps in
  let obs := GetObservation ues bwps in
  (∀ j ue, ues !! j = Some ue →
     obs !! (j * (5 + k))%nat = Some (Dbl.of_Z (queueSize ue)) ∧
     obs !! (j * (5 + k) + 1)%nat = Some (holDelay ue) ∧
     obs !! (j * (5 + k) + 2)%nat = Some (ue_avgBitsPerRb ue) ∧
     obs !! (j * (5 + k) + 3)%nat = Some (throughput ue) ∧
     obs !! (j * (5 + k) + 4)%nat = Some (ue_avgBitsPerRb ue) ∧
     (∀ i, (i < k)%nat →
        obs !! (j * (5 + k) + 5 + i)%nat =
        Some (if decide (currentBwp ue = Z.of_nat i) then d1 else d0)) ∧
     (¬ 0 <= currentBwp ue < Z.of_nat k →
      ∀ i, (i < k)%nat → obs !! (j * (5 + k) + 5 + i)%nat = Some d0)) ∧
  (∀ j bwp, bwps !! j = Some bwp →
     obs !! (length ues * (5 + k) + j * 3)%nat = Some (bs_wifiOccupancy bwp) ∧
     obs !! (length ues * (5 + k) + j * 3 + 1)%nat =
       Some (bs_lbtFailureRate bwp) ∧
     obs !! (length ues * (5 + k) + j * 3 + 2)%nat =
       Some (bs_contentionWindow bwp)).
Proof.
  intros k obs. unfold obs. rewrite GetObservation_blocks. fold k.
  pose proof (length_concat_uniform _ _ (ue_states_uniform k ues)) as Hlen.
  rewrite length_map in Hlen.
  split.
  - intros j ue Hj.
    assert (Hblock : ∀ i, (i < 5 + k)%nat →
              (concat (map (ue_state k) ues) ++ concat (map bwp_state bwps))
                !! (j * (5 + k) + i)%nat = ue_state k ue !! i).
    { intros i Hi. pose proof (lookup_lt_Some _ _ _ Hj) as Hjl.
      rewrite lookup_app_l by (rewrite Hlen; nia).
      apply (lookup_concat_uniform _ _ (ue_states_uniform k ues)); [|done].
      change (map (ue_state k) ues) with (ue_state k <$> ues).
      by rewrite list_lookup_fmap, Hj. }
    assert (Hhot : ∀ i, (i < k)%nat →
              (concat (map (ue_state k) ues) ++ concat (map bwp_state bwps))
                !! (j * (5 + k) + 5 + i)%nat =
              Some (if decide (currentBwp ue = Z.of_nat i) then d1 else d0)).
    { intros i Hi. rewrite <- Nat.add_assoc, Hblock by lia.
      unfold ue_state. rewrite lookup_app_r by (cbn [length]; lia).
      cbn [length]. replace (5 + i - 5)%nat with i by lia.
      change (map ?f ?l) with (f <$> l).
      rewrite list_lookup_fmap, lookup_seq_lt by done. done. }
    rewrite <- (Nat.add_0_r (j * (5 + k))) at 1.
    rewrite !Hblock by lia.
    do 5 (split; [done|]). split; [exact Hhot|].
    intros Hout i Hi. rewrite Hhot by done.
    rewrite decide_False; [done|lia].
  - intros j bwp Hj.
    assert (Hblock : ∀ i, (i < 3)%nat →
              (concat (map (ue_state k) ues) ++ concat (map bwp_state bwps))
                !! (length ues * (5 + k) + j * 3 + i)%nat = bwp_state bwp !! i).
    { intros i Hi. rewrite lookup_app_r by (rewrite Hlen; lia).
      rewrite Hlen.
      replace (length ues * (5 + k) + j * 3 + i - length ues * (5 + k))%nat
        with (j * 3 + i)%nat by lia.
      apply (lookup_concat_uniform _ _ (bwp_states_uniform bwps)); [|done].
      change (map bwp_state bwps) with (bwp_state <$> bwps).
      by rewrite list_lookup_fmap, Hj. }
    rewrite <- (Nat.add_0_r (length ues * (5 + k) + j * 3)) at 1.
    rewrite !Hblock by lia. done.
Qed.

Lemma GetReward_state env us :
  let r := GetReward env us in
  m_alpha r.1 = m_alpha env ∧ m_beta r.1 = m_beta env ∧
  m_maxThroughput r.1 = m_maxThroughput env ∧
  m_currentStep r.1 = m_currentStep env ∧ m_episode r.1 = m_episode env ∧
  m_totalReward r.1 = Dbl.add (m_totalReward env) r.2.
Proof. done. Qed.

Lemma GetReward_nil env : (GetReward env []).2 = Dbl.NaN.
Proof.
  unfold GetReward, reward_sums. cbn [snd fst fold_left length Z.of_nat].
  change (Dbl.div d0 (Dbl.of_Z 0)) with Dbl.NaN.
  by rewrite mul_NaN_r, add_NaN_l.
Qed.

Lemma fold_add_NaN (l : list double) : fold_left Dbl.add l Dbl.NaN = Dbl.NaN.
Proof. induction l as [|x l IH]; [done|]. cbn [fold_left]. by rewrite add_NaN_l. Qed.

Lemma reward_run_state (windows : list (list UeStats)) : ∀ env,
  m_alpha (reward_run env windows) = m_alpha env ∧
  m_beta (reward_run env windows) = m_beta env ∧
  m_maxThroughput (reward_run env windows) = m_maxThroughput env ∧
  m_currentStep (reward_run env windows) = m_currentStep env ∧
  m_episode (reward_run env windows) = m_episode env ∧
  m_totalReward (reward_run env windows) =
    fold_left Dbl.add (map (λ us, (GetReward env us).2) windows)
      (m_totalReward env).
Proof.
  induction windows as [|us ws IH]; intros env; [done|].
  unfold reward_run. cbn [fold_left map]. fold (reward_run (GetReward env us).1 ws).
  destruct (IH (GetReward env us).1) as (Ha & Hb & Hm & Hs & He & Ht).
  destruct (GetReward_state env us) as (Ha1 & Hb1 & Hm1 & Hs1 & He1 & Ht1).
  rewrite Ha, Hb, Hm, Hs, He, Ht, Ht1. cbv zeta.
  do 5 (split; [done|]). f_equal.
Qed.

(** X23.  Rewards over any number of windows.  The accumulated
    [m_totalReward] is the start value plus the returned rewards in the
    order of the calls, each reward depending on the weights and on its
    window's statistics only; [GetReward] never advances [m_currentStep]
    nor [m_episode], so [GetGameOver] answers after the calls what it
    answered before them. *)
Theorem reward_run_accumulates (env : GymBwpRlEnv)
    (windows : list (list UeStats)) :
  m_totalReward (reward_run env windows) =
    fold_left Dbl.add (map (λ us, (GetReward env us).2) windows)
      (m_totalReward env) ∧
  m_currentStep (reward_run env windows) = m_currentStep env ∧
  m_episode (reward_run env windows) = m_episode env ∧
  GetGameOver (reward_run env windows) = GetGameOver env.
Proof.
  destruct (reward_run_state windows env) as (_ & _ & _ & Hs & He & Ht).
  unfold GetGameOver. by rewrite Hs.
Qed.

(** X24.  One window without terminals spoils the total reward for good:
    its reward is NaN (the average divides 0.0 by 0), and every later
    addition keeps [m_totalReward] NaN, whatever the later windows hold. *)
Theorem total_reward_nan_absorbing (env : GymBwpRlEnv)
    (windows : list (list UeStats)) :
  [] ∈ windows → m_totalReward (reward_run env windows) = Dbl.NaN.
Proof.
  intros Hin. destruct (reward_run_state windows env) as (_ & _ & _ & _ & _ & ->).
  apply list_elem_of_In, in_split in Hin as (l1 & l2 & ->).
  rewrite map_app, fold_left_app. cbn [map fold_left].
  by rewrite GetReward_nil, add_NaN_r, fold_add_NaN.
Qed.

Lemma total_reward_nan_absorbing_witness :
  m_totalReward
    (reward_run env_default
       [m_ueStats prop_scheduler; []; m_ueStats prop_scheduler]) = Dbl.NaN.
Proof.
  apply (total_reward_nan_absorbing env_default
           [m_ueStats prop_scheduler; []; m_ueStats prop_scheduler]).
  right. left.
Defined.

(** * The choice of the best sub-band without a positive metric *)

Lemma find_best_none_positive mgr (stats : list BwpStats) :
  (∀ st, st ∈ stats → Dbl.ltb d0 (lca_metric mgr st) = false) →
  find_best mgr stats = (0, d0).
Proof.
  unfold find_best. induction stats as [|st stats IH]; intros Hno; [done|].
  cbn [fold_left]. unfold best_step at 2. cbv zeta. cbn [fst snd].
  rewrite (Hno st) by left. apply IH. intros st' Hst'. apply Hno. by right.
Qed.

Lemma switch_all_unregistered (ues : list UeStats) (b : Z) : ∀ m,
  m_bwpMap m !! b = None →
  fold_left (λ m ue, SwitchBwp m (ueId ue) b) ues m = m.
Proof.
  induction ues as [|ue ues IH]; intros m Hb; [done|].
  cbn [fold_left].
  assert (E : SwitchBwp m (ueId ue) b = m).
  { unfold SwitchBwp. rewrite Hb. by destruct (m_ueMap m !! ueId ue). }
  rewrite E. by apply IH.
Qed.

(** X25.  The best sub-band when no metric is positive.  The search of
    [AssignBwpsLca] and of [GetOptimalAction] starts from sub-band id 0
    with metric 0.0 and moves only on a strictly larger metric, so when no
    listed sub-band has a positive metric (all attempts fail, no resource
    blocks, a NaN statistic) the answer is id 0 whether or not 0 is listed
    or registered.  With at most [m_maxScheduledUes] terminals the LCA
    policy then moves every collected terminal to sub-band 0 when it is
    registered, and changes nothing at all when it is not. *)
Theorem no_positive_metric_picks_zero s mgr :
  (∀ st, st ∈ m_bwpStats s → Dbl.ltb d0 (lca_metric mgr st) = false) →
  Z.of_nat (length (m_ueStats s)) <= m_maxScheduledUes s →
  GetOptimalAction mgr (m_bwpStats s) = 0 ∧
  (m_bwpMap mgr !! 0 = None → AssignBwpsLca s mgr = Some mgr) ∧
  (is_Some (m_bwpMap mgr !! 0) →
   ∃ mgr', AssignBwpsLca s mgr = Some mgr' ∧
     ∀ ue, ue ∈ m_ueStats s → is_Some (m_ueMap mgr !! ueId ue) →
           m_ueMap mgr' !! ueId ue = Some 0).
Proof.
  intros Hno Hmax. pose proof (find_best_none_positive mgr _ Hno) as Hbest.
  unfold GetOptimalAction, AssignBwpsLca. cbv zeta. rewrite Hbest. cbn [fst].
  destruct (Z.leb_spec (Z.of_nat (length (m_ueStats s))) (m_maxScheduledUes s));
    [|lia].
  split; [done|]. split.
  - intros H0. by rewrite switch_all_unregistered.
  - intros H0. eexists. split; [done|].
    apply (switch_all (m_ueStats s) 0 mgr H0).
Qed.

Lemma no_positive_metric_picks_zero_witness :
  GetOptimalAction manager_without_zero (m_bwpStats blocked_wide) = 0 ∧
  (m_bwpMap manager_without_zero !! 0 = None →
   AssignBwpsLca blocked_wide manager_without_zero = Some manager_without_zero) ∧
  (is_Some (m_bwpMap manager_without_zero !! 0) →
   ∃ mgr', AssignBwpsLca blocked_wide manager_without_zero = Some mgr' ∧
     ∀ ue, ue ∈ m_ueStats blocked_wide →
           is_Some (m_ueMap manager_without_zero !! ueId ue) →
           m_ueMap mgr' !! ueId ue = Some 0).
Proof.
  apply (no_positive_metric_picks_zero blocked_wide manager_without_zero).
  - apply Forall_forall. repeat constructor.
  - vm_compute. congruence.
Defined.
